(** * process_xml.py: pause categorisation of Qualitivity records

    A shallow embedding of [src/process_xml.py] and the properties of its
    event filter ([valid_keystroke]), pause classifier ([categorize_pause])
    and record processor (the body of the [for record in records] loop of
    [process_file]).

    Modelling choices.
    - An XML element is its attribute dictionary, a [gmap string string];
      [d[k]] on a missing key raises [KeyError], so every read goes through
      [getitem] and the functions live in the [result] monad.
    - The accumulator of [create_pause_counts_dict] is the Python dict it
      is: a [gmap string Z]; [counts[k] += v] is [iadd] on Python integers
      and [iadd_np] on a [numpy.int64].
    - Python's [and] is short-circuiting, which decides which attributes of
      an event are read at all: it is [and_then].
    - [np.datetime64] is a library function and is taken as a parameter of
      the record processor. The file has the record processor twice.
      [process_record] computes on exact integers: the parser gives an
      integer tick count (milliseconds for millisecond-precision input),
      [None] stands for the [ValueError] of an unparsable text, and gaps
      and sums are differences and sums in [Z]. It carries the properties
      that do not depend on the arithmetic: the control flow, the rows, the
      exceptions, and relations between two runs.
      [process_record_np] computes as numpy does: a time stamp is a value of
      an abstract type (NaT is one of them, not an error), the gap
      [(a - b).astype(int)] is a parameter [delta a b] (so that NaT and the
      promotion of mixed precisions are covered), and the duration sums are
      [numpy.int64] and wrap at 64 bits. The properties of the gaps and of
      the sums are stated on it.
    - File access, XML parsing, attribute normalisation and the pandas
      frames are outside the model: [process_file] starts from the list of
      [<Record/>] elements and returns the two lists of rows. *)

From Stdlib Require Import ZArith Lia Ascii String.
From stdpp Require Import gmap strings list fin_maps sorting.

Local Open Scope Z_scope.

(** ** Exceptions and the result monad *)

Inductive exn : Type :=
  | KeyError (key : string)
  | ValueError (text : string)
  | IndexError.

Inductive result (A : Type) : Type :=
  | Ok (a : A)
  | Raise (e : exn).

Arguments Ok {A} a.
Arguments Raise {A} e.

#[global] Instance result_ret : MRet result := fun A a => Ok a.

#[global] Instance result_bind : MBind result := fun A B f m =>
  match m with
  | Ok a => f a
  | Raise e => Raise e
  end.

#[global] Instance result_fmap : FMap result := fun A B f m =>
  match m with
  | Ok a => Ok (f a)
  | Raise e => Raise e
  end.

Definition raises {A} (m : result A) : Prop := ∃ e, m = Raise e.

(** [for x in l: st = body st x], stopping at the first exception. *)
Fixpoint for_each {S A : Type} (body : S → A → result S) (st : S) (l : list A)
  : result S :=
  match l with
  | [] => Ok st
  | x :: l' => st' ← body st x; for_each body st' l'
  end.

(** ** Python values *)

(** [d[k]] *)
Definition getitem {V : Type} (d : gmap string V) (k : string) : result V :=
  match d !! k with
  | Some v => Ok v
  | None => Raise (KeyError k)
  end.

(** [l[i]] *)
Definition getindex {A : Type} (l : list A) (i : nat) : result A :=
  match l !! i with
  | Some x => Ok x
  | None => Raise IndexError
  end.

(** Truth value of a [str]: every string but the empty one is true. *)
Definition truthy (s : string) : bool :=
  match s with
  | EmptyString => false
  | String _ _ => true
  end.

(** [a and b] in a condition: [b] is evaluated only when [a] is true. *)
Definition and_then (a b : result bool) : result bool :=
  a ≫= λ x : bool, if x then b else Ok false.

Notation "a 'AND' b" := (and_then a b) (at level 75, right associativity).

(** [not s] and [s == t] on strings. *)
Definition py_not (s : string) : bool := negb (truthy s).
Definition str_eq (s t : string) : bool := bool_decide (s = t).

(** A cell of an output row: a string, an integer or [None]. *)
Inductive cell : Type :=
  | Str (s : string)
  | Int (z : Z)
  | PyNone.

(** ** XML elements *)

(** A [<ks/>] element. *)
Record element : Type := Element { attrib : gmap string string }.

(** A [<Record/>] element: its attributes and [record.findall('.//ks')]. *)
Record record_element : Type := RecordElement {
  record_attrib : gmap string string;
  findall_ks : list element
}.

(** ** The accumulator *)

Definition create_pause_counts_dict : gmap string Z :=
  <["duration_300" := 0]> (<["count_300" := 0]> (
  <["duration_500" := 0]> (<["count_500" := 0]> (
  <["duration_1000" := 0]> (<["count_1000" := 0]> (
  <["total_pause_ms" := 0]> (<["total_duration" := 0]> ∅))))))).

(** [counts[k] += v] *)
Definition iadd (counts : gmap string Z) (k : string) (v : Z)
  : result (gmap string Z) :=
  x ← getitem counts k; Ok (<[k := x + v]> counts).

Definition categorize_pause (counts : gmap string Z) (pause_ms : Z)
  : result (gmap string Z) :=
  counts ← (if 300 <=? pause_ms
            then counts ← iadd counts "duration_300" pause_ms;
                 iadd counts "count_300" 1
            else Ok counts);
  counts ← (if 500 <=? pause_ms
            then counts ← iadd counts "duration_500" pause_ms;
                 iadd counts "count_500" 1
            else Ok counts);
  counts ← (if 1000 <=? pause_ms
            then counts ← iadd counts "duration_1000" pause_ms;
                 iadd counts "count_1000" 1
            else Ok counts);
  iadd counts "total_duration" pause_ms.

(** ** The event filter *)

Definition valid_keystroke (keystroke : element) : result bool :=
  let a := attrib keystroke in
  c ← (truthy <$> getitem a "origin")
      AND (truthy <$> getitem a "system")
      AND (py_not <$> getitem a "key");
  if c : bool then Ok false
  else
    c ← (py_not <$> getitem a "selection")
        AND (py_not <$> getitem a "text")
        AND (py_not <$> getitem a "key")
        AND ((λ s, str_eq s "False") <$> getitem a "shift")
        AND ((λ s, str_eq s "False") <$> getitem a "ctrl")
        AND ((λ s, str_eq s "False") <$> getitem a "alt");
    if c : bool then Ok false else Ok true.

(** ** The record processor *)

(** The variables that the keystroke loop (lines 155-170) updates. *)
Record loop_state : Type := LoopState {
  valid_keystroke_count : Z;
  last_milestone : Z;
  pause_counts : gmap string Z;
  all_pauses_data : list (list cell)
}.

(** The variables of one iteration of the record loop when it reaches the
    row construction (line 180); [audit_rows] are the rows this iteration
    appended to [all_pauses_data]. *)
Record record_locals : Type := RecordLocals {
  record_id : string;
  segment_id : string;
  active_ms : string;
  duration_ms : Z;
  final_counts : gmap string Z;
  keystrokes_count : Z;
  audit_rows : list (list cell)
}.

(** Lines 181-184; the dictionary reads are [pause_counts[...]]. *)
Definition row_of (L : record_locals) : result (list cell) :=
  d300 ← getitem (final_counts L) "duration_300";
  c300 ← getitem (final_counts L) "count_300";
  d500 ← getitem (final_counts L) "duration_500";
  c500 ← getitem (final_counts L) "count_500";
  d1000 ← getitem (final_counts L) "duration_1000";
  c1000 ← getitem (final_counts L) "count_1000";
  total ← getitem (final_counts L) "total_duration";
  Ok [Str (record_id L); Str (segment_id L); Int d300; Int c300;
      Int d500; Int c500; Int d1000; Int c1000; Int (keystrokes_count L);
      Str (active_ms L); Int (duration_ms L); Int total].

Section record_processor.

(** [np.datetime64(text).astype(int)], up to the [ValueError]. *)
Variable datetime64 : string → option Z.

Definition np_datetime64 (text : string) : result Z :=
  match datetime64 text with
  | Some t => Ok t
  | None => Raise (ValueError text)
  end.

(** The body of [for ks in keystrokes] (lines 157-170). *)
Definition keystroke_body (record_id segment_id : string)
    (st : loop_state) (ks : element) : result loop_state :=
  v ← valid_keystroke ks;
  if v : bool then
    created ← getitem (attrib ks) "created";
    created_dt ← np_datetime64 created;
    let diff_ms := created_dt - last_milestone st in
    counts ← categorize_pause (pause_counts st) diff_ms;
    Ok (LoopState (valid_keystroke_count st + 1) created_dt counts
          (all_pauses_data st ++
             [[Str record_id; Str segment_id; Int diff_ms; Str EmptyString]]))
  else
    Ok (LoopState (valid_keystroke_count st) (last_milestone st)
          (pause_counts st)
          (all_pauses_data st ++
             [[Str record_id; Str segment_id; PyNone; Str "Omitted ks"]])).

(** The body of [for record in records] up to line 178. The loop state
    starts with [valid_keystroke_count = 0], [last_milestone =
    record_started_dt] and the fresh [pause_counts] (here [counts0]). *)
Definition process_record (record : record_element) : result record_locals :=
  record_started ← getitem (record_attrib record) "started";
  record_started_dt ← np_datetime64 record_started;
  record_ended ← getitem (record_attrib record) "stopped";
  record_ended_dt ← np_datetime64 record_ended;
  let duration_ms := record_ended_dt - record_started_dt in
  record_id ← getitem (record_attrib record) "id";
  segment_id ← getitem (record_attrib record) "segmentid";
  active_ms ← getitem (record_attrib record) "activemiliseconds";
  let counts0 := create_pause_counts_dict in
  let keystrokes := findall_ks record in
  let keystrokes_count := Z.of_nat (length keystrokes) in
  if keystrokes_count =? 0 then
    counts ← categorize_pause counts0 duration_ms;
    Ok (RecordLocals record_id segment_id active_ms duration_ms counts
          keystrokes_count
          [[Str record_id; Str segment_id; Int duration_ms; Str "No ks"]])
  else
    c ← Ok (keystrokes_count =? 1)
        AND (negb <$> (getindex keystrokes 0 ≫= valid_keystroke));
    if c : bool then
      counts ← categorize_pause counts0 duration_ms;
      Ok (RecordLocals record_id segment_id active_ms duration_ms counts 0
            [[Str record_id; Str segment_id; Int duration_ms;
              Str "1 system ks omitted"]])
    else
      st ← for_each (keystroke_body record_id segment_id)
             (LoopState 0 record_started_dt counts0 []) keystrokes;
      if 0 <? valid_keystroke_count st then
        let last_pause_ms := record_ended_dt - last_milestone st in
        counts ← categorize_pause (pause_counts st) last_pause_ms;
        Ok (RecordLocals record_id segment_id active_ms duration_ms counts
              (valid_keystroke_count st)
              (all_pauses_data st ++
                 [[Str record_id; Str segment_id; Int last_pause_ms;
                   Str EmptyString]]))
      else
        Ok (RecordLocals record_id segment_id active_ms duration_ms
              (pause_counts st) keystrokes_count (all_pauses_data st)).

(** The record loop of [process_file] and the two tables it returns:
    [categorized_data] and [all_pauses_data]. An exception raised while a
    record is processed leaves the function, and no table is returned. *)
Definition process_file (records : list record_element)
  : result (list (list cell) * list (list cell)) :=
  for_each (λ tables record,
              L ← process_record record;
              row ← row_of L;
              Ok (tables.1 ++ [row], tables.2 ++ audit_rows L))
           ([], []) records.

End record_processor.

(** ** Vocabulary of the statements *)

(** The keys that [categorize_pause] reads and writes. *)
Definition bucket_keys : list string :=
  ["duration_300"; "count_300"; "duration_500"; "count_500";
   "duration_1000"; "count_1000"; "total_duration"].

Definition has_keys (counts : gmap string Z) : Prop :=
  Forall (λ k, is_Some (counts !! k)) bucket_keys.

(** What one call of [categorize_pause] adds to the value stored under [k]. *)
Definition increment (pause_ms : Z) (k : string) : Z :=
  if bool_decide (k = "duration_300") then (if 300 <=? pause_ms then pause_ms else 0)
  else if bool_decide (k = "count_300") then (if 300 <=? pause_ms then 1 else 0)
  else if bool_decide (k = "duration_500") then (if 500 <=? pause_ms then pause_ms else 0)
  else if bool_decide (k = "count_500") then (if 500 <=? pause_ms then 1 else 0)
  else if bool_decide (k = "duration_1000") then (if 1000 <=? pause_ms then pause_ms else 0)
  else if bool_decide (k = "count_1000") then (if 1000 <=? pause_ms then 1 else 0)
  else if bool_decide (k = "total_duration") then pause_ms
  else 0.

(** A sequence of calls of the classifier on one accumulator. *)
Definition categorize_pauses (counts : gmap string Z) (pauses : list Z)
  : result (gmap string Z) :=
  for_each categorize_pause counts pauses.

(** The events of a record that the filter accepts (the spec's N) and
    rejects (the spec's M). *)
Definition is_valid (keystroke : element) : bool :=
  match valid_keystroke keystroke with Ok true => true | _ => false end.

Definition is_invalid (keystroke : element) : bool :=
  match valid_keystroke keystroke with Ok false => true | _ => false end.

Fixpoint count {A : Type} (p : A → bool) (l : list A) : nat :=
  match l with
  | [] => 0%nat
  | x :: l' => ((if p x then 1 else 0) + count p l')%nat
  end.

(** The ordering of the buckets (the invariant of claim C8). *)
Definition bucket_invariant (counts : gmap string Z) : Prop :=
  ∃ d3 n3 d5 n5 d10 n10 t : Z,
    counts !! "duration_300" = Some d3 ∧ counts !! "count_300" = Some n3 ∧
    counts !! "duration_500" = Some d5 ∧ counts !! "count_500" = Some n5 ∧
    counts !! "duration_1000" = Some d10 ∧ counts !! "count_1000" = Some n10 ∧
    counts !! "total_duration" = Some t ∧
    n3 >= n5 ∧ n5 >= n10 ∧ n10 >= 0 ∧
    d3 >= d5 ∧ d5 >= d10 ∧ d10 >= 0 ∧
    t >= d3.

(** The attributes that [valid_keystroke] may read. *)
Definition filter_attributes : list string :=
  ["origin"; "system"; "key"; "selection"; "text"; "shift"; "ctrl"; "alt"].

Definition has_filter_attributes (keystroke : element) : Prop :=
  Forall (λ k, is_Some (attrib keystroke !! k)) filter_attributes.

(** The attributes that [valid_keystroke] reads on an event, in the order
    of evaluation: the operands of each [and] up to the first false one,
    and the second condition only when the first one is false. An
    attribute that is missing counts as a false operand here; the filter
    raises when it reads it. *)
Definition filter_reads (keystroke : element) : list string :=
  let a := attrib keystroke in
  let true_ k := from_option truthy false (a !! k) in
  let empty k := from_option py_not false (a !! k) in
  let is_False k := from_option (λ s, str_eq s "False") false (a !! k) in
  let cond1 :=
    "origin" :: (if true_ "origin"
                 then "system" :: (if true_ "system" then ["key"] else [])
                 else []) in
  let cond2 :=
    "selection" ::
    (if empty "selection" then "text" ::
     (if empty "text" then "key" ::
      (if empty "key" then "shift" ::
       (if is_False "shift" then "ctrl" ::
        (if is_False "ctrl" then ["alt"] else [])
        else [])
       else [])
      else [])
     else []) in
  if true_ "origin" && true_ "system" && empty "key" then cond1
  else cond1 ++ cond2.

(** The attributes of a [<Record/>] that the record loop reads. *)
Definition record_attributes : list string :=
  ["started"; "stopped"; "id"; "segmentid"; "activemiliseconds"].

(** An event with the eight filter attributes and a readable [created]. *)
Definition well_formed_ks (datetime64 : string → option Z) (keystroke : element)
  : Prop :=
  has_filter_attributes keystroke ∧
  ∃ created t, attrib keystroke !! "created" = Some created ∧
               datetime64 created = Some t.

(** A record with its five attributes, readable time stamps and
    well-formed events. *)
Definition well_formed_record (datetime64 : string → option Z) (r : record_element)
  : Prop :=
  (∃ started t0, record_attrib r !! "started" = Some started ∧
                 datetime64 started = Some t0) ∧
  (∃ stopped t1, record_attrib r !! "stopped" = Some stopped ∧
                 datetime64 stopped = Some t1) ∧
  is_Some (record_attrib r !! "id") ∧
  is_Some (record_attrib r !! "segmentid") ∧
  is_Some (record_attrib r !! "activemiliseconds") ∧
  Forall (well_formed_ks datetime64) (findall_ks r).

(** What makes the keystroke loop raise at an event: the filter raises, or
    the filter accepts the event and [created] is missing. *)
Definition unreadable_ks (keystroke : element) : Prop :=
  raises (valid_keystroke keystroke) ∨
  (valid_keystroke keystroke = Ok true ∧ attrib keystroke !! "created" = None).

(** The four ways in which the record loop body reaches the row
    construction, with what each leaves in the local variables: no event;
    one event that the filter rejects; the keystroke loop followed by the
    trailing pause; the keystroke loop alone. [t0] and [t1] are the parsed
    start and stop. *)
Inductive record_branch (datetime64 : string → option Z) (r : record_element)
    (t0 t1 : Z) (rid sid : string) (L : record_locals) : Prop :=
  | branch_no_ks :
      findall_ks r = [] →
      categorize_pause create_pause_counts_dict (t1 - t0) = Ok (final_counts L) →
      keystrokes_count L = 0 →
      audit_rows L = [[Str rid; Str sid; Int (t1 - t0); Str "No ks"]] →
      record_branch datetime64 r t0 t1 rid sid L
  | branch_one_system_ks (k : element) :
      findall_ks r = [k] →
      valid_keystroke k = Ok false →
      categorize_pause create_pause_counts_dict (t1 - t0) = Ok (final_counts L) →
      keystrokes_count L = 0 →
      audit_rows L = [[Str rid; Str sid; Int (t1 - t0); Str "1 system ks omitted"]] →
      record_branch datetime64 r t0 t1 rid sid L
  | branch_trailing_pause (st : loop_state) :
      for_each (keystroke_body datetime64 rid sid)
        (LoopState 0 t0 create_pause_counts_dict []) (findall_ks r) = Ok st →
      0 < valid_keystroke_count st →
      categorize_pause (pause_counts st) (t1 - last_milestone st)
        = Ok (final_counts L) →
      keystrokes_count L = valid_keystroke_count st →
      audit_rows L = all_pauses_data st ++
        [[Str rid; Str sid; Int (t1 - last_milestone st); Str EmptyString]] →
      record_branch datetime64 r t0 t1 rid sid L
  | branch_no_trailing_pause (st : loop_state) :
      findall_ks r ≠ [] →
      (∀ k, findall_ks r = [k] → valid_keystroke k = Ok true) →
      for_each (keystroke_body datetime64 rid sid)
        (LoopState 0 t0 create_pause_counts_dict []) (findall_ks r) = Ok st →
      valid_keystroke_count st ≤ 0 →
      final_counts L = pause_counts st →
      keystrokes_count L = Z.of_nat (length (findall_ks r)) →
      audit_rows L = all_pauses_data st →
      record_branch datetime64 r t0 t1 rid sid L.

(** ** Time stamps of the examples

    The examples below instantiate the parser with [iso_millis], which
    reads the millisecond-precision ISO-8601 texts [YYYY-MM-DDThh:mm:ss.fff]
    found in the input files as milliseconds since 1970-01-01T00:00:00.000
    (proleptic Gregorian calendar), and rejects every other text. *)

Definition digit (c : ascii) : option Z :=
  let n := Z.of_nat (nat_of_ascii c) - 48 in
  if (0 <=? n) && (n <=? 9) then Some n else None.

Fixpoint number (acc : Z) (l : list ascii) : option Z :=
  match l with
  | [] => Some acc
  | c :: l' => d ← digit c; number (10 * acc + d) l'
  end.

Definition days_from_civil (y m d : Z) : Z :=
  let y := if m <=? 2 then y - 1 else y in
  let era := y / 400 in
  let yoe := y - era * 400 in
  let mp := (m + 9) mod 12 in
  let doy := (153 * mp + 2) / 5 + d - 1 in
  let doe := yoe * 365 + yoe / 4 - yoe / 100 + doy in
  era * 146097 + doe - 719468.

Definition iso_millis (text : string) : option Z :=
  let l := list_ascii_of_string text in
  let field (from len : nat) := number 0 (take len (drop from l)) in
  let sep (at_ : nat) (c : ascii) := bool_decide (l !! at_ = Some c) in
  if bool_decide (length l = 23%nat)
     && sep 4%nat "-"%char && sep 7%nat "-"%char && sep 10%nat "T"%char
     && sep 13%nat ":"%char && sep 16%nat ":"%char && sep 19%nat "."%char
  then
    y ← field 0%nat 4%nat; m ← field 5%nat 2%nat; d ← field 8%nat 2%nat;
    hh ← field 11%nat 2%nat; mm ← field 14%nat 2%nat; ss ← field 17%nat 2%nat;
    f ← field 20%nat 3%nat;
    Some ((((days_from_civil y m d * 24 + hh) * 60 + mm) * 60 + ss) * 1000 + f)
  else None.

(** An element from its attribute list, as written in the XML text. *)
Definition ks (attrs : list (string * string)) : element :=
  Element (list_to_map attrs).

Definition record (attrs : list (string * string)) (keystrokes : list element)
  : record_element :=
  RecordElement (list_to_map attrs) keystrokes.

(** ** Example events and records *)

(** A keystroke inserted by the tool: origin and system flag set, no key. *)
Definition system_ks (created : string) : element :=
  ks [("created", created); ("origin", "auto-propagated"); ("system", "True");
      ("key", EmptyString); ("selection", EmptyString); ("text", "word");
      ("shift", "False"); ("ctrl", "False"); ("alt", "False")].

(** The same with the system flag spelled [False]. *)
Definition system_False_ks (created : string) : element :=
  ks [("created", created); ("origin", "auto-propagated"); ("system", "False");
      ("key", EmptyString); ("selection", EmptyString); ("text", "word");
      ("shift", "False"); ("ctrl", "False"); ("alt", "False")].

(** An event that carries nothing: no selection, text or key, no modifier. *)
Definition empty_ks (created : string) : element :=
  ks [("created", created); ("origin", EmptyString); ("system", "False");
      ("key", EmptyString); ("selection", EmptyString); ("text", EmptyString);
      ("shift", "False"); ("ctrl", "False"); ("alt", "False")].

(** A typed character. *)
Definition typed_ks (created : string) : element :=
  ks [("created", created); ("origin", EmptyString); ("system", "False");
      ("key", "[a]"); ("selection", EmptyString); ("text", "a");
      ("shift", "False"); ("ctrl", "False"); ("alt", "False")].

Definition example_attributes (stopped : string) : list (string * string) :=
  [("id", "12"); ("segmentid", "3"); ("activemiliseconds", "250");
   ("started", "2019-05-01T10:00:00.000"); ("stopped", stopped)].

(** Scenario B: one typed character 400 ms into a record of 900 ms. *)
Definition scenario_B_record : record_element :=
  record (example_attributes "2019-05-01T10:00:00.900")
         [typed_ks "2019-05-01T10:00:00.400"].

(** A record of 900 ms with two events, both system keystrokes. *)
Definition two_system_ks_record : record_element :=
  record (example_attributes "2019-05-01T10:00:00.900")
         [system_ks "2019-05-01T10:00:00.200"; system_ks "2019-05-01T10:00:00.600"].

(** A record with a typed character between two system keystrokes. *)
Definition mixed_record : record_element :=
  record (example_attributes "2019-05-01T10:00:02.000")
         [system_ks "2019-05-01T10:00:00.200"; typed_ks "2019-05-01T10:00:01.300";
          system_ks "2019-05-01T10:00:01.600"].

(** A system keystroke that has only the three attributes the first
    condition of the filter reads. *)
Definition bare_system_ks : element :=
  ks [("origin", "auto-propagated"); ("system", "True"); ("key", EmptyString)].

Definition bare_system_ks_record : record_element :=
  record (example_attributes "2019-05-01T10:00:00.900") [bare_system_ks].

(** A record without its [stopped] attribute. *)
Definition no_stopped_record : record_element :=
  record [("id", "13"); ("segmentid", "4"); ("activemiliseconds", "0");
          ("started", "2019-05-01T10:00:05.000")]
         [typed_ks "2019-05-01T10:00:05.100"].

(** ** Vocabulary of the further properties *)

(** The column names of the summary frame (lines 14-16) and of the audit
    frame (line 191). *)
Definition columns : list string :=
  ["Record ID"; "Segment ID"; "Total pause duration_300"; "Pause count_300";
   "Total pause duration_500"; "Pause count_500"; "Total pause duration_1s";
   "Pause count_1s"; "Keystrokes"; "Active ms"; "Record duration";
   "Total duration"].

Definition audit_columns : list string :=
  ["Record ID"; "Segment ID"; "Pause durations"; "Notes"].

Definition sum_Z (l : list Z) : Z := foldr Z.add 0 l.

(** The gaps that reach a threshold. *)
Definition at_least (threshold : Z) (gaps : list Z) : list Z :=
  filter (λ g, threshold ≤ g) gaps.

(** The keys that one call of [categorize_pause] reads, in order. *)
Definition keys_read (pause_ms : Z) : list string :=
  (if 300 <=? pause_ms then ["duration_300"; "count_300"] else []) ++
  (if 500 <=? pause_ms then ["duration_500"; "count_500"] else []) ++
  (if 1000 <=? pause_ms then ["duration_1000"; "count_1000"] else []) ++
  ["total_duration"].

(** The updates [counts[k] += v] that one call of [categorize_pause] makes,
    in order. *)
Definition updates (pause_ms : Z) : list (string * Z) :=
  (if 300 <=? pause_ms then [("duration_300", pause_ms); ("count_300", 1)] else []) ++
  (if 500 <=? pause_ms then [("duration_500", pause_ms); ("count_500", 1)] else []) ++
  (if 1000 <=? pause_ms then [("duration_1000", pause_ms); ("count_1000", 1)] else []) ++
  [("total_duration", pause_ms)].

Definition iadds (counts : gmap string Z) (l : list (string * Z))
  : result (gmap string Z) :=
  for_each (λ c kv, iadd c kv.1 kv.2) counts l.

(** The pause duration of an audit row, when it has one. *)
Definition audit_pause (row : list cell) : option Z :=
  match row !! 2%nat with
  | Some (Int z) => Some z
  | _ => None
  end.

(** The differences of consecutive time stamps, starting from [prev]. *)
Fixpoint diffs (prev : Z) (times : list Z) : list Z :=
  match times with
  | [] => []
  | t :: times' => (t - prev) :: diffs t times'
  end.

(** The parsed [created] of the events that the filter accepts, in order. *)
Definition valid_time (datetime64 : string → option Z) (keystroke : element)
  : option Z :=
  if is_valid keystroke then attrib keystroke !! "created" ≫= datetime64 else None.

Definition valid_times (datetime64 : string → option Z) (keystrokes : list element)
  : list Z :=
  omap (valid_time datetime64) keystrokes.

(** The events that the filter accepts. *)
Definition valid_only (keystrokes : list element) : list element :=
  filter (λ k, is_valid k = true) keystrokes.

(** One iteration of the record loop of [process_file], on the two tables. *)
Definition record_step (datetime64 : string → option Z)
    (tables : list (list cell) * list (list cell)) (r : record_element)
  : result (list (list cell) * list (list cell)) :=
  L ← process_record datetime64 r;
  row ← row_of L;
  Ok (tables.1 ++ [row], tables.2 ++ audit_rows L).

(** The exceptions that come from the events of a record: the [KeyError] of
    a missing attribute, or the [ValueError] of a [created] that does not
    parse. *)
Definition ks_error (datetime64 : string → option Z) (keystrokes : list element)
    (e : exn) : Prop :=
  (∃ k a, k ∈ keystrokes ∧ e = KeyError a ∧
          a ∈ "created" :: filter_attributes ∧ attrib k !! a = None)
  ∨ (∃ k text, k ∈ keystrokes ∧ e = ValueError text ∧
               attrib k !! "created" = Some text ∧ datetime64 text = None).

(** The exceptions that come from the attributes of the record itself. *)
Definition record_error (datetime64 : string → option Z) (r : record_element)
    (e : exn) : Prop :=
  (∃ a, e = KeyError a ∧ a ∈ record_attributes ∧ record_attrib r !! a = None)
  ∨ (∃ text, e = ValueError text ∧ datetime64 text = None ∧
             (record_attrib r !! "started" = Some text
              ∨ record_attrib r !! "stopped" = Some text)).

(** An event on which the keystroke loop does not raise. *)
Definition readable_ks (datetime64 : string → option Z) (keystroke : element)
  : Prop :=
  valid_keystroke keystroke = Ok false ∨
  (valid_keystroke keystroke = Ok true ∧
   ∃ created t, attrib keystroke !! "created" = Some created ∧
                datetime64 created = Some t).

(** A record without the events that the filter rejects. *)
Definition without_invalid (r : record_element) : record_element :=
  RecordElement (record_attrib r) (valid_only (findall_ks r)).

(** ** File names of [process]

    The string methods that [process] applies to a file name (lines 226,
    239 and 240). [str.replace] is modelled for a non-empty [old], which is
    how the program calls it: the occurrences of [old] are replaced from
    left to right, without overlap. [os.path.join] with the output
    directory is outside the model. *)

Fixpoint startswith (s prefix : string) : bool :=
  match prefix, s with
  | EmptyString, _ => true
  | String p prefix', String c s' => Ascii.eqb p c && startswith s' prefix'
  | String _ _, EmptyString => false
  end.

Definition endswith (s suffix : string) : bool :=
  (String.length suffix <=? String.length s)%nat &&
  String.eqb
    (String.substring (String.length s - String.length suffix)
       (String.length suffix) s)
    suffix.

(** [skip] counts the characters of a replaced occurrence still to pass. *)
Fixpoint replace_from (skip : nat) (s old new : string) : string :=
  match s with
  | EmptyString => EmptyString
  | String c s' =>
      match skip with
      | S n => replace_from n s' old new
      | O =>
          if startswith s old
          then new +:+ replace_from (String.length old - 1) s' old new
          else String c (replace_from 0 s' old new)
      end
  end.

Definition replace (s old new : string) : string := replace_from 0 s old new.

(** [file.replace('.xml', '.csv')] and [file.replace('.xml', '-audit.csv')]. *)
Definition output_file_name (file : string) : string :=
  replace file ".xml" ".csv".

Definition all_output_file_name (file : string) : string :=
  replace file ".xml" "-audit.csv".

(** A name without a dot. *)
Fixpoint dot_free (s : string) : bool :=
  match s with
  | EmptyString => true
  | String c s' => negb (Ascii.eqb "." c) && dot_free s'
  end.

(** A record without any event. *)
Definition without_events (r : record_element) : record_element :=
  RecordElement (record_attrib r) [].

(** ** numpy's arithmetic

    In [process_file] every gap is a [numpy.int64]: the result of
    [.astype(int)] on the difference of two [numpy.datetime64] values. The
    definitions of this part carry what that implies.
    - [counts[k] += pause_ms] adds a [numpy.int64] to the Python [int] 0 or
      to a [numpy.int64]; the sum is a [numpy.int64] and wraps modulo 2^64
      ([iadd_np]). [counts[k] += 1] stays a Python [int] ([iadd]).
    - [np.datetime64(text)] and the subtraction are numpy's: they are
      parameters, a type [datetime] of values, the partial parser
      [datetime64] ([None] is the [ValueError]; NaT is a value, not an
      error) and [delta a b] for [(a - b).astype(int)], whatever the
      precisions of [a] and [b] are and whether one of them is NaT. *)

Definition in_int64 (z : Z) : Prop := - 2 ^ 63 ≤ z < 2 ^ 63.

Definition wrap64 (z : Z) : Z := (z + 2 ^ 63) mod 2 ^ 64 - 2 ^ 63.

(** [counts[k] += v] for a [numpy.int64] [v]. *)
Definition iadd_np (counts : gmap string Z) (k : string) (v : Z)
  : result (gmap string Z) :=
  x ← getitem counts k; Ok (<[k := wrap64 (x + v)]> counts).

(** [categorize_pause] on a [numpy.int64] [pause_ms]. *)
Definition categorize_pause_np (counts : gmap string Z) (pause_ms : Z)
  : result (gmap string Z) :=
  counts ← (if 300 <=? pause_ms
            then counts ← iadd_np counts "duration_300" pause_ms;
                 iadd counts "count_300" 1
            else Ok counts);
  counts ← (if 500 <=? pause_ms
            then counts ← iadd_np counts "duration_500" pause_ms;
                 iadd counts "count_500" 1
            else Ok counts);
  counts ← (if 1000 <=? pause_ms
            then counts ← iadd_np counts "duration_1000" pause_ms;
                 iadd counts "count_1000" 1
            else Ok counts);
  iadd_np counts "total_duration" pause_ms.

Definition categorize_pauses_np (counts : gmap string Z) (pauses : list Z)
  : result (gmap string Z) :=
  for_each categorize_pause_np counts pauses.

(** The variables that the keystroke loop updates, the milestone being a
    [numpy.datetime64]. *)
Record loop_state_np (datetime : Type) : Type := LoopStateNp {
  np_valid_keystroke_count : Z;
  np_last_milestone : datetime;
  np_pause_counts : gmap string Z;
  np_all_pauses_data : list (list cell)
}.

Arguments LoopStateNp {datetime} _ _ _ _.
Arguments np_valid_keystroke_count {datetime} _.
Arguments np_last_milestone {datetime} _.
Arguments np_pause_counts {datetime} _.
Arguments np_all_pauses_data {datetime} _.

Section record_processor_np.

Context {datetime : Type}.

(** [np.datetime64(text)], up to the [ValueError]. *)
Variable datetime64 : string → option datetime.

(** [(a - b).astype(int)] *)
Variable delta : datetime → datetime → Z.

Definition parse_datetime64 (text : string) : result datetime :=
  match datetime64 text with
  | Some t => Ok t
  | None => Raise (ValueError text)
  end.

(** The body of [for ks in keystrokes] (lines 157-170). *)
Definition keystroke_body_np (record_id segment_id : string)
    (st : loop_state_np datetime) (ks : element) : result (loop_state_np datetime) :=
  v ← valid_keystroke ks;
  if v : bool then
    created ← getitem (attrib ks) "created";
    created_dt ← parse_datetime64 created;
    let diff_ms := delta created_dt (np_last_milestone st) in
    counts ← categorize_pause_np (np_pause_counts st) diff_ms;
    Ok (LoopStateNp (np_valid_keystroke_count st + 1) created_dt counts
          (np_all_pauses_data st ++
             [[Str record_id; Str segment_id; Int diff_ms; Str EmptyString]]))
  else
    Ok (LoopStateNp (np_valid_keystroke_count st) (np_last_milestone st)
          (np_pause_counts st)
          (np_all_pauses_data st ++
             [[Str record_id; Str segment_id; PyNone; Str "Omitted ks"]])).

(** The body of [for record in records] up to line 178. *)
Definition process_record_np (record : record_element) : result record_locals :=
  record_started ← getitem (record_attrib record) "started";
  record_started_dt ← parse_datetime64 record_started;
  record_ended ← getitem (record_attrib record) "stopped";
  record_ended_dt ← parse_datetime64 record_ended;
  let duration_ms := delta record_ended_dt record_started_dt in
  record_id ← getitem (record_attrib record) "id";
  segment_id ← getitem (record_attrib record) "segmentid";
  active_ms ← getitem (record_attrib record) "activemiliseconds";
  let counts0 := create_pause_counts_dict in
  let keystrokes := findall_ks record in
  let keystrokes_count := Z.of_nat (length keystrokes) in
  if keystrokes_count =? 0 then
    counts ← categorize_pause_np counts0 duration_ms;
    Ok (RecordLocals record_id segment_id active_ms duration_ms counts
          keystrokes_count
          [[Str record_id; Str segment_id; Int duration_ms; Str "No ks"]])
  else
    c ← Ok (keystrokes_count =? 1)
        AND (negb <$> (getindex keystrokes 0 ≫= valid_keystroke));
    if c : bool then
      counts ← categorize_pause_np counts0 duration_ms;
      Ok (RecordLocals record_id segment_id active_ms duration_ms counts 0
            [[Str record_id; Str segment_id; Int duration_ms;
              Str "1 system ks omitted"]])
    else
      st ← for_each (keystroke_body_np record_id segment_id)
             (LoopStateNp 0 record_started_dt counts0 []) keystrokes;
      if 0 <? np_valid_keystroke_count st then
        let last_pause_ms := delta record_ended_dt (np_last_milestone st) in
        counts ← categorize_pause_np (np_pause_counts st) last_pause_ms;
        Ok (RecordLocals record_id segment_id active_ms duration_ms counts
              (np_valid_keystroke_count st)
              (np_all_pauses_data st ++
                 [[Str record_id; Str segment_id; Int last_pause_ms;
                   Str EmptyString]]))
      else
        Ok (RecordLocals record_id segment_id active_ms duration_ms
              (np_pause_counts st) keystrokes_count (np_all_pauses_data st)).

(** The differences that the loop takes along a list of time stamps,
    starting from [prev]. *)
Fixpoint deltas (prev : datetime) (times : list datetime) : list Z :=
  match times with
  | [] => []
  | t :: times' => delta t prev :: deltas t times'
  end.

(** The parsed [created] of the events that the filter accepts, in order. *)
Definition valid_stamp (keystroke : element) : option datetime :=
  if is_valid keystroke then attrib keystroke !! "created" ≫= datetime64 else None.

Definition valid_stamps (keystrokes : list element) : list datetime :=
  omap valid_stamp keystrokes.

End record_processor_np.

(** What one call of [categorize_pause_np] leaves under [k] when [x] was
    there. *)
Definition updated_np (pause_ms : Z) (k : string) (x : Z) : Z :=
  if bool_decide (k = "duration_300")
  then (if 300 <=? pause_ms then wrap64 (x + pause_ms) else x)
  else if bool_decide (k = "duration_500")
  then (if 500 <=? pause_ms then wrap64 (x + pause_ms) else x)
  else if bool_decide (k = "duration_1000")
  then (if 1000 <=? pause_ms then wrap64 (x + pause_ms) else x)
  else if bool_decide (k = "total_duration") then wrap64 (x + pause_ms)
  else x + increment pause_ms k.

(** What a sequence of calls leaves under [k]. *)
Definition updated_all_np (gaps : list Z) (k : string) (x : Z) : Z :=
  foldl (λ y g, updated_np g k y) x gaps.

(** An event with the eight filter attributes and a [created] that
    [numpy.datetime64] accepts. *)
Definition well_formed_ks_np {datetime : Type}
    (datetime64 : string → option datetime) (keystroke : element) : Prop :=
  has_filter_attributes keystroke ∧
  ∃ created t, attrib keystroke !! "created" = Some created ∧
               datetime64 created = Some t.

Definition well_formed_record_np {datetime : Type}
    (datetime64 : string → option datetime) (r : record_element) : Prop :=
  (∃ started t0, record_attrib r !! "started" = Some started ∧
                 datetime64 started = Some t0) ∧
  (∃ stopped t1, record_attrib r !! "stopped" = Some stopped ∧
                 datetime64 stopped = Some t1) ∧
  is_Some (record_attrib r !! "id") ∧
  is_Some (record_attrib r !! "segmentid") ∧
  is_Some (record_attrib r !! "activemiliseconds") ∧
  Forall (well_formed_ks_np datetime64) (findall_ks r).

(** The differences among [stamps] are exact: there is one scale [ticks]
    on which each difference is the difference of the ticks. This is what
    numpy computes among time stamps of one precision, none of them NaT,
    whose differences fit 64 bits. *)
Definition exact_differences {datetime : Type} (delta : datetime → datetime → Z)
    (ticks : datetime → Z) (stamps : list datetime) : Prop :=
  ∀ a b, a ∈ stamps → b ∈ stamps → delta a b = ticks a - ticks b.

(** ** A [numpy.datetime64] for the examples

    A time stamp is NaT (not a time) or a count of ticks since the epoch,
    of which there are [per_second] in a second. The empty text reads as
    NaT, a text [YYYY-MM-DDThh:mm:ss] as seconds and a text
    [YYYY-MM-DDThh:mm:ss.fff] as milliseconds. A difference with NaT is NaT,
    which [astype(int)] gives as -2^63; otherwise both sides are brought to
    the finer of the two units and the 64-bit difference is taken. The
    reader covers the texts of the examples only: it does not check the
    ranges of the calendar fields and rejects other texts that numpy
    accepts. *)
Inductive numpy_datetime : Type :=
  | NaT
  | Stamp (per_second : Z) (ticks : Z).

Definition iso_seconds (text : string) : option Z :=
  t ← iso_millis (text +:+ ".000"); Some (t / 1000).

Definition numpy_datetime64 (text : string) : option numpy_datetime :=
  if bool_decide (text = EmptyString) then Some NaT
  else match iso_millis text with
       | Some t => Some (Stamp 1000 t)
       | None => Stamp 1 <$> iso_seconds text
       end.

Definition numpy_delta (a b : numpy_datetime) : Z :=
  match a, b with
  | Stamp ua ta, Stamp ub tb =>
      let u := Z.max ua ub in wrap64 (ta * (u / ua) - tb * (u / ub))
  | _, _ => - 2 ^ 63
  end.

(** The count of milliseconds of a time stamp. *)
Definition numpy_millis (a : numpy_datetime) : Z :=
  match a with
  | Stamp u t => t * (1000 / u)
  | NaT => 0
  end.

(** A record whose start and stop are written to the second and whose
    events are written to the millisecond. *)
Definition seconds_record : record_element :=
  record [("id", "14"); ("segmentid", "5"); ("activemiliseconds", "0");
          ("started", "2019-05-01T10:00:00"); ("stopped", "2019-05-01T10:00:01")]
         [typed_ks "2019-05-01T10:00:00.400"].

(** A record of 900 ms with one typed character whose [created] is empty. *)
Definition empty_created_record : record_element :=
  record (example_attributes "2019-05-01T10:00:00.900") [typed_ks EmptyString].

(** * Properties *)

(** ** The result monad *)

Lemma bind_Ok {A B} (m : result A) (f : A → result B) (b : B) :
  m ≫= f = Ok b → ∃ a, m = Ok a ∧ f a = Ok b.
Proof. destruct m as [a|e]; [eauto | discriminate]. Qed.

Lemma fmap_Ok {A B} (m : result A) (f : A → B) (b : B) :
  f <$> m = Ok b → ∃ a, m = Ok a ∧ b = f a.
Proof.
  destruct m as [a|e]; intros H; [injection H as <-; eauto | discriminate].
Qed.

Lemma bind_raises {A B} (m : result A) (f : A → result B) :
  raises m → raises (m ≫= f).
Proof. intros [e ->]. by exists e. Qed.

Lemma bind_raises_after {A B} (m : result A) (f : A → result B) :
  (∀ a, m = Ok a → raises (f a)) → raises (m ≫= f).
Proof. destruct m as [a|e]; intros H; [by apply H | by exists e]. Qed.

Lemma for_each_app {S A} (body : S → A → result S) st l1 l2 :
  for_each body st (l1 ++ l2) = for_each body st l1 ≫= λ st', for_each body st' l2.
Proof.
  revert st. induction l1 as [|x l1 IH]; intros st; simpl; [done|].
  destruct (body st x); simpl; [apply IH | done].
Qed.

Lemma getitem_Some {V} (d : gmap string V) k v :
  d !! k = Some v → getitem d k = Ok v.
Proof. unfold getitem. by intros ->. Qed.

Lemma getitem_None {V} (d : gmap string V) k :
  d !! k = None → getitem d k = Raise (KeyError k).
Proof. unfold getitem. by intros ->. Qed.

Lemma getitem_Ok {V} (d : gmap string V) k v :
  getitem d k = Ok v → d !! k = Some v.
Proof. unfold getitem. destruct (d !! k); [congruence | discriminate]. Qed.

(** ** The pause classifier *)

Lemma iadd_Some counts k v x :
  counts !! k = Some x → iadd counts k v = Ok (<[k := x + v]> counts).
Proof. intros H. unfold iadd. by rewrite (getitem_Some _ _ _ H). Qed.

Ltac run_iadd :=
  cbn [mbind result_bind];
  repeat (erewrite iadd_Some by (simplify_map_eq; reflexivity);
          cbn [mbind result_bind]).

(** One call succeeds on an accumulator that has the seven keys, and adds
    [increment pause_ms k] under every key [k]. *)
Lemma categorize_pause_lookup counts pause_ms :
  has_keys counts →
  ∃ counts', categorize_pause counts pause_ms = Ok counts' ∧
    ∀ k, counts' !! k = (λ x, x + increment pause_ms k) <$> counts !! k.
Proof.
  intros H. unfold has_keys, bucket_keys in H. rewrite !Forall_cons in H.
  destruct H as ([d3 H1] & [n3 H2] & [d5 H3] & [n5 H4] & [d10 H5] & [n10 H6]
                 & [t H7] & _).
  unfold categorize_pause.
  destruct (300 <=? pause_ms) eqn:E3, (500 <=? pause_ms) eqn:E5,
           (1000 <=? pause_ms) eqn:E10;
    (eexists; split; [run_iadd; reflexivity |]).
  all: intros k; unfold increment; rewrite ?E3, ?E5, ?E10.
  all: repeat (case_bool_decide; [subst k; simplify_map_eq; f_equal; lia |]).
  all: simplify_map_eq; destruct (counts !! k); simpl; f_equal; lia.
Qed.

Lemma has_keys_fmap (counts counts' : gmap string Z) (f : string → Z → Z) :
  (∀ k, counts' !! k = f k <$> counts !! k) → has_keys counts → has_keys counts'.
Proof.
  intros H Hk. eapply Forall_impl; [exact Hk |]. intros k [x Hx]; simpl.
  rewrite H, Hx. by eexists.
Qed.

Lemma categorize_pause_has_keys counts pause_ms counts' :
  categorize_pause counts pause_ms = Ok counts' → has_keys counts → has_keys counts'.
Proof.
  intros H Hk. destruct (categorize_pause_lookup counts pause_ms Hk) as (c & Hc & Hl).
  rewrite Hc in H. injection H as <-.
  by apply (has_keys_fmap counts c (λ k x, x + increment pause_ms k)).
Qed.

Lemma has_keys_create : has_keys create_pause_counts_dict.
Proof.
  unfold has_keys, bucket_keys. repeat constructor; by eexists.
Qed.

Lemma increment_at g :
  increment g "duration_300" = (if 300 <=? g then g else 0) ∧
  increment g "count_300" = (if 300 <=? g then 1 else 0) ∧
  increment g "duration_500" = (if 500 <=? g then g else 0) ∧
  increment g "count_500" = (if 500 <=? g then 1 else 0) ∧
  increment g "duration_1000" = (if 1000 <=? g then g else 0) ∧
  increment g "count_1000" = (if 1000 <=? g then 1 else 0) ∧
  increment g "total_duration" = g.
Proof. repeat split. Qed.

Lemma increment_other g k : k ∉ bucket_keys → increment g k = 0.
Proof.
  unfold bucket_keys. rewrite !not_elem_of_cons. intros (?&?&?&?&?&?&?&_).
  unfold increment. by repeat (case_bool_decide; [done|]).
Qed.

(** The value stored under [k] after one call, from the value before. *)
Lemma categorize_pause_at counts g k x :
  has_keys counts → counts !! k = Some x →
  ∃ counts', categorize_pause counts g = Ok counts' ∧
             counts' !! k = Some (x + increment g k).
Proof.
  intros Hk Hx. destruct (categorize_pause_lookup counts g Hk) as (c & Hc & Hl).
  exists c. split; [done|]. by rewrite Hl, Hx.
Qed.

(** ** The event filter *)

Lemma truthy_true s : s ≠ EmptyString → truthy s = true.
Proof. by destruct s. Qed.

Lemma py_not_false s : s ≠ EmptyString → py_not s = false.
Proof. by destruct s. Qed.

(** The first condition of the filter reads three attributes only. *)
Lemma valid_keystroke_first_condition keystroke o s :
  attrib keystroke !! "origin" = Some o → o ≠ EmptyString →
  attrib keystroke !! "system" = Some s → s ≠ EmptyString →
  attrib keystroke !! "key" = Some EmptyString →
  valid_keystroke keystroke = Ok false.
Proof.
  intros Ho Hno Hs Hns Hk. unfold valid_keystroke.
  rewrite (getitem_Some _ _ _ Ho), (getitem_Some _ _ _ Hs), (getitem_Some _ _ _ Hk).
  simpl. by rewrite (truthy_true o Hno), (truthy_true s Hns).
Qed.

Lemma has_filter_attributes_lookup keystroke :
  has_filter_attributes keystroke →
  ∃ o s k sel txt sh ct al,
    attrib keystroke !! "origin" = Some o ∧ attrib keystroke !! "system" = Some s ∧
    attrib keystroke !! "key" = Some k ∧ attrib keystroke !! "selection" = Some sel ∧
    attrib keystroke !! "text" = Some txt ∧ attrib keystroke !! "shift" = Some sh ∧
    attrib keystroke !! "ctrl" = Some ct ∧ attrib keystroke !! "alt" = Some al.
Proof.
  unfold has_filter_attributes, filter_attributes. rewrite !Forall_cons.
  intros ([o ?] & [s ?] & [k ?] & [sel ?] & [txt ?] & [sh ?] & [ct ?] & [al ?] & _).
  by exists o, s, k, sel, txt, sh, ct, al.
Qed.

(** With its eight attributes present the filter does not raise. *)
Lemma valid_keystroke_total keystroke :
  has_filter_attributes keystroke → ∃ b, valid_keystroke keystroke = Ok b.
Proof.
  intros H. apply has_filter_attributes_lookup in H
    as (o & s & k & sel & txt & sh & ct & al & Ho & Hs & Hk & Hsel & Htxt & Hsh & Hct & Hal).
  unfold valid_keystroke.
  rewrite (getitem_Some _ _ _ Ho), (getitem_Some _ _ _ Hs), (getitem_Some _ _ _ Hk),
    (getitem_Some _ _ _ Hsel), (getitem_Some _ _ _ Htxt), (getitem_Some _ _ _ Hsh),
    (getitem_Some _ _ _ Hct), (getitem_Some _ _ _ Hal).
  cbn [fmap result_fmap and_then mbind result_bind].
  repeat (case_match; cbn [fmap result_fmap and_then mbind result_bind]); eauto.
Qed.

(** C5. The filter rejects an event with non-empty origin, non-empty (true)
    system flag and empty key; it rejects an event with empty selection,
    text and key whose shift, ctrl and alt are all the string False; it
    accepts every event with a non-empty key. *)
Theorem valid_keystroke_filter (keystroke : element) :
  (∀ o s,
     attrib keystroke !! "origin" = Some o → o ≠ EmptyString →
     attrib keystroke !! "system" = Some s → truthy s = true →
     attrib keystroke !! "key" = Some EmptyString →
     valid_keystroke keystroke = Ok false) ∧
  (has_filter_attributes keystroke →
     attrib keystroke !! "selection" = Some EmptyString →
     attrib keystroke !! "text" = Some EmptyString →
     attrib keystroke !! "key" = Some EmptyString →
     attrib keystroke !! "shift" = Some "False" →
     attrib keystroke !! "ctrl" = Some "False" →
     attrib keystroke !! "alt" = Some "False" →
     valid_keystroke keystroke = Ok false) ∧
  (∀ k,
     has_filter_attributes keystroke →
     attrib keystroke !! "key" = Some k → k ≠ EmptyString →
     valid_keystroke keystroke = Ok true).
Proof.
  split; [| split].
  - intros o s Ho Hno Hs Hts Hk.
    apply (valid_keystroke_first_condition keystroke o s); try done.
    by destruct s.
  - intros H Hsel Htxt Hk Hsh Hct Hal.
    apply has_filter_attributes_lookup in H
      as (o & s & _ & _ & _ & _ & _ & _ & Ho & Hs & _).
    unfold valid_keystroke.
    rewrite (getitem_Some _ _ _ Ho), (getitem_Some _ _ _ Hs), (getitem_Some _ _ _ Hk),
      (getitem_Some _ _ _ Hsel), (getitem_Some _ _ _ Htxt), (getitem_Some _ _ _ Hsh),
      (getitem_Some _ _ _ Hct), (getitem_Some _ _ _ Hal).
    cbn [fmap result_fmap and_then mbind result_bind].
    by destruct (truthy o), (truthy s).
  - intros k H Hk Hnk.
    apply has_filter_attributes_lookup in H
      as (o & s & k' & sel & txt & sh & ct & al & Ho & Hs & Hk' & Hsel & Htxt & _).
    assert (k' = k) as -> by congruence.
    unfold valid_keystroke.
    rewrite (getitem_Some _ _ _ Ho), (getitem_Some _ _ _ Hs), (getitem_Some _ _ _ Hk),
      (getitem_Some _ _ _ Hsel), (getitem_Some _ _ _ Htxt).
    cbn [fmap result_fmap and_then mbind result_bind].
    rewrite (py_not_false k Hnk).
    by destruct (truthy o), (truthy s), (py_not sel), (py_not txt).
Qed.

Lemma valid_keystroke_filter_witness :
  valid_keystroke (system_ks "2019-05-01T10:00:00.400") = Ok false ∧
  valid_keystroke (empty_ks "2019-05-01T10:00:00.400") = Ok false ∧
  valid_keystroke (typed_ks "2019-05-01T10:00:00.400") = Ok true.
Proof.
  split; [| split].
  - apply (proj1 (valid_keystroke_filter _) "auto-propagated" "True"); done.
  - apply (proj1 (proj2 (valid_keystroke_filter _))); try done.
    unfold has_filter_attributes, filter_attributes. repeat constructor; by eexists.
  - apply (proj2 (proj2 (valid_keystroke_filter _)) "[a]"); try done.
    unfold has_filter_attributes, filter_attributes. repeat constructor; by eexists.
Defined.

(** C10. The system flag of the first condition is tested for
    non-emptiness only: with a non-empty origin and an empty key, every
    non-empty system text makes the event invalid, the text False included. *)
Theorem system_flag_tested_for_nonemptiness (keystroke : element) (o : string) :
  attrib keystroke !! "origin" = Some o → o ≠ EmptyString →
  attrib keystroke !! "key" = Some EmptyString →
  (∀ s, attrib keystroke !! "system" = Some s → s ≠ EmptyString →
        valid_keystroke keystroke = Ok false) ∧
  (attrib keystroke !! "system" = Some "False" →
   valid_keystroke keystroke = Ok false).
Proof.
  intros Ho Hno Hk. split.
  - intros s Hs Hns. by apply (valid_keystroke_first_condition keystroke o s).
  - intros Hs. by apply (valid_keystroke_first_condition keystroke o "False").
Qed.

Lemma system_flag_tested_for_nonemptiness_witness :
  valid_keystroke (system_False_ks "2019-05-01T10:00:00.400") = Ok false.
Proof.
  apply (system_flag_tested_for_nonemptiness
           (system_False_ks "2019-05-01T10:00:00.400") "auto-propagated");
    done.
Defined.

(** ** The record processor *)

Section record_processor_properties.

Variable datetime64 : string → option Z.

Lemma np_datetime64_Ok text t :
  np_datetime64 datetime64 text = Ok t → datetime64 text = Some t.
Proof.
  unfold np_datetime64. destruct (datetime64 text); [congruence | discriminate].
Qed.

Lemma np_datetime64_Some text t :
  datetime64 text = Some t → np_datetime64 datetime64 text = Ok t.
Proof. unfold np_datetime64. by intros ->. Qed.

Lemma has_keys_total counts :
  has_keys counts → is_Some (counts !! "total_duration").
Proof.
  unfold has_keys, bucket_keys. rewrite !Forall_cons. tauto.
Qed.

(** One iteration of the keystroke loop that does not raise. *)
Lemma keystroke_body_Ok rid sid st k st' :
  keystroke_body datetime64 rid sid st k = Ok st' →
  (valid_keystroke k = Ok true ∧
   ∃ created t counts,
     attrib k !! "created" = Some created ∧ datetime64 created = Some t ∧
     categorize_pause (pause_counts st) (t - last_milestone st) = Ok counts ∧
     st' = LoopState (valid_keystroke_count st + 1) t counts
             (all_pauses_data st ++
                [[Str rid; Str sid; Int (t - last_milestone st); Str EmptyString]]))
  ∨ (valid_keystroke k = Ok false ∧
     st' = LoopState (valid_keystroke_count st) (last_milestone st)
             (pause_counts st)
             (all_pauses_data st ++ [[Str rid; Str sid; PyNone; Str "Omitted ks"]])).
Proof.
  unfold keystroke_body. intros H.
  apply bind_Ok in H as ([|] & Hv & H).
  - left. split; [done|].
    apply bind_Ok in H as (created & Hc & H).
    apply bind_Ok in H as (t & Ht & H).
    apply bind_Ok in H as (counts & Hcat & H).
    exists created, t, counts.
    apply getitem_Ok in Hc. apply np_datetime64_Ok in Ht.
    repeat split; congruence.
  - right. split; congruence.
Qed.

(** The keystroke loop, when it does not raise. *)
Lemma keystroke_loop_Ok rid sid kss : ∀ st st',
  for_each (keystroke_body datetime64 rid sid) st kss = Ok st' →
  has_keys (pause_counts st) →
  has_keys (pause_counts st') ∧
  valid_keystroke_count st'
    = valid_keystroke_count st + Z.of_nat (count is_valid kss) ∧
  (count is_valid kss + count is_invalid kss = length kss)%nat ∧
  length (all_pauses_data st') = (length (all_pauses_data st) + length kss)%nat ∧
  (∃ t, pause_counts st !! "total_duration" = Some t ∧
        pause_counts st' !! "total_duration"
          = Some (t + (last_milestone st' - last_milestone st))) ∧
  (count is_valid kss = 0%nat →
     pause_counts st' = pause_counts st ∧ last_milestone st' = last_milestone st) ∧
  (∃ gaps, categorize_pauses (pause_counts st) gaps = Ok (pause_counts st')).
Proof.
  induction kss as [|k kss IH]; intros st st' H Hk.
  - injection H as <-. split_and!; try done; try (simpl; lia).
    + destruct (has_keys_total _ Hk) as [t Ht].
      exists t. split; [done|]. rewrite Ht. f_equal; lia.
    + by exists [].
  - simpl in H. apply bind_Ok in H as (st1 & H1 & H).
    apply keystroke_body_Ok in H1
      as [(Hv & created & t & counts & Hc & Ht & Hcat & ->) | (Hv & ->)].
    + pose proof (categorize_pause_has_keys _ _ _ Hcat Hk) as Hk1.
      destruct (IH _ _ H Hk1) as (A & B & C & D & (t1 & E1 & E2) & _ & (gaps & G)).
      cbn [pause_counts valid_keystroke_count last_milestone all_pauses_data] in *.
      assert (Hiv : is_valid k = true) by (unfold is_valid; by rewrite Hv).
      assert (Hii : is_invalid k = false) by (unfold is_invalid; by rewrite Hv).
      cbn [count]. rewrite Hiv, Hii.
      split_and!.
      * done.
      * rewrite B. lia.
      * simpl. lia.
      * rewrite D, length_app. simpl. lia.
      * destruct (has_keys_total _ Hk) as [t' Ht'].
        destruct (categorize_pause_at _ (t - last_milestone st) _ _ Hk Ht')
          as (c & Hc1 & Hc2).
        exists t'. split; [done|]. rewrite E2. f_equal.
        assert (c = counts) as -> by congruence.
        rewrite E1 in Hc2. injection Hc2 as ->.
        destruct (increment_at (t - last_milestone st)) as (_&_&_&_&_&_&->). lia.
      * intros Hz. lia.
      * exists ((t - last_milestone st) :: gaps).
        unfold categorize_pauses in *. simpl. by rewrite Hcat.
    + destruct (IH _ _ H Hk) as (A & B & C & D & E & F & G).
      cbn [pause_counts valid_keystroke_count last_milestone all_pauses_data] in *.
      assert (Hiv : is_valid k = false) by (unfold is_valid; by rewrite Hv).
      assert (Hii : is_invalid k = true) by (unfold is_invalid; by rewrite Hv).
      cbn [count]. rewrite Hiv, Hii.
      split_and!.
      * done.
      * rewrite B. lia.
      * simpl. lia.
      * rewrite D, length_app. simpl. lia.
      * done.
      * exact F.
      * done.
Qed.


(** The record loop body, when it does not raise: the attributes it has
    read and the branch it has taken. *)
Lemma process_record_Ok r L :
  process_record datetime64 r = Ok L →
  ∃ s0 t0 s1 t1 rid sid act,
    record_attrib r !! "started" = Some s0 ∧ datetime64 s0 = Some t0 ∧
    record_attrib r !! "stopped" = Some s1 ∧ datetime64 s1 = Some t1 ∧
    record_attrib r !! "id" = Some rid ∧
    record_attrib r !! "segmentid" = Some sid ∧
    record_attrib r !! "activemiliseconds" = Some act ∧
    record_id L = rid ∧ segment_id L = sid ∧ active_ms L = act ∧
    duration_ms L = t1 - t0 ∧
    record_branch datetime64 r t0 t1 rid sid L.
Proof.
  unfold process_record. intros H.
  apply bind_Ok in H as (s0 & Hs0 & H). apply bind_Ok in H as (t0 & Ht0 & H).
  apply bind_Ok in H as (s1 & Hs1 & H). apply bind_Ok in H as (t1 & Ht1 & H).
  apply bind_Ok in H as (rid & Hrid & H). apply bind_Ok in H as (sid & Hsid & H).
  apply bind_Ok in H as (act & Hact & H).
  apply getitem_Ok in Hs0, Hs1, Hrid, Hsid, Hact.
  apply np_datetime64_Ok in Ht0, Ht1.
  exists s0, t0, s1, t1, rid, sid, act.
  cbv zeta in H.
  destruct (findall_ks r) as [|k [|k' kss]] eqn:Eks.
  - cbn in H. apply bind_Ok in H as (c & Hc & H). injection H as <-.
    split_and!; try done. by apply branch_no_ks.
  - cbn in H. apply bind_Ok in H as (c & Hc & H).
    apply fmap_Ok in Hc as (b & Hb & ->). destruct b; cbn in H.
    + apply bind_Ok in H as (st & Hst & H).
      destruct (0 <? valid_keystroke_count st) eqn:E.
      * apply bind_Ok in H as (c & Hc & H). injection H as <-.
        split_and!; try done. apply (branch_trailing_pause _ _ _ _ _ _ _ st); try done.
        -- by rewrite Eks.
        -- by apply Z.ltb_lt.
      * injection H as <-.
        split_and!; try done. apply (branch_no_trailing_pause _ _ _ _ _ _ _ st); try done.
        -- by rewrite Eks.
        -- rewrite Eks. intros k0 [= <-]. done.
        -- by rewrite Eks.
        -- by apply Z.ltb_ge.
        -- by rewrite Eks.
    + apply bind_Ok in H as (c & Hc & H). injection H as <-.
      split_and!; try done. by apply (branch_one_system_ks _ _ _ _ _ _ _ k).
  - assert (E0 : (Z.of_nat (length (k :: k' :: kss)) =? 0) = false)
      by (apply Z.eqb_neq; simpl; lia).
    assert (E1 : (Z.of_nat (length (k :: k' :: kss)) =? 1) = false)
      by (apply Z.eqb_neq; simpl; lia).
    rewrite E0, E1 in H. cbn [and_then mbind result_bind] in H.
    apply bind_Ok in H as (st & Hst & H).
    destruct (0 <? valid_keystroke_count st) eqn:E.
    + apply bind_Ok in H as (c & Hc & H). injection H as <-.
      split_and!; try done. apply (branch_trailing_pause _ _ _ _ _ _ _ st); try done.
      * by rewrite Eks.
      * by apply Z.ltb_lt.
    + injection H as <-.
      split_and!; try done. apply (branch_no_trailing_pause _ _ _ _ _ _ _ st); try done.
      * by rewrite Eks.
      * rewrite Eks. intros k0 [=].
      * by rewrite Eks.
      * by apply Z.ltb_ge.
      * by rewrite Eks.
Qed.


Lemma count_valid_singleton k :
  valid_keystroke k = Ok true → count is_valid [k] = 1%nat.
Proof. intros H. unfold count, is_valid. by rewrite H. Qed.

Lemma count_invalid_singleton k :
  valid_keystroke k = Ok false → count is_valid [k] = 0%nat.
Proof. intros H. unfold count, is_valid. by rewrite H. Qed.

(** C4. A processed record with N > 0 valid and M invalid events has
    M + N + 1 audit rows; a record without events has one audit row; a
    record whose single event is invalid has one audit row. *)
Theorem audit_row_count (r : record_element) (L : record_locals) :
  process_record datetime64 r = Ok L →
  ((0 < count is_valid (findall_ks r))%nat →
     length (audit_rows L)
     = (count is_invalid (findall_ks r) + count is_valid (findall_ks r) + 1)%nat) ∧
  (findall_ks r = [] → length (audit_rows L) = 1%nat) ∧
  (∀ k, findall_ks r = [k] → valid_keystroke k = Ok false →
        length (audit_rows L) = 1%nat).
Proof.
  intros H.
  apply process_record_Ok in H
    as (s0 & t0 & s1 & t1 & rid & sid & act & _ & _ & _ & _ & _ & _ & _
        & _ & _ & _ & _ & Hb).
  destruct Hb as [Eks _ _ Ha | k Eks Hv _ _ Ha | st Hst Hpos _ _ Ha
                 | st Hne Hone Hst Hpos _ _ Ha].
  - rewrite Eks, Ha. split_and!; try done; simpl; lia.
  - rewrite Eks, Ha, (count_invalid_singleton k Hv). split_and!; try done; lia.
  - destruct (keystroke_loop_Ok _ _ _ _ _ Hst has_keys_create)
      as (_ & Hn & Hsum & Hlen & _).
    cbn [valid_keystroke_count all_pauses_data] in *.
    rewrite Ha, length_app, Hlen. simpl. split_and!.
    + lia.
    + intros E. rewrite E in Hn. simpl in Hn. lia.
    + intros k E Hv. rewrite E, (count_invalid_singleton k Hv) in Hn. lia.
  - destruct (keystroke_loop_Ok _ _ _ _ _ Hst has_keys_create)
      as (_ & Hn & _).
    cbn [valid_keystroke_count] in Hn. split_and!.
    + lia.
    + done.
    + intros k E Hv. specialize (Hone k E). congruence.
Qed.

(** A processed record with two or more events of which none is valid:
    nothing is classified, every audit row is an omitted event, and
    [keystrokes_count] is still the number of events. *)
Lemma all_invalid_record r L :
  process_record datetime64 r = Ok L →
  (2 ≤ length (findall_ks r))%nat → count is_valid (findall_ks r) = 0%nat →
  final_counts L = create_pause_counts_dict ∧
  keystrokes_count L = Z.of_nat (length (findall_ks r)) ∧
  length (audit_rows L) = length (findall_ks r).
Proof.
  intros H Hlen Hnone.
  apply process_record_Ok in H
    as (s0 & t0 & s1 & t1 & rid & sid & act & _ & _ & _ & _ & _ & _ & _
        & _ & _ & _ & _ & Hb).
  destruct Hb as [Eks _ _ _ | k Eks _ _ _ _ | st Hst Hpos _ _ _
                 | st _ _ Hst _ Hf Hn Ha].
  - rewrite Eks in Hlen. simpl in Hlen. lia.
  - rewrite Eks in Hlen. simpl in Hlen. lia.
  - destruct (keystroke_loop_Ok _ _ _ _ _ Hst has_keys_create) as (_ & Hv & _).
    cbn [valid_keystroke_count] in Hv. lia.
  - destruct (keystroke_loop_Ok _ _ _ _ _ Hst has_keys_create)
      as (_ & _ & _ & Hl & _ & Hsame & _).
    cbn [pause_counts all_pauses_data] in *.
    destruct (Hsame Hnone) as [Hc _].
    rewrite Hf, Hc, Hn, Ha, Hl. done.
Qed.

End record_processor_properties.

(** ** Frame properties of the classifier *)

Lemma iadd_frame counts k v counts' j :
  iadd counts k v = Ok counts' → j ≠ k → counts' !! j = counts !! j.
Proof.
  unfold iadd. intros H Hne. apply bind_Ok in H as (x & _ & H).
  injection H as <-. by rewrite lookup_insert_ne.
Qed.

Lemma iadd2_frame counts k1 v1 k2 v2 counts' j :
  iadd counts k1 v1 ≫= (λ c, iadd c k2 v2) = Ok counts' →
  j ≠ k1 → j ≠ k2 → counts' !! j = counts !! j.
Proof.
  intros H H1 H2. apply bind_Ok in H as (c & Hc & H).
  rewrite (iadd_frame _ _ _ _ _ H H2). by apply (iadd_frame _ _ _ _ _ Hc).
Qed.

(** A call that does not raise leaves every entry outside the seven
    bucket keys as it was, whatever the dictionary holds. *)
Lemma categorize_pause_frame counts g counts' j :
  categorize_pause counts g = Ok counts' → j ∉ bucket_keys →
  counts' !! j = counts !! j.
Proof.
  unfold bucket_keys. rewrite !not_elem_of_cons. intros H (?&?&?&?&?&?&?&_).
  unfold categorize_pause in H.
  apply bind_Ok in H as (c1 & E1 & H). apply bind_Ok in H as (c2 & E2 & H).
  apply bind_Ok in H as (c3 & E3 & H).
  rewrite (iadd_frame _ _ _ _ _ H) by done.
  assert (c3 !! j = c2 !! j) as ->.
  { destruct (1000 <=? g); [by apply (iadd2_frame _ _ _ _ _ _ _ E3) | congruence]. }
  assert (c2 !! j = c1 !! j) as ->.
  { destruct (500 <=? g); [by apply (iadd2_frame _ _ _ _ _ _ _ E2) | congruence]. }
  destruct (300 <=? g); [by apply (iadd2_frame _ _ _ _ _ _ _ E1) | congruence].
Qed.

Lemma categorize_pauses_frame gaps : ∀ counts counts' j,
  categorize_pauses counts gaps = Ok counts' → j ∉ bucket_keys →
  counts' !! j = counts !! j.
Proof.
  unfold categorize_pauses.
  induction gaps as [|g gaps IH]; intros counts counts' j H Hj; simpl in H.
  - congruence.
  - apply bind_Ok in H as (c & Hc & H).
    rewrite (IH _ _ _ H Hj). by apply (categorize_pause_frame _ g).
Qed.

Lemma categorize_pauses_has_keys gaps : ∀ counts counts',
  categorize_pauses counts gaps = Ok counts' → has_keys counts → has_keys counts'.
Proof.
  unfold categorize_pauses.
  induction gaps as [|g gaps IH]; intros counts counts' H Hk; simpl in H.
  - congruence.
  - apply bind_Ok in H as (c & Hc & H).
    apply (IH _ _ H). by apply (categorize_pause_has_keys _ _ _ Hc).
Qed.

Lemma categorize_pauses_snoc counts gaps g counts1 counts2 :
  categorize_pauses counts gaps = Ok counts1 →
  categorize_pause counts1 g = Ok counts2 →
  categorize_pauses counts (gaps ++ [g]) = Ok counts2.
Proof.
  unfold categorize_pauses. intros H1 H2.
  rewrite for_each_app, H1. simpl. by rewrite H2.
Qed.

Lemma row_of_has_keys L :
  has_keys (final_counts L) →
  ∃ d3 n3 d5 n5 d10 n10 t,
    final_counts L !! "duration_300" = Some d3 ∧ final_counts L !! "count_300" = Some n3 ∧
    final_counts L !! "duration_500" = Some d5 ∧ final_counts L !! "count_500" = Some n5 ∧
    final_counts L !! "duration_1000" = Some d10 ∧ final_counts L !! "count_1000" = Some n10 ∧
    final_counts L !! "total_duration" = Some t ∧
    row_of L = Ok [Str (record_id L); Str (segment_id L); Int d3; Int n3;
                   Int d5; Int n5; Int d10; Int n10; Int (keystrokes_count L);
                   Str (active_ms L); Int (duration_ms L); Int t].
Proof.
  unfold has_keys, bucket_keys. rewrite !Forall_cons.
  intros ([d3 H1] & [n3 H2] & [d5 H3] & [n5 H4] & [d10 H5] & [n10 H6] & [t H7] & _).
  exists d3, n3, d5, n5, d10, n10, t. split_and!; try done.
  unfold row_of.
  by rewrite (getitem_Some _ _ _ H1), (getitem_Some _ _ _ H2), (getitem_Some _ _ _ H3),
    (getitem_Some _ _ _ H4), (getitem_Some _ _ _ H5), (getitem_Some _ _ _ H6),
    (getitem_Some _ _ _ H7).
Qed.

Section record_processor_frame.

Variable datetime64 : string → option Z.

(** The accumulator of a processed record is the fresh one after a
    sequence of classifier calls: nothing else writes to it. *)
Lemma process_record_gaps r L :
  process_record datetime64 r = Ok L →
  ∃ gaps, categorize_pauses create_pause_counts_dict gaps = Ok (final_counts L).
Proof.
  intros H.
  apply process_record_Ok in H
    as (s0 & t0 & s1 & t1 & rid & sid & act & _ & _ & _ & _ & _ & _ & _
        & _ & _ & _ & _ & Hb).
  destruct Hb as [_ Hc _ _ | k _ _ Hc _ _ | st Hst _ Hc _ _
                 | st _ _ Hst _ Hf _ _].
  - exists [t1 - t0]. unfold categorize_pauses. simpl. by rewrite Hc.
  - exists [t1 - t0]. unfold categorize_pauses. simpl. by rewrite Hc.
  - destruct (keystroke_loop_Ok _ _ _ _ _ _ Hst has_keys_create)
      as (_ & _ & _ & _ & _ & _ & (gaps & Hg)).
    exists (gaps ++ [t1 - last_milestone st]).
    by apply (categorize_pauses_snoc _ _ _ (pause_counts st)).
  - destruct (keystroke_loop_Ok _ _ _ _ _ _ Hst has_keys_create)
      as (_ & _ & _ & _ & _ & _ & (gaps & Hg)).
    exists gaps. by rewrite Hf.
Qed.

(** C9. [total_pause_ms] starts at 0, no classifier call changes it, and
    it is 0 in the accumulator of every processed record; that
    accumulator is the fresh one changed by classifier calls only; the
    last column of the summary row is its [total_duration]. *)
Theorem total_pause_ms_stays_zero (r : record_element) (L : record_locals) :
  process_record datetime64 r = Ok L →
  create_pause_counts_dict !! "total_pause_ms" = Some 0 ∧
  (∀ counts g counts',
     categorize_pause counts g = Ok counts' →
     counts' !! "total_pause_ms" = counts !! "total_pause_ms") ∧
  (∃ gaps, categorize_pauses create_pause_counts_dict gaps = Ok (final_counts L)) ∧
  final_counts L !! "total_pause_ms" = Some 0 ∧
  (∃ row total,
     row_of L = Ok row ∧ length row = 12%nat ∧
     final_counts L !! "total_duration" = Some total ∧
     row !! 11%nat = Some (Int total)).
Proof.
  intros H.
  assert (Hn : "total_pause_ms" ∉ bucket_keys).
  { unfold bucket_keys. rewrite !not_elem_of_cons. split_and!; try done.
    apply not_elem_of_nil. }
  destruct (process_record_gaps r L H) as (gaps & Hg).
  split_and!.
  - done.
  - intros counts g counts' Hc. by apply (categorize_pause_frame _ g).
  - by exists gaps.
  - by rewrite (categorize_pauses_frame _ _ _ _ Hg Hn).
  - destruct (row_of_has_keys L) as (d3 & n3 & d5 & n5 & d10 & n10 & t & Hrow).
    { apply (categorize_pauses_has_keys _ _ _ Hg has_keys_create). }
    destruct Hrow as (_ & _ & _ & _ & _ & _ & Ht & Hrow).
    by eexists _, t.
Qed.

End record_processor_frame.

(** ** Scenario B *)

Lemma scenario_B_counts :
  ∃ c1 c2,
    categorize_pause create_pause_counts_dict 400 = Ok c1 ∧
    categorize_pause c1 500 = Ok c2 ∧
    (c1 !! "duration_300" = Some 400 ∧ c1 !! "count_300" = Some 1 ∧
     c1 !! "duration_500" = Some 0 ∧ c1 !! "count_500" = Some 0 ∧
     c1 !! "duration_1000" = Some 0 ∧ c1 !! "count_1000" = Some 0) ∧
    (c2 !! "duration_300" = Some 900 ∧ c2 !! "count_300" = Some 2 ∧
     c2 !! "duration_500" = Some 500 ∧ c2 !! "count_500" = Some 1 ∧
     c2 !! "duration_1000" = Some 0 ∧ c2 !! "count_1000" = Some 0 ∧
     c2 !! "total_duration" = Some 900).
Proof.
  destruct (categorize_pause_lookup create_pause_counts_dict 400 has_keys_create)
    as (c1 & H1 & L1).
  destruct (categorize_pause_lookup c1 500) as (c2 & H2 & L2).
  { by apply (categorize_pause_has_keys _ _ _ H1 has_keys_create). }
  exists c1, c2. split; [done|]. split; [done|].
  rewrite !L2, !L1. split; split_and!; reflexivity.
Qed.

Section scenarios.

Variable datetime64 : string → option Z.

Lemma keystroke_body_valid rid sid st k created t counts :
  valid_keystroke k = Ok true →
  attrib k !! "created" = Some created → datetime64 created = Some t →
  categorize_pause (pause_counts st) (t - last_milestone st) = Ok counts →
  keystroke_body datetime64 rid sid st k
  = Ok (LoopState (valid_keystroke_count st + 1) t counts
          (all_pauses_data st ++
             [[Str rid; Str sid; Int (t - last_milestone st); Str EmptyString]])).
Proof.
  intros Hv Hc Ht Hcat. unfold keystroke_body.
  rewrite Hv. cbn [mbind result_bind].
  rewrite (getitem_Some _ _ _ Hc). cbn [mbind result_bind].
  rewrite (np_datetime64_Some _ _ _ Ht). cbn [mbind result_bind].
  by rewrite Hcat.
Qed.

Lemma keystroke_body_invalid rid sid st k :
  valid_keystroke k = Ok false →
  keystroke_body datetime64 rid sid st k
  = Ok (LoopState (valid_keystroke_count st) (last_milestone st) (pause_counts st)
          (all_pauses_data st ++ [[Str rid; Str sid; PyNone; Str "Omitted ks"]])).
Proof. intros Hv. unfold keystroke_body. by rewrite Hv. Qed.

(** C6. Scenario B: start T0, stop T0 + 900, one valid event at T0 + 400.
    Two gaps are classified, 400 (300 bucket only) and 500 (300 and 500
    buckets); the summary row has duration_300 = 900, count_300 = 2,
    duration_500 = 500, count_500 = 1, duration_1000 = 0, count_1000 = 0,
    Keystrokes = 1 and total duration 900; there are two audit rows, both
    with an empty note. *)
Theorem one_valid_event_scenario (r : record_element) (started stopped rid sid act : string)
    (t0 : Z) (k : element) (created : string) :
  record_attrib r !! "started" = Some started → datetime64 started = Some t0 →
  record_attrib r !! "stopped" = Some stopped →
  datetime64 stopped = Some (t0 + 900) →
  record_attrib r !! "id" = Some rid →
  record_attrib r !! "segmentid" = Some sid →
  record_attrib r !! "activemiliseconds" = Some act →
  findall_ks r = [k] → valid_keystroke k = Ok true →
  attrib k !! "created" = Some created → datetime64 created = Some (t0 + 400) →
  ∃ c1 c2,
    categorize_pause create_pause_counts_dict 400 = Ok c1 ∧
    (c1 !! "duration_300" = Some 400 ∧ c1 !! "count_300" = Some 1 ∧
     c1 !! "duration_500" = Some 0 ∧ c1 !! "count_500" = Some 0 ∧
     c1 !! "duration_1000" = Some 0 ∧ c1 !! "count_1000" = Some 0) ∧
    categorize_pause c1 500 = Ok c2 ∧
    (c2 !! "duration_300" = Some 900 ∧ c2 !! "count_300" = Some 2 ∧
     c2 !! "duration_500" = Some 500 ∧ c2 !! "count_500" = Some 1 ∧
     c2 !! "duration_1000" = Some 0 ∧ c2 !! "count_1000" = Some 0) ∧
    process_record datetime64 r
      = Ok (RecordLocals rid sid act 900 c2 1
              [[Str rid; Str sid; Int 400; Str EmptyString];
               [Str rid; Str sid; Int 500; Str EmptyString]]) ∧
    process_file datetime64 [r]
      = Ok ([[Str rid; Str sid; Int 900; Int 2; Int 500; Int 1; Int 0; Int 0;
              Int 1; Str act; Int 900; Int 900]],
            [[Str rid; Str sid; Int 400; Str EmptyString];
             [Str rid; Str sid; Int 500; Str EmptyString]]).
Proof.
  intros Hs0 Ht0 Hs1 Ht1 Hrid Hsid Hact Eks Hv Hc Htc.
  destruct scenario_B_counts as (c1 & c2 & H1 & H2 & V1 & V2).
  exists c1, c2. split; [done|]. split; [done|]. split; [done|].
  split; [tauto|].
  assert (Hrec : process_record datetime64 r
      = Ok (RecordLocals rid sid act 900 c2 1
              [[Str rid; Str sid; Int 400; Str EmptyString];
               [Str rid; Str sid; Int 500; Str EmptyString]])).
  { unfold process_record.
    rewrite (getitem_Some _ _ _ Hs0). cbn [mbind result_bind].
    rewrite (np_datetime64_Some _ _ _ Ht0). cbn [mbind result_bind].
    rewrite (getitem_Some _ _ _ Hs1). cbn [mbind result_bind].
    rewrite (np_datetime64_Some _ _ _ Ht1). cbn [mbind result_bind].
    rewrite (getitem_Some _ _ _ Hrid), (getitem_Some _ _ _ Hsid),
      (getitem_Some _ _ _ Hact).
    cbn [mbind result_bind]. rewrite Eks.
    change (Z.of_nat (length [k]) =? 0) with false.
    change (Z.of_nat (length [k]) =? 1) with true.
    change (getindex [k] 0) with (Ok k).
    cbn [and_then mbind result_bind]. rewrite Hv.
    cbn [fmap result_fmap negb mbind result_bind for_each].
    erewrite keystroke_body_valid; [| done | exact Hc | exact Htc |].
    2: { cbn [pause_counts last_milestone].
         replace (t0 + 400 - t0) with 400 by lia. exact H1. }
    cbn [mbind result_bind valid_keystroke_count last_milestone pause_counts
         all_pauses_data].
    change (0 <? 0 + 1) with true. cbn iota.
    replace (t0 + 900 - (t0 + 400)) with 500 by lia.
    replace (t0 + 400 - t0) with 400 by lia.
    replace (t0 + 900 - t0) with 900 by lia.
    rewrite H2. reflexivity. }
  split; [done|].
  unfold process_file. cbn [for_each]. rewrite Hrec.
  cbn [mbind result_bind]. unfold row_of.
  cbn [final_counts record_id segment_id active_ms duration_ms keystrokes_count
       audit_rows].
  destruct V2 as (A1 & A2 & A3 & A4 & A5 & A6 & A7).
  rewrite (getitem_Some _ _ _ A1), (getitem_Some _ _ _ A2), (getitem_Some _ _ _ A3),
    (getitem_Some _ _ _ A4), (getitem_Some _ _ _ A5), (getitem_Some _ _ _ A6),
    (getitem_Some _ _ _ A7).
  reflexivity.
Qed.

End scenarios.

(** ** Exceptions of the record processor *)

Lemma for_each_raises {S A} (body : S → A → result S) (l : list A) (x : A) :
  x ∈ l → (∀ st, raises (body st x)) → ∀ st, raises (for_each body st l).
Proof.
  intros Hx Hbody. induction l as [|y l IH]; intros st.
  - by apply elem_of_nil in Hx.
  - simpl. apply elem_of_cons in Hx as [<- | Hx].
    + by apply bind_raises.
    + apply bind_raises_after. intros st' _. by apply IH.
Qed.

Lemma valid_keystroke_no_origin keystroke :
  attrib keystroke !! "origin" = None → raises (valid_keystroke keystroke).
Proof.
  intros H. unfold valid_keystroke. rewrite (getitem_None _ _ H). by eexists.
Qed.

Ltac raise_leaf :=
  split; [ intros _; eexists; split; cycle 1;
           [ eassumption
           | repeat first [ apply list_elem_of_here | apply list_elem_of_further ] ]
         | intros _; by eexists ].

Ltac ok_leaf :=
  split; [ intros [e He]; discriminate He
         | let a := fresh "a" in
           let Ha := fresh "Ha" in
           let Hm := fresh "Hm" in
           intros (a & Ha & Hm);
           repeat (apply elem_of_cons in Ha as [-> | Ha]; [congruence |]);
           by apply elem_of_nil in Ha ].

Ltac after_read :=
  cbn [fmap result_fmap and_then mbind result_bind from_option andb truthy
       py_not negb app];
  try first [ raise_leaf | ok_leaf ].

(** Case analysis on an attribute read for its truth value. *)
Ltac read_str k s :=
  try match goal with
  | |- context [attrib k !! s] =>
      let v := fresh "v" in
      let E := fresh "E" in
      destruct (attrib k !! s) as [[|? v]|] eqn:E; after_read
  end.

(** Case analysis on an attribute compared with the text False. *)
Ltac read_flag k s :=
  try match goal with
  | |- context [attrib k !! s] =>
      let v := fresh "v" in
      let E := fresh "E" in
      destruct (attrib k !! s) as [v|] eqn:E;
      [ destruct (decide (v = "False")) as [->|?];
        cbn [fmap result_fmap and_then mbind result_bind from_option];
        [ rewrite !(bool_decide_eq_true_2 ("False" = "False")) by done
        | rewrite !(bool_decide_eq_false_2 (v = "False")) by done ]
      | ];
      after_read
  end.

(** The filter raises exactly when one of the attributes it reads is
    missing. *)
Lemma valid_keystroke_raises_iff keystroke :
  raises (valid_keystroke keystroke) ↔
  ∃ a, a ∈ filter_reads keystroke ∧ attrib keystroke !! a = None.
Proof.
  unfold valid_keystroke, filter_reads, getitem, str_eq. cbv zeta.
  read_str keystroke "origin"; read_str keystroke "system";
    read_str keystroke "key"; read_str keystroke "selection";
    read_str keystroke "text"; read_flag keystroke "shift";
    read_flag keystroke "ctrl"; read_flag keystroke "alt".
Qed.

Section record_processor_exceptions.

Variable datetime64 : string → option Z.

Lemma keystroke_body_raises rid sid st k :
unreadable_ks k → raises (keystroke_body datetime64 rid sid st k).
Proof.
unfold keystroke_body. intros [H | [Hv Hc]].
- by apply bind_raises.
- rewrite Hv. cbn [mbind result_bind]. rewrite (getitem_None _ _ Hc). by eexists.
Qed.

Lemma process_record_raises_attribute r a :
a ∈ record_attributes → record_attrib r !! a = None →
raises (process_record datetime64 r).
Proof.
unfold record_attributes. rewrite !elem_of_cons.
intros Ha H. unfold process_record.
destruct Ha as [-> | [-> | [-> | [-> | [-> | Ha]]]]];
  [ .. | by apply elem_of_nil in Ha ].
all: repeat (first [ rewrite (getitem_None _ _ H); by eexists
                   | apply bind_raises_after; intros ? _; cbv beta ]).
Qed.

Lemma process_record_raises_ks r k :
k ∈ findall_ks r → unreadable_ks k → raises (process_record datetime64 r).
Proof.
intros Hk Hbad. unfold process_record.
apply bind_raises_after; intros started _; cbv beta.
apply bind_raises_after; intros t0 _; cbv beta.
apply bind_raises_after; intros stopped _; cbv beta.
apply bind_raises_after; intros t1 _; cbv beta.
apply bind_raises_after; intros rid _; cbv beta.
apply bind_raises_after; intros sid _; cbv beta.
apply bind_raises_after; intros act _; cbv beta.
cbv zeta.
assert (Hloop : ∀ st, raises (for_each (keystroke_body datetime64 rid sid) st
                                (findall_ks r))).
{ apply (for_each_raises _ _ k Hk). intros st. by apply keystroke_body_raises. }
destruct (findall_ks r) as [|k0 [|k1 kss]] eqn:Eks.
- by apply elem_of_nil in Hk.
- apply list_elem_of_singleton in Hk as ->.
  change (Z.of_nat (length [k0]) =? 0) with false.
  change (Z.of_nat (length [k0]) =? 1) with true.
  change (getindex [k0] 0) with (Ok k0).
  cbn [and_then mbind result_bind].
  destruct Hbad as [[e He] | [Hv Hc]].
  + rewrite He. by eexists.
  + rewrite Hv. cbn [fmap result_fmap negb mbind result_bind].
    by apply bind_raises.
- assert (E0 : (Z.of_nat (length (k0 :: k1 :: kss)) =? 0) = false)
    by (apply Z.eqb_neq; simpl; lia).
  assert (E1 : (Z.of_nat (length (k0 :: k1 :: kss)) =? 1) = false)
    by (apply Z.eqb_neq; simpl; lia).
  rewrite E0, E1. cbn [and_then mbind result_bind].
  by apply bind_raises.
Qed.

Lemma process_file_raises records r :
r ∈ records → raises (process_record datetime64 r) →
raises (process_file datetime64 records).
Proof.
intros Hr Hraise. unfold process_file.
apply (for_each_raises _ _ r Hr). intros st. by apply bind_raises.
Qed.

(** C7 (amended). Processing raises, and [process_file] returns no row at
    all, when a record lacks one of its five attributes, when an event
    lacks [origin], when an event lacks an attribute that the short-circuit
    evaluation of the filter reads on it, or when an event that the filter
    accepts lacks [created]. *)
Theorem missing_attribute_raises (records : list record_element) (r : record_element) :
  r ∈ records →
  (∃ a, a ∈ record_attributes ∧ record_attrib r !! a = None)
  ∨ (∃ k, k ∈ findall_ks r ∧ attrib k !! "origin" = None)
  ∨ (∃ k a, k ∈ findall_ks r ∧ a ∈ filter_reads k ∧ attrib k !! a = None)
  ∨ (∃ k, k ∈ findall_ks r ∧ valid_keystroke k = Ok true ∧
          attrib k !! "created" = None) →
  raises (process_record datetime64 r) ∧ raises (process_file datetime64 records).
Proof.
  intros Hr H.
  assert (Hrec : raises (process_record datetime64 r)).
  { destruct H as [(a & Ha & H) | [(k & Hk & H) | [(k & a & Hk & Ha & H)
                                                  | (k & Hk & Hv & H)]]].
    - by apply (process_record_raises_attribute r a).
    - apply (process_record_raises_ks r k Hk). left.
      by apply valid_keystroke_no_origin.
    - apply (process_record_raises_ks r k Hk). left.
      apply valid_keystroke_raises_iff. by exists a.
    - apply (process_record_raises_ks r k Hk). by right. }
  split; [done|]. by apply (process_file_raises records r).
Qed.

End record_processor_exceptions.

(** ** Well-formed records are processed *)

Section record_processor_totality.

Variable datetime64 : string → option Z.

Lemma keystroke_body_total rid sid st k :
has_keys (pause_counts st) → well_formed_ks datetime64 k →
∃ st', keystroke_body datetime64 rid sid st k = Ok st' ∧
       has_keys (pause_counts st').
Proof.
intros Hk (Hf & created & t & Hc & Ht).
destruct (valid_keystroke_total k Hf) as [[|] Hv].
- destruct (categorize_pause_lookup (pause_counts st) (t - last_milestone st) Hk)
    as (counts & Hcat & _).
  eexists. split.
  + by apply (keystroke_body_valid datetime64 rid sid st k created t counts).
  + cbn [pause_counts]. by apply (categorize_pause_has_keys _ _ _ Hcat).
- eexists. split; [by apply keystroke_body_invalid | done].
Qed.

Lemma keystroke_loop_total rid sid kss : ∀ st,
has_keys (pause_counts st) → Forall (well_formed_ks datetime64) kss →
∃ st', for_each (keystroke_body datetime64 rid sid) st kss = Ok st' ∧
       has_keys (pause_counts st').
Proof.
induction kss as [|k kss IH]; intros st Hk Hwf.
- by exists st.
- apply Forall_cons in Hwf as [Hwk Hwf].
  destruct (keystroke_body_total rid sid st k Hk Hwk) as (st1 & H1 & Hk1).
  destruct (IH st1 Hk1 Hwf) as (st' & H' & Hk').
  exists st'. split; [|done]. simpl. by rewrite H1.
Qed.

(** The record loop body does not raise on a well-formed record. *)
Lemma process_record_total r :
well_formed_record datetime64 r → ∃ L, process_record datetime64 r = Ok L.
Proof.
intros ((started & t0 & Hs0 & Ht0) & (stopped & t1 & Hs1 & Ht1) & [rid Hrid]
        & [sid Hsid] & [act Hact] & Hwf).
unfold process_record.
rewrite (getitem_Some _ _ _ Hs0). cbn [mbind result_bind].
rewrite (np_datetime64_Some _ _ _ Ht0). cbn [mbind result_bind].
rewrite (getitem_Some _ _ _ Hs1). cbn [mbind result_bind].
rewrite (np_datetime64_Some _ _ _ Ht1). cbn [mbind result_bind].
rewrite (getitem_Some _ _ _ Hrid), (getitem_Some _ _ _ Hsid),
  (getitem_Some _ _ _ Hact).
cbn [mbind result_bind].
destruct (categorize_pause_lookup create_pause_counts_dict (t1 - t0) has_keys_create)
  as (c & Hc & _).
destruct (keystroke_loop_total rid sid (findall_ks r)
            (LoopState 0 t0 create_pause_counts_dict []) has_keys_create Hwf)
  as (st & Hst & Hk).
destruct (categorize_pause_lookup (pause_counts st) (t1 - last_milestone st) Hk)
  as (c' & Hc' & _).
rewrite Hc, Hst. cbn [mbind result_bind]. rewrite Hc'. cbn [mbind result_bind].
destruct (findall_ks r) as [|k [|k' kss]].
- by eexists.
- apply Forall_cons in Hwf as [[Hf _] _].
  destruct (valid_keystroke_total k Hf) as [b Hv].
  change (Z.of_nat (length [k]) =? 0) with false.
  change (Z.of_nat (length [k]) =? 1) with true.
  change (getindex [k] 0) with (Ok k).
  cbn [and_then mbind result_bind].
  rewrite Hv. cbn [fmap result_fmap mbind result_bind].
  destruct b; cbn [negb]; [| by eexists].
  destruct (0 <? valid_keystroke_count st); by eexists.
- assert (E0 : (Z.of_nat (length (k :: k' :: kss)) =? 0) = false)
    by (apply Z.eqb_neq; simpl; lia).
  assert (E1 : (Z.of_nat (length (k :: k' :: kss)) =? 1) = false)
    by (apply Z.eqb_neq; simpl; lia).
  rewrite E0, E1. cbn [and_then mbind result_bind].
  destruct (0 <? valid_keystroke_count st); by eexists.
Qed.

End record_processor_totality.

(** ** The examples *)

Lemma typed_ks_well_formed created t :
  iso_millis created = Some t → well_formed_ks iso_millis (typed_ks created).
Proof.
  intros H. split.
  - unfold has_filter_attributes, filter_attributes. repeat constructor; by eexists.
  - by exists created, t.
Qed.

Lemma system_ks_well_formed created t :
  iso_millis created = Some t → well_formed_ks iso_millis (system_ks created).
Proof.
  intros H. split.
  - unfold has_filter_attributes, filter_attributes. repeat constructor; by eexists.
  - by exists created, t.
Qed.

Lemma example_attributes_well_formed stopped t1 kss :
  iso_millis stopped = Some t1 → Forall (well_formed_ks iso_millis) kss →
  well_formed_record iso_millis (record (example_attributes stopped) kss).
Proof.
  intros H Hks. unfold well_formed_record. split_and!; try by eexists.
  - exists "2019-05-01T10:00:00.000", 1556704800000. split; reflexivity.
  - by exists stopped, t1.
  - exact Hks.
Qed.

Lemma mixed_record_well_formed : well_formed_record iso_millis mixed_record.
Proof.
  apply (example_attributes_well_formed _ 1556704802000); [reflexivity|].
  apply Forall_cons_2; [by apply (system_ks_well_formed _ 1556704800200) |].
  apply Forall_cons_2; [by apply (typed_ks_well_formed _ 1556704801300) |].
  apply Forall_cons_2; [by apply (system_ks_well_formed _ 1556704801600) |].
  apply Forall_nil_2.
Qed.

Lemma mixed_record_counts :
  count is_valid (findall_ks mixed_record) = 1%nat ∧
  count is_invalid (findall_ks mixed_record) = 2%nat.
Proof. split; reflexivity. Qed.

(** C1, counterexample. Two events, both system keystrokes, in a record of
    900 ms: the record is processed and total_duration is 0. *)
Lemma total_duration_not_conserved :
  ∃ L, process_record iso_millis two_system_ks_record = Ok L ∧
       duration_ms L = 900 ∧
       final_counts L !! "total_duration" = Some 0 ∧
       final_counts L !! "total_duration" ≠ Some (duration_ms L).
Proof.
  assert (H : (λ L, (duration_ms L, final_counts L !! "total_duration"))
                <$> process_record iso_millis two_system_ks_record
              = Ok (900, Some 0)) by (vm_compute; reflexivity).
  apply fmap_Ok in H as (L & HL & [= Hd Ht]).
  exists L. split_and!; try done. rewrite <- Hd, <- Ht. discriminate.
Qed.

Lemma audit_row_count_witness :
  ∃ L, process_record iso_millis mixed_record = Ok L ∧
       length (audit_rows L) = 4%nat.
Proof.
  destruct (process_record_total iso_millis mixed_record mixed_record_well_formed)
    as [L HL].
  exists L. split; [done|].
  destruct (audit_row_count iso_millis mixed_record L HL) as (H & _).
  destruct mixed_record_counts as [Hv Hi]. rewrite Hv, Hi in H. apply H. lia.
Defined.

Lemma total_pause_ms_stays_zero_witness :
  ∃ L, process_record iso_millis mixed_record = Ok L ∧
       final_counts L !! "total_pause_ms" = Some 0.
Proof.
  destruct (process_record_total iso_millis mixed_record mixed_record_well_formed)
    as [L HL].
  exists L. split; [done|].
  by destruct (total_pause_ms_stays_zero iso_millis mixed_record L HL)
    as (_ & _ & _ & H & _).
Defined.

Lemma one_valid_event_scenario_witness :
  process_file iso_millis [scenario_B_record]
  = Ok ([[Str "12"; Str "3"; Int 900; Int 2; Int 500; Int 1; Int 0; Int 0;
          Int 1; Str "250"; Int 900; Int 900]],
        [[Str "12"; Str "3"; Int 400; Str EmptyString];
         [Str "12"; Str "3"; Int 500; Str EmptyString]]).
Proof.
  destruct (one_valid_event_scenario iso_millis scenario_B_record
              "2019-05-01T10:00:00.000" "2019-05-01T10:00:00.900" "12" "3" "250"
              1556704800000 (typed_ks "2019-05-01T10:00:00.400")
              "2019-05-01T10:00:00.400")
    as (c1 & c2 & _ & _ & _ & _ & _ & H);
    [reflexivity .. | exact H].
Defined.

(** C2. A record of 900 ms with two events, both rejected by the filter:
    no gap is classified and the audit has the two omitted events only, but
    the Keystrokes column of the summary row holds 2, the number of events. *)
Theorem all_invalid_record_reports_event_count :
  valid_keystroke (system_ks "2019-05-01T10:00:00.200") = Ok false ∧
  valid_keystroke (system_ks "2019-05-01T10:00:00.600") = Ok false ∧
  process_file iso_millis [two_system_ks_record]
  = Ok ([[Str "12"; Str "3"; Int 0; Int 0; Int 0; Int 0; Int 0; Int 0;
          Int 2; Str "250"; Int 900; Int 0]],
        [[Str "12"; Str "3"; PyNone; Str "Omitted ks"];
         [Str "12"; Str "3"; PyNone; Str "Omitted ks"]]).
Proof. split_and!; vm_compute; reflexivity. Qed.

(** C7, counterexample. A system keystroke without [created], [selection],
    [text], [shift], [ctrl] and [alt]: the record is processed and its rows
    are returned. *)
Lemma missing_attribute_not_raised :
  attrib bare_system_ks !! "created" = None ∧
  attrib bare_system_ks !! "shift" = None ∧
  process_file iso_millis [bare_system_ks_record]
  = Ok ([[Str "12"; Str "3"; Int 900; Int 1; Int 900; Int 1; Int 0; Int 0;
          Int 0; Str "250"; Int 900; Int 900]],
        [[Str "12"; Str "3"; Int 900; Str "1 system ks omitted"]]) ∧
  ¬ raises (process_file iso_millis [bare_system_ks_record]).
Proof.
  assert (H : process_file iso_millis [bare_system_ks_record]
    = Ok ([[Str "12"; Str "3"; Int 900; Int 1; Int 900; Int 1; Int 0; Int 0;
            Int 0; Str "250"; Int 900; Int 900]],
          [[Str "12"; Str "3"; Int 900; Str "1 system ks omitted"]]))
    by (vm_compute; reflexivity).
  split; [reflexivity|]. split; [reflexivity|]. split; [exact H|].
  rewrite H. intros [e He]. discriminate.
Qed.

Lemma missing_attribute_raises_witness :
  raises (process_record iso_millis no_stopped_record) ∧
  raises (process_file iso_millis [scenario_B_record; no_stopped_record]).
Proof.
  apply (missing_attribute_raises iso_millis
           [scenario_B_record; no_stopped_record] no_stopped_record).
  - apply elem_of_cons. right. apply elem_of_cons. by left.
  - left. exists "stopped". split; [| reflexivity].
    unfold record_attributes. apply elem_of_cons. right. apply elem_of_cons. by left.
Defined.

(** * Further properties *)

(** ** Sequences of classifier calls *)

Lemma categorize_pauses_lookup gaps : ∀ counts,
  has_keys counts →
  ∃ counts', categorize_pauses counts gaps = Ok counts' ∧
    ∀ k, counts' !! k
         = (λ x, x + sum_Z ((λ g, increment g k) <$> gaps)) <$> counts !! k.
Proof.
  unfold categorize_pauses.
  induction gaps as [|g gaps IH]; intros counts Hk.
  - exists counts. split; [done|]. intros k.
    destruct (counts !! k); simpl; f_equal. lia.
  - destruct (categorize_pause_lookup counts g Hk) as (c1 & Hc1 & Hl1).
    assert (Hk1 : has_keys c1) by (by apply (categorize_pause_has_keys _ _ _ Hc1)).
    destruct (IH c1 Hk1) as (c2 & Hc2 & Hl2).
    exists c2. split; [simpl; by rewrite Hc1|].
    intros k. rewrite Hl2, Hl1. destruct (counts !! k); simpl; f_equal.
    by rewrite <- Z.add_assoc.
Qed.

Lemma total_pause_ms_not_bucket_key : "total_pause_ms" ∉ bucket_keys.
Proof.
  unfold bucket_keys. rewrite !not_elem_of_cons. split_and!; try done.
  apply not_elem_of_nil.
Qed.


Lemma sum_Z_permutation l l' : l ≡ₚ l' → sum_Z l = sum_Z l'.
Proof.
  unfold sum_Z. induction 1; simpl; lia.
Qed.

(** X2. On an accumulator with the seven keys the order of the gaps does
    not matter: two sequences of calls with the same gaps in different
    orders end in the same accumulator. *)
Theorem categorize_pauses_order_irrelevant
    (counts : gmap string Z) (gaps gaps' : list Z) :
  has_keys counts → gaps ≡ₚ gaps' →
  categorize_pauses counts gaps = categorize_pauses counts gaps'.
Proof.
  intros Hk Hp.
  destruct (categorize_pauses_lookup gaps counts Hk) as (c & Hc & Hl).
  destruct (categorize_pauses_lookup gaps' counts Hk) as (c' & Hc' & Hl').
  rewrite Hc, Hc'. f_equal. apply map_eq. intros k.
  rewrite Hl, Hl'. destruct (counts !! k); simpl; f_equal. f_equal.
  apply sum_Z_permutation. by apply fmap_Permutation.
Qed.

Lemma categorize_pauses_order_irrelevant_witness :
  categorize_pauses create_pause_counts_dict [400; 1200; -50]
  = categorize_pauses create_pause_counts_dict [-50; 400; 1200].
Proof.
  apply (categorize_pauses_order_irrelevant create_pause_counts_dict
           [400; 1200; -50] [-50; 400; 1200] has_keys_create).
  change [400; 1200; -50] with ([400; 1200] ++ [-50]).
  change [-50; 400; 1200] with ([-50] ++ [400; 1200]).
  apply Permutation_app_comm.
Defined.

Lemma at_least_bounds threshold gaps :
  0 ≤ threshold →
  threshold * Z.of_nat (length (at_least threshold gaps))
  ≤ sum_Z (at_least threshold gaps).
Proof.
  intros Ht. unfold at_least.
  induction gaps as [|g gaps IH]; [simpl; lia|].
  rewrite filter_cons. case_decide; [|done].
  cbn [length sum_Z foldr]. fold (sum_Z (filter (λ g, threshold ≤ g) gaps)). lia.
Qed.

Lemma at_least_nested lo hi gaps :
  0 ≤ lo → lo ≤ hi →
  (length (at_least hi gaps) ≤ length (at_least lo gaps))%nat ∧
  sum_Z (at_least hi gaps) ≤ sum_Z (at_least lo gaps).
Proof.
  intros H0 Hle. unfold at_least.
  induction gaps as [|g gaps [IH1 IH2]]; [simpl; lia|].
  rewrite !filter_cons.
  repeat case_decide; cbn [length sum_Z foldr];
    fold (sum_Z (filter (λ g, hi ≤ g) gaps));
    fold (sum_Z (filter (λ g, lo ≤ g) gaps)); lia.
Qed.

(** ** Keys and errors of the classifier *)

Lemma categorize_pause_iadds counts g :
  categorize_pause counts g = iadds counts (updates g).
Proof.
  unfold categorize_pause, iadds, updates.
  destruct (300 <=? g), (500 <=? g), (1000 <=? g); simpl;
    repeat (match goal with
            | |- context [iadd ?c ?k ?v] => destruct (iadd c k v); simpl; try done
            end).
Qed.

Lemma iadd_lookup_None counts k v counts' j :
  iadd counts k v = Ok counts' → counts' !! j = None ↔ counts !! j = None.
Proof.
  unfold iadd. intros H. apply bind_Ok in H as (x & Hx & H).
  apply getitem_Ok in Hx. injection H as <-.
  destruct (decide (j = k)) as [->|Hne].
  - rewrite lookup_insert_eq, Hx. done.
  - by rewrite lookup_insert_ne.
Qed.

Lemma iadd_raises counts k v :
  counts !! k = None → iadd counts k v = Raise (KeyError k).
Proof. intros H. unfold iadd. by rewrite (getitem_None _ _ H). Qed.

Lemma iadd_is_Some counts k v :
  is_Some (counts !! k) → ∃ counts', iadd counts k v = Ok counts'.
Proof. intros [x Hx]. rewrite (iadd_Some _ _ _ _ Hx). by eexists. Qed.

Lemma iadds_first_missing l : ∀ counts before k after,
  l.*1 = before ++ k :: after →
  Forall (λ j, is_Some (counts !! j)) before → counts !! k = None →
  iadds counts l = Raise (KeyError k).
Proof.
  unfold iadds.
  induction l as [|[k0 v0] l IH]; intros counts before k after Hl Hb Hk.
  - by destruct before.
  - destruct before as [|b before]; simpl in Hl; injection Hl as -> Hl.
    + simpl. by rewrite (iadd_raises _ _ _ Hk).
    + apply Forall_cons in Hb as [Hb0 Hb].
      destruct (iadd_is_Some counts b v0 Hb0) as [c1 Hc1].
      simpl. rewrite Hc1. simpl.
      apply (IH c1 before k after Hl).
      * eapply Forall_impl; [exact Hb|]. intros j [x Hx]; simpl.
        destruct (c1 !! j) eqn:E; [by eexists|].
        apply (iadd_lookup_None _ _ _ _ j Hc1) in E. congruence.
      * by apply (iadd_lookup_None _ _ _ _ k Hc1).
Qed.

Lemma iadds_all_present l : ∀ counts,
  Forall (λ j, is_Some (counts !! j)) l.*1 →
  ∃ counts', iadds counts l = Ok counts' ∧ dom counts' = dom counts.
Proof.
  unfold iadds.
  induction l as [|[k0 v0] l IH]; intros counts Hb.
  - by exists counts.
  - simpl in Hb. apply Forall_cons in Hb as [Hb0 Hb].
    destruct Hb0 as [x Hx].
    simpl. rewrite (iadd_Some _ _ _ _ Hx). simpl.
    destruct (IH (<[k0 := x + v0]> counts)) as (c' & Hc' & Hd).
    + eapply Forall_impl; [exact Hb|]. intros j [y Hy]; simpl.
      destruct (decide (j = k0)) as [->|Hne];
        [rewrite lookup_insert_eq | rewrite lookup_insert_ne by done]; by eexists.
    + exists c'. split; [done|]. rewrite Hd, dom_insert_L.
      apply subseteq_union_1_L, singleton_subseteq_l.
      by apply elem_of_dom_2 in Hx.
Qed.

Lemma updates_keys g : (updates g).*1 = keys_read g.
Proof.
  unfold updates, keys_read.
  by destruct (300 <=? g), (500 <=? g), (1000 <=? g).
Qed.

(** X4. A call of the classifier reads the keys of the buckets that the gap
    reaches and [total_duration], in that order. When all of them are in
    the dictionary the call succeeds and leaves the key set as it is; else
    it raises the [KeyError] of the first one that is missing. *)
Theorem categorize_pause_key_errors (counts : gmap string Z) (g : Z) :
  (Forall (λ k, is_Some (counts !! k)) (keys_read g) →
   ∃ counts', categorize_pause counts g = Ok counts' ∧ dom counts' = dom counts) ∧
  (∀ before k after,
     keys_read g = before ++ k :: after →
     Forall (λ j, is_Some (counts !! j)) before → counts !! k = None →
     categorize_pause counts g = Raise (KeyError k)).
Proof.
  rewrite categorize_pause_iadds, <- updates_keys. split.
  - apply iadds_all_present.
  - apply iadds_first_missing.
Qed.

Lemma categorize_pause_key_errors_witness :
  (∃ counts', categorize_pause {["total_duration" := 7]} 120 = Ok counts' ∧
              dom counts' = dom ({["total_duration" := 7]} : gmap string Z)) ∧
  categorize_pause {["total_duration" := 7; "duration_300" := 0]} 450
  = Raise (KeyError "count_300").
Proof.
  split.
  - apply (proj1 (categorize_pause_key_errors {["total_duration" := 7]} 120)).
    repeat constructor. by eexists.
  - apply (proj2 (categorize_pause_key_errors
                    {["total_duration" := 7; "duration_300" := 0]} 450)
             ["duration_300"] "count_300" ["total_duration"]).
    + reflexivity.
    + repeat constructor. by eexists.
    + reflexivity.
Defined.

(** ** The gaps of a record *)

Lemma default_last_cons (prev t : Z) (times : list Z) :
  default prev (last (t :: times)) = default t (last times).
Proof.
  destruct times as [|t' times]; [reflexivity|]. rewrite last_cons_cons.
  destruct (last (t' :: times)) eqn:E; [done | by apply last_None in E].
Qed.

Lemma diffs_snoc prev times t :
  diffs prev (times ++ [t]) = diffs prev times ++ [t - default prev (last times)].
Proof.
  revert prev. induction times as [|t' times IH]; intros prev; [done|].
  rewrite default_last_cons. simpl. by rewrite IH.
Qed.

Lemma diffs_sorted prev times :
  Sorted Z.le (prev :: times) → Forall (λ g, 0 ≤ g) (diffs prev times).
Proof.
  revert prev. induction times as [|t times IH]; intros prev H; [constructor|].
  apply Sorted_inv in H as [H Hd]. apply HdRel_inv in Hd.
  simpl. constructor; [lia | by apply IH].
Qed.

Lemma sum_Z_diffs prev times :
  sum_Z (diffs prev times) = default prev (last times) - prev.
Proof.
  revert prev. induction times as [|t times IH]; intros prev; [simpl; lia|].
  cbn [diffs sum_Z foldr]. fold (sum_Z (diffs t times)). rewrite IH.
  rewrite default_last_cons. lia.
Qed.

Section record_gaps.

Variable datetime64 : string → option Z.

(** The keystroke loop classifies the differences of the consecutive valid
    time stamps and writes them, in order, into the audit rows. *)
Lemma keystroke_loop_gaps rid sid kss : ∀ st st',
  for_each (keystroke_body datetime64 rid sid) st kss = Ok st' →
  categorize_pauses (pause_counts st)
    (diffs (last_milestone st) (valid_times datetime64 kss))
  = Ok (pause_counts st') ∧
  last_milestone st'
  = default (last_milestone st) (last (valid_times datetime64 kss)) ∧
  omap audit_pause (all_pauses_data st')
  = omap audit_pause (all_pauses_data st)
    ++ diffs (last_milestone st) (valid_times datetime64 kss) ∧
  length (valid_times datetime64 kss) = count is_valid kss.
Proof.
  unfold valid_times.
  induction kss as [|k kss IH]; intros st st' H.
  - injection H as <-. simpl.
    split_and!; first [reflexivity | by rewrite app_nil_r].
  - simpl in H. apply bind_Ok in H as (st1 & H1 & H).
    apply keystroke_body_Ok in H1
      as [(Hv & created & t & counts & Hc & Ht & Hcat & ->) | (Hv & ->)].
    + destruct (IH _ _ H) as (A & B & C & D).
      cbn [pause_counts last_milestone all_pauses_data] in *.
      assert (Hiv : is_valid k = true) by (unfold is_valid; by rewrite Hv).
      assert (Hvt : valid_time datetime64 k = Some t).
      { unfold valid_time. rewrite Hiv, Hc. exact Ht. }
      cbn [omap list_omap count]. rewrite Hvt, Hiv. cbn [diffs length].
      split_and!.
      * unfold categorize_pauses in *. simpl. by rewrite Hcat.
      * by rewrite B, default_last_cons.
      * rewrite C, omap_app. cbn [omap list_omap audit_pause lookup list_lookup].
        by rewrite <- app_assoc.
      * by rewrite D.
    + destruct (IH _ _ H) as (A & B & C & D).
      cbn [pause_counts last_milestone all_pauses_data] in *.
      assert (Hiv : is_valid k = false) by (unfold is_valid; by rewrite Hv).
      assert (Hvt : valid_time datetime64 k = None).
      { unfold valid_time. by rewrite Hiv. }
      cbn [omap list_omap count]. rewrite Hvt, Hiv.
      split_and!; try done.
      rewrite C, omap_app. cbn [omap list_omap audit_pause lookup list_lookup].
      by rewrite app_nil_r.
Qed.


Lemma valid_times_none kss :
  count is_valid kss = 0%nat → valid_times datetime64 kss = [].
Proof.
  unfold valid_times. induction kss as [|k kss IH]; [done|].
  cbn [count omap list_omap]. unfold valid_time at 1.
  destruct (is_valid k); [lia|]. intros H. by apply IH.
Qed.

(** What a processed record classifies and audits, by branch: the
    differences of start, the valid time stamps and stop, unless the record
    has two or more events and none of them valid, where it is nothing. *)
Lemma process_record_classifies r L :
  process_record datetime64 r = Ok L →
  ∃ started t0 stopped t1 gaps,
    record_attrib r !! "started" = Some started ∧ datetime64 started = Some t0 ∧
    record_attrib r !! "stopped" = Some stopped ∧ datetime64 stopped = Some t1 ∧
    duration_ms L = t1 - t0 ∧
    categorize_pauses create_pause_counts_dict gaps = Ok (final_counts L) ∧
    omap audit_pause (audit_rows L) = gaps ∧
    (findall_ks r = [] ∨ (∃ k, findall_ks r = [k])
       ∨ (0 < count is_valid (findall_ks r))%nat →
     gaps = diffs t0 (valid_times datetime64 (findall_ks r) ++ [t1]) ∧
     keystrokes_count L = Z.of_nat (count is_valid (findall_ks r))).
Proof.
  intros H.
  apply process_record_Ok in H
    as (s0 & t0 & s1 & t1 & rid & sid & act & Hs0 & Ht0 & Hs1 & Ht1 & _ & _ & _
        & _ & _ & _ & Hd & Hb).
  exists s0, t0, s1, t1.
  destruct Hb as [Eks Hc Hn Ha | k Eks Hv Hc Hn Ha | st Hst Hpos Hc Hn Ha
                 | st Hne Hone Hst Hpos Hf Hn Ha].
  - exists [t1 - t0]. split_and!; try done.
    + unfold categorize_pauses. simpl. by rewrite Hc.
    + by rewrite Ha.
    + intros _. by rewrite Eks, Hn.
  - exists [t1 - t0]. split_and!; try done.
    + unfold categorize_pauses. simpl. by rewrite Hc.
    + by rewrite Ha.
    + intros _. rewrite Eks, Hn, (count_invalid_singleton k Hv).
      rewrite (valid_times_none [k] (count_invalid_singleton k Hv)). done.
  - destruct (keystroke_loop_gaps _ _ _ _ _ Hst) as (A & B & C & D).
    destruct (keystroke_loop_Ok _ _ _ _ _ _ Hst has_keys_create) as (_ & Hv & _).
    cbn [pause_counts last_milestone all_pauses_data valid_keystroke_count] in *.
    exists (diffs t0 (valid_times datetime64 (findall_ks r) ++ [t1])).
    rewrite diffs_snoc, <- B. split_and!; try done.
    + by apply (categorize_pauses_snoc _ _ _ (pause_counts st)).
    + rewrite Ha, omap_app, C. reflexivity.
    + intros _. split; [done|]. rewrite Hn, Hv. lia.
  - destruct (keystroke_loop_gaps _ _ _ _ _ Hst) as (A & B & C & D).
    destruct (keystroke_loop_Ok _ _ _ _ _ _ Hst has_keys_create) as (_ & Hv & _).
    cbn [pause_counts last_milestone all_pauses_data valid_keystroke_count] in *.
    assert (Hz : count is_valid (findall_ks r) = 0%nat) by lia.
    rewrite (valid_times_none _ Hz) in *. cbn [diffs] in *.
    exists []. split_and!; try done.
    + by rewrite Hf.
    + by rewrite Ha.
    + intros [E | [[k E] | Hv']]; [done | | lia].
      rewrite E in Hz. rewrite (count_valid_singleton k (Hone k E)) in Hz. lia.
Qed.

End record_gaps.

(** ** The record loop of [process_file] *)

Lemma bind_Raise {A B} (m : result A) (f : A → result B) (e : exn) :
  m ≫= f = Raise e → m = Raise e ∨ ∃ a, m = Ok a ∧ f a = Raise e.
Proof. destruct m as [a|e']; [eauto | intros [= ->]; by left]. Qed.

Lemma fmap_fmap_result {A B C} (f : A → B) (g : B → C) (m : result A) :
  g <$> (f <$> m) = (g ∘ f) <$> m.
Proof. by destruct m. Qed.

Section process_file_properties.

Variable datetime64 : string → option Z.

Lemma process_file_unfold rs :
  process_file datetime64 rs = for_each (record_step datetime64) ([], []) rs.
Proof. reflexivity. Qed.

Lemma record_step_from tables r :
  record_step datetime64 tables r
  = (λ t, (tables.1 ++ t.1, tables.2 ++ t.2))
      <$> record_step datetime64 ([], []) r.
Proof.
  unfold record_step. destruct (process_record datetime64 r) as [L|e]; [|done].
  cbn [mbind result_bind]. by destruct (row_of L).
Qed.

Lemma process_file_from rs : ∀ tables,
  for_each (record_step datetime64) tables rs
  = (λ t, (tables.1 ++ t.1, tables.2 ++ t.2)) <$> process_file datetime64 rs.
Proof.
  induction rs as [|r rs IH]; intros [a b]; rewrite process_file_unfold.
  - simpl. by rewrite !app_nil_r.
  - cbn [for_each]. rewrite (record_step_from (a, b)).
    destruct (record_step datetime64 ([], []) r) as [[x y]|e]; [|done].
    cbn [fmap result_fmap mbind result_bind fst snd].
    rewrite (IH (a ++ x, b ++ y)), (IH (x, y)), fmap_fmap_result.
    destruct (process_file datetime64 rs) as [[x' y']|e]; [|done].
    cbn. by rewrite <- !app_assoc.
Qed.

Lemma process_file_cons r rs :
  process_file datetime64 (r :: rs)
  = t1 ← process_file datetime64 [r];
    t2 ← process_file datetime64 rs;
    Ok (t1.1 ++ t2.1, t1.2 ++ t2.2).
Proof.
  rewrite (process_file_unfold (r :: rs)), (process_file_unfold [r]).
  cbn [for_each].
  destruct (record_step datetime64 ([], []) r) as [[a b]|e]; [|done].
  cbn [mbind result_bind]. rewrite process_file_from.
  by destruct (process_file datetime64 rs) as [[x y]|e].
Qed.

(** X8. The records of a document are processed independently and in
    order: processing [rs1 ++ rs2] is processing [rs1], then [rs2], and
    appending the tables; the first exception, if any, is the result. *)
Theorem process_file_app (rs1 rs2 : list record_element) :
  process_file datetime64 (rs1 ++ rs2)
  = t1 ← process_file datetime64 rs1;
    t2 ← process_file datetime64 rs2;
    Ok (t1.1 ++ t2.1, t1.2 ++ t2.2).
Proof.
  rewrite (process_file_unfold (rs1 ++ rs2)), for_each_app.
  rewrite <- process_file_unfold.
  destruct (process_file datetime64 rs1) as [[a b]|e]; [|done].
  cbn [mbind result_bind]. rewrite process_file_from.
  by destruct (process_file datetime64 rs2) as [[x y]|e].
Qed.

(** Every processed record has a summary row. *)
Lemma row_of_processed r L :
  process_record datetime64 r = Ok L →
  ∃ row, row_of L = Ok row ∧ length row = length columns ∧
    row !! 0%nat = Some (Str (record_id L)) ∧
    row !! 1%nat = Some (Str (segment_id L)) ∧
    row !! 8%nat = Some (Int (keystrokes_count L)) ∧
    row !! 9%nat = Some (Str (active_ms L)) ∧
    row !! 10%nat = Some (Int (duration_ms L)).
Proof.
  intros H. destruct (process_record_gaps datetime64 r L H) as (gaps & Hg).
  destruct (row_of_has_keys L) as (d3 & n3 & d5 & n5 & d10 & n10 & t & Hrow).
  { apply (categorize_pauses_has_keys _ _ _ Hg has_keys_create). }
  destruct Hrow as (_ & _ & _ & _ & _ & _ & _ & ->). by eexists.
Qed.

Lemma keystroke_loop_audit_shape rid sid kss : ∀ st st',
  for_each (keystroke_body datetime64 rid sid) st kss = Ok st' →
  Forall (λ row, length row = length audit_columns) (all_pauses_data st) →
  Forall (λ row, length row = length audit_columns) (all_pauses_data st').
Proof.
  induction kss as [|k kss IH]; intros st st' H Hs.
  - by injection H as <-.
  - simpl in H. apply bind_Ok in H as (st1 & H1 & H).
    apply (IH _ _ H).
    apply keystroke_body_Ok in H1
      as [(Hv & created & t & counts & Hc & Ht & Hcat & ->) | (Hv & ->)];
      cbn [all_pauses_data]; apply Forall_app; (split; [done|]);
      by apply Forall_singleton.
Qed.

Lemma audit_rows_shape r L :
  process_record datetime64 r = Ok L →
  Forall (λ row, length row = length audit_columns) (audit_rows L).
Proof.
  intros H.
  apply process_record_Ok in H
    as (s0 & t0 & s1 & t1 & rid & sid & act & _ & _ & _ & _ & _ & _ & _
        & _ & _ & _ & _ & Hb).
  destruct Hb as [_ _ _ Ha | k _ _ _ _ Ha | st Hst _ _ _ Ha | st _ _ Hst _ _ _ Ha];
    rewrite Ha.
  - by apply Forall_singleton.
  - by apply Forall_singleton.
  - apply Forall_app. split; [| by apply Forall_singleton].
    by apply (keystroke_loop_audit_shape _ _ _ _ _ Hst).
  - by apply (keystroke_loop_audit_shape _ _ _ _ _ Hst).
Qed.

(** X9. When [process_file] returns, the summary table has one row per
    record, each with as many cells as the frame has columns (12), and
    every audit row has the 4 cells of the audit frame. *)
Theorem process_file_tables_shape (rs : list record_element)
    (categorized_data all_pauses_data : list (list cell)) :
  process_file datetime64 rs = Ok (categorized_data, all_pauses_data) →
  length categorized_data = length rs ∧
  Forall (λ row, length row = length columns) categorized_data ∧
  Forall (λ row, length row = length audit_columns) all_pauses_data.
Proof.
  revert categorized_data all_pauses_data.
  induction rs as [|r rs IH]; intros rows audits H.
  - injection H as <- <-. by split_and!.
  - rewrite process_file_cons in H.
    apply bind_Ok in H as ([a b] & H1 & H).
    apply bind_Ok in H as ([x y] & H2 & H). injection H as <- <-.
    destruct (IH x y H2) as (Hlen & Hrows & Haud).
    rewrite process_file_unfold in H1. cbn [for_each] in H1.
    apply bind_Ok in H1 as (t & H1 & Ht). injection Ht as ->.
    unfold record_step in H1. apply bind_Ok in H1 as (L & HL & H1).
    apply bind_Ok in H1 as (row & Hrow & H1). injection H1 as <- <-.
    destruct (row_of_processed r L HL) as (row' & Hrow' & Hl & _).
    assert (row' = row) as -> by congruence.
    cbn [fst snd app]. split_and!.
    + simpl. by rewrite Hlen.
    + by constructor.
    + apply Forall_app. split; [|done]. by apply (audit_rows_shape r L).
Qed.

(** X10. [process_file] returns exactly when every record is processed:
    building a summary row never raises, and no record depends on the
    records before it. *)
Theorem process_file_succeeds_iff (rs : list record_element) :
  (∃ tables, process_file datetime64 rs = Ok tables) ↔
  Forall (λ r, ∃ L, process_record datetime64 r = Ok L) rs.
Proof.
  induction rs as [|r rs IH].
  - split; [constructor | by eexists].
  - rewrite process_file_cons, Forall_cons, <- IH, (process_file_unfold [r]).
    cbn [for_each]. unfold record_step.
    split.
    + intros [t H]. apply bind_Ok in H as (t1 & H1 & H).
      apply bind_Ok in H as (t2 & H2 & _).
      apply bind_Ok in H1 as (t' & H1 & _). apply bind_Ok in H1 as (L & HL & _).
      split; by eexists.
    + intros [[L HL] [t2 H2]].
      destruct (row_of_processed r L HL) as (row & Hrow & _).
      rewrite HL. cbn [mbind result_bind]. rewrite Hrow, H2. by eexists.
Qed.

End process_file_properties.

(** ** The exceptions of a record *)

Ltac raise_identity :=
  solve [ intros [= <-]; eexists; split; [reflexivity|]; split;
          [ repeat first [ apply list_elem_of_here | apply list_elem_of_further ]
          | assumption ]
        | intros [=] ].

Ltac read_str_id k s :=
  try match goal with
  | |- context [attrib k !! s] =>
      let E := fresh "E" in
      destruct (attrib k !! s) as [[|? ?]|] eqn:E;
      cbn [fmap result_fmap and_then mbind result_bind truthy py_not negb];
      try raise_identity
  end.

Ltac read_flag_id k s :=
  try match goal with
  | |- context [attrib k !! s] =>
      let v := fresh "v" in
      let E := fresh "E" in
      destruct (attrib k !! s) as [v|] eqn:E;
      [ destruct (decide (v = "False")) as [->|?];
        cbn [fmap result_fmap and_then mbind result_bind];
        [ rewrite !(bool_decide_eq_true_2 ("False" = "False")) by done
        | rewrite !(bool_decide_eq_false_2 (v = "False")) by done ]
      | ];
      cbn [fmap result_fmap and_then mbind result_bind];
      try raise_identity
  end.

(** The filter raises nothing but the [KeyError] of one of its eight
    attributes, and only when that attribute is missing. *)
Lemma valid_keystroke_Raise keystroke e :
  valid_keystroke keystroke = Raise e →
  ∃ a, e = KeyError a ∧ a ∈ filter_attributes ∧ attrib keystroke !! a = None.
Proof.
  unfold valid_keystroke, getitem, str_eq, filter_attributes. cbv zeta.
  read_str_id keystroke "origin"; read_str_id keystroke "system";
    read_str_id keystroke "key"; read_str_id keystroke "selection";
    read_str_id keystroke "text"; read_flag_id keystroke "shift";
    read_flag_id keystroke "ctrl"; read_flag_id keystroke "alt".
Qed.

Lemma getitem_Raise {V} (d : gmap string V) k e :
  getitem d k = Raise e → e = KeyError k ∧ d !! k = None.
Proof. unfold getitem. destruct (d !! k); [discriminate | by intros [= <-]]. Qed.

Lemma for_each_Raise {S A} (body : S → A → result S) (l : list A) e : ∀ st,
  for_each body st l = Raise e →
  ∃ l1 x l2 st1, l = l1 ++ x :: l2 ∧ for_each body st l1 = Ok st1 ∧
                 body st1 x = Raise e.
Proof.
  induction l as [|x l IH]; intros st H; [discriminate|].
  simpl in H. apply bind_Raise in H as [H | (st1 & H1 & H)].
  - by exists [], x, l, st.
  - destruct (IH _ H) as (l1 & y & l2 & st2 & -> & Hl1 & Hy).
    exists (x :: l1), y, l2, st2. split_and!; try done. simpl. by rewrite H1.
Qed.

Lemma categorize_pause_no_Raise counts g e :
  has_keys counts → categorize_pause counts g ≠ Raise e.
Proof.
  intros Hk H. destruct (categorize_pause_lookup counts g Hk) as (c & Hc & _).
  congruence.
Qed.

Section record_exceptions.

Variable datetime64 : string → option Z.

Lemma np_datetime64_Raise text e :
  np_datetime64 datetime64 text = Raise e →
  e = ValueError text ∧ datetime64 text = None.
Proof.
  unfold np_datetime64. destruct (datetime64 text); [discriminate | by intros [= <-]].
Qed.

Lemma keystroke_body_Raise rid sid st k e :
  keystroke_body datetime64 rid sid st k = Raise e →
  has_keys (pause_counts st) → ks_error datetime64 [k] e.
Proof.
  unfold keystroke_body. intros H Hk.
  assert (Hin : k ∈ [k]) by apply list_elem_of_here.
  apply bind_Raise in H as [H | ([|] & Hv & H)]; [| | discriminate].
  - apply valid_keystroke_Raise in H as (a & -> & Ha & Hm).
    left. exists k, a. split_and!; try done. by apply list_elem_of_further.
  - apply bind_Raise in H as [H | (created & Hc & H)].
    { apply getitem_Raise in H as [-> Hm]. left. exists k, "created".
      split_and!; try done. apply list_elem_of_here. }
    apply getitem_Ok in Hc.
    apply bind_Raise in H as [H | (t & Ht & H)].
    { apply np_datetime64_Raise in H as [-> Hn]. right. by exists k, created. }
    apply bind_Raise in H as [H | (c & _ & H)]; [|discriminate].
    by apply categorize_pause_no_Raise in H.
Qed.

Lemma ks_error_mono kss kss' e :
  kss ⊆ kss' → ks_error datetime64 kss e → ks_error datetime64 kss' e.
Proof.
  intros Hsub [(k & a & Hk & H) | (k & text & Hk & H)].
  - left. exists k, a. split; [by apply Hsub | done].
  - right. exists k, text. split; [by apply Hsub | done].
Qed.

Lemma keystroke_loop_Raise rid sid kss st e :
  for_each (keystroke_body datetime64 rid sid) st kss = Raise e →
  has_keys (pause_counts st) → ks_error datetime64 kss e.
Proof.
  intros H Hk.
  apply for_each_Raise in H as (l1 & k & l2 & st1 & -> & H1 & H).
  destruct (keystroke_loop_Ok datetime64 _ _ _ _ _ H1 Hk) as (Hk1 & _).
  apply (ks_error_mono [k]); [| by apply (keystroke_body_Raise rid sid st1)].
  intros x ->%list_elem_of_singleton. apply elem_of_app. right.
  apply list_elem_of_here.
Qed.

(** X11. Every exception of the record loop body has its cause in the
    input: it is the [KeyError] of an attribute that the record or one of
    its events lacks, or the [ValueError] of a [started], [stopped] or
    [created] text that does not parse. The accumulator never lacks a key,
    and [keystrokes[0]] never raises [IndexError]. *)
Theorem process_record_exceptions (r : record_element) (e : exn) :
  process_record datetime64 r = Raise e →
  (record_error datetime64 r e ∨ ks_error datetime64 (findall_ks r) e) ∧
  e ≠ IndexError.
Proof.
  intros H.
  assert (Hcause : record_error datetime64 r e
                   ∨ ks_error datetime64 (findall_ks r) e).
  { unfold process_record in H.
    apply bind_Raise in H as [H | (started & Hs0 & H)].
    { apply getitem_Raise in H as [-> Hm]. left. left. exists "started".
      split_and!; try done. apply list_elem_of_here. }
    apply getitem_Ok in Hs0.
    apply bind_Raise in H as [H | (t0 & Ht0 & H)].
    { apply np_datetime64_Raise in H as [-> Hn]. left. right. exists started. tauto. }
    apply bind_Raise in H as [H | (stopped & Hs1 & H)].
    { apply getitem_Raise in H as [-> Hm]. left. left. exists "stopped".
      split_and!; try done. apply list_elem_of_further, list_elem_of_here. }
    apply getitem_Ok in Hs1.
    apply bind_Raise in H as [H | (t1 & Ht1 & H)].
    { apply np_datetime64_Raise in H as [-> Hn]. left. right. exists stopped. tauto. }
    apply bind_Raise in H as [H | (rid & Hrid & H)].
    { apply getitem_Raise in H as [-> Hm]. left. left. exists "id".
      split_and!; try done. do 2 apply list_elem_of_further. apply list_elem_of_here. }
    apply bind_Raise in H as [H | (sid & Hsid & H)].
    { apply getitem_Raise in H as [-> Hm]. left. left. exists "segmentid".
      split_and!; try done. do 3 apply list_elem_of_further. apply list_elem_of_here. }
    apply bind_Raise in H as [H | (act & Hact & H)].
    { apply getitem_Raise in H as [-> Hm]. left. left. exists "activemiliseconds".
      split_and!; try done. do 4 apply list_elem_of_further. apply list_elem_of_here. }
    right. cbv zeta in H.
    assert (Htail : ∀ e',
      for_each (keystroke_body datetime64 rid sid)
        (LoopState 0 t0 create_pause_counts_dict []) (findall_ks r)
      ≫= (λ st,
           if 0 <? valid_keystroke_count st
           then counts ← categorize_pause (pause_counts st) (t1 - last_milestone st);
                Ok (RecordLocals rid sid act (t1 - t0) counts
                      (valid_keystroke_count st)
                      (all_pauses_data st ++
                         [[Str rid; Str sid; Int (t1 - last_milestone st);
                           Str EmptyString]]))
           else Ok (RecordLocals rid sid act (t1 - t0) (pause_counts st)
                      (Z.of_nat (length (findall_ks r))) (all_pauses_data st)))
      = Raise e' → ks_error datetime64 (findall_ks r) e').
    { intros e' H'. apply bind_Raise in H' as [H' | (st & Hst & H')].
      - by apply (keystroke_loop_Raise rid sid _ _ _ H' has_keys_create).
      - destruct (keystroke_loop_Ok datetime64 _ _ _ _ _ Hst has_keys_create)
          as (Hk & _).
        destruct (0 <? valid_keystroke_count st); [|discriminate].
        apply bind_Raise in H' as [H' | (c & _ & H')]; [|discriminate].
        by apply categorize_pause_no_Raise in H'. }
    destruct (findall_ks r) as [|k [|k' kss]] eqn:Eks.
    - cbn in H. apply bind_Raise in H as [H | (c & _ & H)]; [|discriminate].
      by apply categorize_pause_no_Raise in H; [| apply has_keys_create].
    - change (Z.of_nat (length [k]) =? 0) with false in H.
      change (Z.of_nat (length [k]) =? 1) with true in H.
      change (getindex [k] 0) with (Ok k) in H.
      cbn [and_then mbind result_bind] in H.
      destruct (valid_keystroke k) as [[|]|e'] eqn:Hv;
        cbn [fmap result_fmap negb mbind result_bind] in H.
      + by apply Htail.
      + apply bind_Raise in H as [H | (c & _ & H)]; [|discriminate].
        by apply categorize_pause_no_Raise in H; [| apply has_keys_create].
      + injection H as ->.
        apply valid_keystroke_Raise in Hv as (a & -> & Ha & Hm).
        left. exists k, a. split_and!; try done; [apply list_elem_of_here |].
        by apply list_elem_of_further.
    - assert (E0 : (Z.of_nat (length (k :: k' :: kss)) =? 0) = false)
        by (apply Z.eqb_neq; simpl; lia).
      assert (E1 : (Z.of_nat (length (k :: k' :: kss)) =? 1) = false)
        by (apply Z.eqb_neq; simpl; lia).
      rewrite E0, E1 in H. cbn [and_then mbind result_bind] in H.
      by apply Htail. }
  split; [done|].
  intros ->.
  destruct Hcause as [[(a & [=] & _) | (text & [=] & _)]
                     | [(k & a & _ & [=] & _) | (k & text & _ & [=] & _)]].
Qed.

End record_exceptions.

(** ** Records without their invalid events *)

Lemma valid_only_cons_valid k kss :
  is_valid k = true → valid_only (k :: kss) = k :: valid_only kss.
Proof. intros H. unfold valid_only. by rewrite filter_cons_True. Qed.

Lemma valid_only_cons_invalid k kss :
  is_valid k = false → valid_only (k :: kss) = valid_only kss.
Proof.
  intros H. unfold valid_only. rewrite filter_cons_False; [done|]. by rewrite H.
Qed.

Section without_invalid_events.

Variable datetime64 : string → option Z.

Lemma valid_only_times kss :
  valid_times datetime64 (valid_only kss) = valid_times datetime64 kss ∧
  count is_valid (valid_only kss) = count is_valid kss.
Proof.
  unfold valid_times. induction kss as [|k kss [IH1 IH2]]; [done|].
  destruct (is_valid k) eqn:E.
  - rewrite (valid_only_cons_valid _ _ E). cbn [omap list_omap count].
    by rewrite IH1, IH2.
  - rewrite (valid_only_cons_invalid _ _ E). cbn [omap list_omap count].
    unfold valid_time at 2. rewrite E. by rewrite IH1, IH2.
Qed.

Lemma keystroke_loop_readable rid sid kss : ∀ st st',
  for_each (keystroke_body datetime64 rid sid) st kss = Ok st' →
  Forall (readable_ks datetime64) kss.
Proof.
  induction kss as [|k kss IH]; intros st st' H; [constructor|].
  simpl in H. apply bind_Ok in H as (st1 & H1 & H).
  constructor; [| by apply (IH _ _ H)].
  apply keystroke_body_Ok in H1
    as [(Hv & created & t & counts & Hc & Ht & _) | (Hv & _)].
  - right. split; [done|]. by exists created, t.
  - by left.
Qed.

Lemma keystroke_loop_total_readable rid sid kss : ∀ st,
  has_keys (pause_counts st) → Forall (readable_ks datetime64) kss →
  ∃ st', for_each (keystroke_body datetime64 rid sid) st kss = Ok st'.
Proof.
  induction kss as [|k kss IH]; intros st Hk Hr; [by eexists|].
  apply Forall_cons in Hr as [Hrk Hr].
  assert (∃ st1, keystroke_body datetime64 rid sid st k = Ok st1
                 ∧ has_keys (pause_counts st1)) as (st1 & H1 & Hk1).
  { destruct Hrk as [Hv | (Hv & created & t & Hc & Ht)].
    - eexists. split; [by apply keystroke_body_invalid | done].
    - destruct (categorize_pause_lookup (pause_counts st) (t - last_milestone st) Hk)
        as (counts & Hcat & _).
      eexists. split.
      + by apply (keystroke_body_valid datetime64 rid sid st k created t counts).
      + cbn [pause_counts]. by apply (categorize_pause_has_keys _ _ _ Hcat). }
  destruct (IH st1 Hk1 Hr) as (st' & H').
  exists st'. simpl. by rewrite H1.
Qed.

(** The record loop body does not raise when the five attributes of the
    record are readable and the keystroke loop does not raise. *)
Lemma process_record_total_readable r started t0 stopped t1 :
  record_attrib r !! "started" = Some started → datetime64 started = Some t0 →
  record_attrib r !! "stopped" = Some stopped → datetime64 stopped = Some t1 →
  is_Some (record_attrib r !! "id") → is_Some (record_attrib r !! "segmentid") →
  is_Some (record_attrib r !! "activemiliseconds") →
  Forall (readable_ks datetime64) (findall_ks r) →
  ∃ L, process_record datetime64 r = Ok L.
Proof.
  intros Hs0 Ht0 Hs1 Ht1 [rid Hrid] [sid Hsid] [act Hact] Hr.
  unfold process_record.
  rewrite (getitem_Some _ _ _ Hs0). cbn [mbind result_bind].
  rewrite (np_datetime64_Some _ _ _ Ht0). cbn [mbind result_bind].
  rewrite (getitem_Some _ _ _ Hs1). cbn [mbind result_bind].
  rewrite (np_datetime64_Some _ _ _ Ht1). cbn [mbind result_bind].
  rewrite (getitem_Some _ _ _ Hrid), (getitem_Some _ _ _ Hsid),
    (getitem_Some _ _ _ Hact).
  cbn [mbind result_bind].
  destruct (categorize_pause_lookup create_pause_counts_dict (t1 - t0) has_keys_create)
    as (c & Hc & _).
  destruct (keystroke_loop_total_readable rid sid (findall_ks r)
              (LoopState 0 t0 create_pause_counts_dict []) has_keys_create Hr)
    as (st & Hst).
  destruct (keystroke_loop_Ok datetime64 _ _ _ _ _ Hst has_keys_create) as (Hk & _).
  destruct (categorize_pause_lookup (pause_counts st) (t1 - last_milestone st) Hk)
    as (c' & Hc' & _).
  rewrite Hc, Hst. cbn [mbind result_bind]. rewrite Hc'. cbn [mbind result_bind].
  destruct (findall_ks r) as [|k [|k' kss]].
  - by eexists.
  - apply Forall_cons in Hr as [Hrk _].
    change (Z.of_nat (length [k]) =? 0) with false.
    change (Z.of_nat (length [k]) =? 1) with true.
    change (getindex [k] 0) with (Ok k).
    cbn [and_then mbind result_bind].
    destruct Hrk as [Hv | (Hv & _)]; rewrite Hv;
      cbn [fmap result_fmap negb mbind result_bind]; [by eexists|].
    destruct (0 <? valid_keystroke_count st); by eexists.
  - assert (E0 : (Z.of_nat (length (k :: k' :: kss)) =? 0) = false)
      by (apply Z.eqb_neq; simpl; lia).
    assert (E1 : (Z.of_nat (length (k :: k' :: kss)) =? 1) = false)
      by (apply Z.eqb_neq; simpl; lia).
    rewrite E0, E1. cbn [and_then mbind result_bind].
    destruct (0 <? valid_keystroke_count st); by eexists.
Qed.

Lemma process_record_readable r L :
  process_record datetime64 r = Ok L →
  (0 < count is_valid (findall_ks r))%nat →
  Forall (readable_ks datetime64) (findall_ks r).
Proof.
  intros H Hpos.
  apply process_record_Ok in H
    as (s0 & t0 & s1 & t1 & rid & sid & act & _ & _ & _ & _ & _ & _ & _
        & _ & _ & _ & _ & Hb).
  destruct Hb as [Eks _ _ _ | k Eks Hv _ _ _ | st Hst _ _ _ _
                 | st _ _ Hst _ _ _ _].
  - rewrite Eks in Hpos. simpl in Hpos. lia.
  - rewrite Eks, (count_invalid_singleton k Hv) in Hpos. lia.
  - by apply (keystroke_loop_readable _ _ _ _ _ Hst).
  - by apply (keystroke_loop_readable _ _ _ _ _ Hst).
Qed.

(** X12. The events that the filter rejects do not change the summary of a
    record that has a valid event: when such a record is processed, the
    record without its invalid events is processed too, with the same
    summary row. *)
Theorem invalid_events_leave_summary (r : record_element) (L : record_locals) :
  process_record datetime64 r = Ok L →
  (0 < count is_valid (findall_ks r))%nat →
  ∃ L', process_record datetime64 (without_invalid r) = Ok L' ∧
        row_of L' = row_of L.
Proof.
  intros H Hpos.
  pose proof (process_record_readable r L H Hpos) as Hr.
  destruct (valid_only_times (findall_ks r)) as [Htimes Hcount].
  pose proof H as HL.
  apply process_record_Ok in HL
    as (s0 & t0 & s1 & t1 & rid & sid & act & Hs0 & Ht0 & Hs1 & Ht1 & Hrid & Hsid
        & Hact & Hi & Hsg & Ha & Hd & _).
  destruct (process_record_total_readable (without_invalid r) s0 t0 s1 t1)
    as [L' HL']; try done; try by eexists.
  { cbn [findall_ks without_invalid]. unfold valid_only.
    apply Forall_forall. intros k [_ Hk]%list_elem_of_filter.
    by apply (proj1 (Forall_forall _ _) Hr). }
  exists L'. split; [done|].
  destruct (process_record_classifies datetime64 r L H)
    as (s0a & t0a & s1a & t1a & gaps & Hs0a & Ht0a & Hs1a & Ht1a & _ & Hc & _ & Hg).
  destruct (process_record_classifies datetime64 _ L' HL')
    as (s0b & t0b & s1b & t1b & gaps' & Hs0b & Ht0b & Hs1b & Ht1b & _ & Hc' & _ & Hg').
  cbn [findall_ks record_attrib without_invalid] in *.
  destruct Hg as [-> Hn]; [by right; right|].
  destruct Hg' as [-> Hn']; [right; right; by rewrite Hcount|].
  rewrite Htimes, Hcount in *.
  assert (s0a = s0b) as -> by congruence.
  assert (s1a = s1b) as -> by congruence.
  assert (t0a = t0b) as -> by congruence.
  assert (t1a = t1b) as -> by congruence.
  assert (Hfc : final_counts L' = final_counts L) by congruence.
  apply process_record_Ok in HL'
    as (s0' & t0' & s1' & t1' & rid' & sid' & act' & Hs0' & Ht0' & Hs1' & Ht1'
        & Hrid' & Hsid' & Hact' & Hi' & Hsg' & Ha' & Hd' & _).
  cbn [record_attrib without_invalid] in *.
  unfold row_of. rewrite Hfc, Hi, Hi', Hsg, Hsg', Ha, Ha', Hd, Hd', Hn, Hn'.
  assert (rid' = rid) as -> by congruence.
  assert (sid' = sid) as -> by congruence.
  assert (act' = act) as -> by congruence.
  assert (s0' = s0) as -> by congruence.
  assert (s1' = s1) as -> by congruence.
  assert (t0' = t0) as -> by congruence.
  assert (t1' = t1) as -> by congruence.
  reflexivity.
Qed.

End without_invalid_events.

(** ** More on the event filter *)

(** X13. On an event that has the eight filter attributes the filter does
    not raise, and it rejects the event exactly when origin and system are
    non-empty and key is empty, or selection, text and key are empty and
    shift, ctrl and alt are all the text False (compared as it is written). *)
Theorem valid_keystroke_decision (keystroke : element)
    (o s key sel txt sh ct al : string) :
  attrib keystroke !! "origin" = Some o → attrib keystroke !! "system" = Some s →
  attrib keystroke !! "key" = Some key →
  attrib keystroke !! "selection" = Some sel →
  attrib keystroke !! "text" = Some txt →
  attrib keystroke !! "shift" = Some sh → attrib keystroke !! "ctrl" = Some ct →
  attrib keystroke !! "alt" = Some al →
  ∃ b, valid_keystroke keystroke = Ok b ∧
    (b = false ↔
       (o ≠ EmptyString ∧ s ≠ EmptyString ∧ key = EmptyString)
       ∨ (sel = EmptyString ∧ txt = EmptyString ∧ key = EmptyString ∧
          sh = "False" ∧ ct = "False" ∧ al = "False")).
Proof.
  intros Ho Hs Hk Hsel Htxt Hsh Hct Hal. unfold valid_keystroke.
  rewrite (getitem_Some _ _ _ Ho), (getitem_Some _ _ _ Hs), (getitem_Some _ _ _ Hk),
    (getitem_Some _ _ _ Hsel), (getitem_Some _ _ _ Htxt), (getitem_Some _ _ _ Hsh),
    (getitem_Some _ _ _ Hct), (getitem_Some _ _ _ Hal).
  cbn [fmap result_fmap and_then mbind result_bind]. unfold str_eq.
  destruct o as [|? ?], s as [|? ?], key as [|? ?], sel as [|? ?], txt as [|? ?];
    cbn [truthy py_not negb andb];
    try (eexists; split; [reflexivity|]; split; [done | intros [(?&?&?) | (?&?&?&?)]; done]);
    try (eexists; split; [reflexivity|]; split; [intros _; left; done | done]).
  all: destruct (decide (sh = "False")) as [->|?];
    [ rewrite (bool_decide_eq_true_2 ("False" = "False")) by done
    | rewrite (bool_decide_eq_false_2 (sh = "False")) by done ];
    [ destruct (decide (ct = "False")) as [->|?];
      [ rewrite (bool_decide_eq_true_2 ("False" = "False")) by done
      | rewrite (bool_decide_eq_false_2 (ct = "False")) by done ];
      [ destruct (decide (al = "False")) as [->|?];
        [ rewrite (bool_decide_eq_true_2 ("False" = "False")) by done
        | rewrite (bool_decide_eq_false_2 (al = "False")) by done ] | ] | ].
  all: eexists; (split; [reflexivity|]).
  all: split; [ try done | try done ].
  all: try (intros _; right; done).
  all: intros [(?&?&?) | (?&?&?&?&?&?)]; done.
Qed.

Lemma valid_keystroke_decision_witness :
  ∃ b, valid_keystroke (typed_ks "2019-05-01T10:00:00.400") = Ok b ∧
    (b = false ↔
       (EmptyString ≠ EmptyString ∧ "False" ≠ EmptyString ∧ "[a]" = EmptyString)
       ∨ (EmptyString = EmptyString ∧ "a" = EmptyString ∧ "[a]" = EmptyString ∧
          "False" = "False" ∧ "False" = "False" ∧ "False" = "False")).
Proof.
  apply (valid_keystroke_decision (typed_ks "2019-05-01T10:00:00.400")
           EmptyString "False" "[a]" EmptyString "a" "False" "False" "False");
    reflexivity.
Defined.

(** X14. The verdict of the filter, its exception included, depends on the
    eight filter attributes only: two events that agree on them get the
    same result, whatever their [created] and other attributes are. *)
Theorem valid_keystroke_reads_eight_attributes (k1 k2 : element) :
  (∀ a, a ∈ filter_attributes → attrib k1 !! a = attrib k2 !! a) →
  valid_keystroke k1 = valid_keystroke k2.
Proof.
  intros H. unfold valid_keystroke, getitem. cbv zeta.
  assert (Hin : ∀ a, a ∈ filter_attributes → attrib k1 !! a = attrib k2 !! a)
    by exact H.
  unfold filter_attributes in Hin.
  rewrite !(Hin "origin"), !(Hin "system"), !(Hin "key"), !(Hin "selection"),
    !(Hin "text"), !(Hin "shift"), !(Hin "ctrl"), !(Hin "alt");
    try reflexivity;
    repeat first [ apply list_elem_of_here | apply list_elem_of_further ].
Qed.

Lemma valid_keystroke_reads_eight_attributes_witness :
  valid_keystroke (typed_ks "2019-05-01T10:00:00.400")
  = valid_keystroke (typed_ks "not a time stamp").
Proof.
  apply (valid_keystroke_reads_eight_attributes
           (typed_ks "2019-05-01T10:00:00.400") (typed_ks "not a time stamp")).
  intros a Ha. unfold filter_attributes in Ha.
  repeat (apply elem_of_cons in Ha as [-> | Ha]; [reflexivity |]).
  by apply elem_of_nil in Ha.
Defined.

(** ** The output file names *)

Lemma replace_from_other_char c s new :
  Ascii.eqb "." c = false →
  replace_from 0 (String c s) ".xml" new = String c (replace_from 0 s ".xml" new).
Proof.
  intros H.
  change (replace_from 0 (String c s) ".xml" new)
    with (if Ascii.eqb "." c && startswith s "xml"
          then new +:+ replace_from 3 s ".xml" new
          else String c (replace_from 0 s ".xml" new)).
  by rewrite H.
Qed.

Lemma replace_from_dot_free stem rest new :
  dot_free stem = true →
  replace_from 0 (stem +:+ rest) ".xml" new
  = stem +:+ replace_from 0 rest ".xml" new.
Proof.
  induction stem as [|c stem IH]; intros H; [done|].
  change (dot_free (String c stem))
    with (negb (Ascii.eqb "." c) && dot_free stem) in H.
  apply andb_true_iff in H as [Hc H]. apply negb_true_iff in Hc.
  change (String c stem +:+ rest) with (String c (stem +:+ rest)).
  rewrite (replace_from_other_char _ _ _ Hc), (IH H). reflexivity.
Qed.

Lemma append_assoc_string (a b c : string) : (a +:+ b) +:+ c = a +:+ (b +:+ c).
Proof.
  induction a as [|x a IH]; [done|].
  change ((String x a +:+ b) +:+ c) with (String x ((a +:+ b) +:+ c)).
  change (String x a +:+ (b +:+ c)) with (String x (a +:+ (b +:+ c))).
  by rewrite IH.
Qed.

Lemma length_append_string (a b : string) :
  String.length (a +:+ b) = (String.length a + String.length b)%nat.
Proof.
  induction a as [|x a IH]; [done|].
  change (String x a +:+ b) with (String x (a +:+ b)).
  cbn [String.length]. by rewrite IH.
Qed.

Lemma substring_all (s : string) : substring 0 (String.length s) s = s.
Proof. induction s as [|x s IH]; [done|]. cbn [String.length substring]. by rewrite IH. Qed.

Lemma substring_suffix (stem suffix : string) :
  substring (String.length stem) (String.length suffix) (stem +:+ suffix) = suffix.
Proof.
  induction stem as [|x stem IH]; [apply substring_all|].
  change (String x stem +:+ suffix) with (String x (stem +:+ suffix)).
  cbn [String.length substring]. exact IH.
Qed.

Lemma endswith_append (stem suffix : string) :
  endswith (stem +:+ suffix) suffix = true.
Proof.
  unfold endswith. rewrite length_append_string. apply andb_true_iff. split.
  - apply Nat.leb_le. lia.
  - replace (String.length stem + String.length suffix - String.length suffix)%nat
      with (String.length stem) by lia.
    apply String.eqb_eq, substring_suffix.
Qed.

(** X15. A file whose name is a dot-free stem followed by [.xml] is
    selected by [process], its summary is written to the stem followed by
    [.csv] and its audit to the stem followed by [-audit.csv]. *)
Theorem output_file_names (stem : string) :
  dot_free stem = true →
  endswith (stem +:+ ".xml") ".xml" = true ∧
  output_file_name (stem +:+ ".xml") = stem +:+ ".csv" ∧
  all_output_file_name (stem +:+ ".xml") = stem +:+ "-audit.csv".
Proof.
  intros H. split; [apply endswith_append|].
  unfold output_file_name, all_output_file_name, replace.
  by rewrite !(replace_from_dot_free stem ".xml" _ H).
Qed.

Lemma output_file_names_witness :
  endswith ("session1" +:+ ".xml") ".xml" = true ∧
  output_file_name ("session1" +:+ ".xml") = "session1" +:+ ".csv" ∧
  all_output_file_name ("session1" +:+ ".xml") = "session1" +:+ "-audit.csv".
Proof. apply (output_file_names "session1"). reflexivity. Defined.

Lemma dot_free_append a b :
  dot_free a = true → dot_free b = true → dot_free (a +:+ b) = true.
Proof.
  intros Ha Hb. induction a as [|c a IH]; [done|].
  change (dot_free (String c a)) with (negb (Ascii.eqb "." c) && dot_free a) in Ha.
  change (dot_free (String c a +:+ b))
    with (negb (Ascii.eqb "." c) && dot_free (a +:+ b)).
  apply andb_true_iff in Ha as [Hc Ha]. by rewrite Hc, IH.
Qed.

(** X16. Output names can collide: for a dot-free stem, both
    [stem.xml] and [stem-audit.xml] are selected, and the summary of the
    second gets the name of the audit of the first. *)
Theorem output_file_names_collide (stem : string) :
  dot_free stem = true →
  endswith (stem +:+ ".xml") ".xml" = true ∧
  endswith (stem +:+ "-audit.xml") ".xml" = true ∧
  stem +:+ ".xml" ≠ stem +:+ "-audit.xml" ∧
  output_file_name (stem +:+ "-audit.xml") = all_output_file_name (stem +:+ ".xml").
Proof.
  intros H.
  assert (Hsplit : stem +:+ "-audit.xml" = (stem +:+ "-audit") +:+ ".xml")
    by (by rewrite append_assoc_string).
  assert (H' : dot_free (stem +:+ "-audit") = true) by (by apply dot_free_append).
  split_and!.
  - apply endswith_append.
  - rewrite Hsplit. apply endswith_append.
  - clear H H' Hsplit. induction stem as [|c stem IH]; [done|].
    intros [= E]. by apply IH.
  - unfold output_file_name, all_output_file_name, replace.
    rewrite Hsplit, (replace_from_dot_free _ ".xml" _ H'),
      (replace_from_dot_free stem ".xml" _ H).
    by rewrite append_assoc_string.
Qed.

Lemma output_file_names_collide_witness :
  endswith ("a" +:+ ".xml") ".xml" = true ∧
  endswith ("a" +:+ "-audit.xml") ".xml" = true ∧
  "a" +:+ ".xml" ≠ "a" +:+ "-audit.xml" ∧
  output_file_name ("a" +:+ "-audit.xml") = all_output_file_name ("a" +:+ ".xml").
Proof. apply (output_file_names_collide "a"). reflexivity. Defined.

(** ** Further examples *)

Lemma two_system_ks_record_well_formed :
  well_formed_record iso_millis two_system_ks_record.
Proof.
  apply (example_attributes_well_formed _ 1556704800900); [reflexivity|].
  apply Forall_cons_2; [by apply (system_ks_well_formed _ 1556704800200) |].
  apply Forall_cons_2; [by apply (system_ks_well_formed _ 1556704800600) |].
  apply Forall_nil_2.
Qed.

Lemma process_file_succeeds_iff_witness :
  ∃ tables, process_file iso_millis [mixed_record; two_system_ks_record] = Ok tables.
Proof.
  apply (proj2 (process_file_succeeds_iff iso_millis
                  [mixed_record; two_system_ks_record])).
  apply Forall_cons_2;
    [apply (process_record_total _ _ mixed_record_well_formed) |].
  apply Forall_cons_2;
    [apply (process_record_total _ _ two_system_ks_record_well_formed) |].
  apply Forall_nil_2.
Defined.

Lemma example_document_processed :
  ∃ tables, process_file iso_millis [mixed_record; two_system_ks_record] = Ok tables.
Proof.
  destruct (process_file iso_millis [mixed_record; two_system_ks_record])
    as [tables|e] eqn:E; [by exists tables|].
  vm_compute in E. discriminate E.
Qed.

Lemma process_file_tables_shape_witness :
  ∃ categorized_data all_pauses_data,
    process_file iso_millis [mixed_record; two_system_ks_record]
    = Ok (categorized_data, all_pauses_data) ∧
    length categorized_data = 2%nat ∧
    Forall (λ row, length row = length columns) categorized_data ∧
    Forall (λ row, length row = length audit_columns) all_pauses_data.
Proof.
  destruct example_document_processed as [[rows audits] H].
  exists rows, audits. split; [exact H|].
  apply (process_file_tables_shape iso_millis
           [mixed_record; two_system_ks_record] rows audits H).
Defined.

Lemma process_record_exceptions_witness :
  process_record iso_millis no_stopped_record = Raise (KeyError "stopped") ∧
  (record_error iso_millis no_stopped_record (KeyError "stopped")
   ∨ ks_error iso_millis (findall_ks no_stopped_record) (KeyError "stopped")) ∧
  KeyError "stopped" ≠ IndexError.
Proof.
  assert (H : process_record iso_millis no_stopped_record
              = Raise (KeyError "stopped")) by (vm_compute; reflexivity).
  split; [exact H|].
  apply (process_record_exceptions iso_millis no_stopped_record _ H).
Defined.

Lemma invalid_events_leave_summary_witness :
  ∃ L L', process_record iso_millis mixed_record = Ok L ∧
          process_record iso_millis (without_invalid mixed_record) = Ok L' ∧
          row_of L' = row_of L.
Proof.
  destruct (process_record_total iso_millis mixed_record mixed_record_well_formed)
    as [L HL].
  destruct (invalid_events_leave_summary iso_millis mixed_record L HL)
    as (L' & HL' & Hrow).
  { destruct mixed_record_counts as [-> _]. lia. }
  exists L, L'. split; [exact HL|]. split; [exact HL' | exact Hrow].
Defined.

(** ** The summary row *)

Section summary_row.

Variable datetime64 : string → option Z.


(** Two processed records with the same attributes, the same valid time
    stamps and neither with two or more events all invalid have the same
    summary row. *)
Lemma same_summary r r' L L' :
  process_record datetime64 r = Ok L → process_record datetime64 r' = Ok L' →
  record_attrib r' = record_attrib r →
  valid_times datetime64 (findall_ks r') = valid_times datetime64 (findall_ks r) →
  count is_valid (findall_ks r') = count is_valid (findall_ks r) →
  findall_ks r = [] ∨ (∃ k, findall_ks r = [k])
    ∨ (0 < count is_valid (findall_ks r))%nat →
  findall_ks r' = [] ∨ (∃ k, findall_ks r' = [k])
    ∨ (0 < count is_valid (findall_ks r'))%nat →
  row_of L' = row_of L.
Proof.
  intros H H' Hattr Htimes Hcount Hcase Hcase'.
  destruct (process_record_classifies datetime64 r L H)
    as (s0a & t0a & s1a & t1a & gaps & Hs0a & Ht0a & Hs1a & Ht1a & _ & Hc & _ & Hg).
  destruct (process_record_classifies datetime64 r' L' H')
    as (s0b & t0b & s1b & t1b & gaps' & Hs0b & Ht0b & Hs1b & Ht1b & _ & Hc' & _ & Hg').
  destruct (Hg Hcase) as [-> Hn]. destruct (Hg' Hcase') as [-> Hn'].
  rewrite Hattr in *. rewrite Htimes, Hcount in *.
  assert (s0a = s0b) as -> by congruence.
  assert (s1a = s1b) as -> by congruence.
  assert (t0a = t0b) as -> by congruence.
  assert (t1a = t1b) as -> by congruence.
  assert (Hfc : final_counts L' = final_counts L) by congruence.
  apply process_record_Ok in H
    as (s0 & t0 & s1 & t1 & rid & sid & act & Hs0 & Ht0 & Hs1 & Ht1 & Hrid & Hsid
        & Hact & Hi & Hsg & Ha & Hd & _).
  apply process_record_Ok in H'
    as (s0' & t0' & s1' & t1' & rid' & sid' & act' & Hs0' & Ht0' & Hs1' & Ht1'
        & Hrid' & Hsid' & Hact' & Hi' & Hsg' & Ha' & Hd' & _).
  rewrite Hattr in *.
  unfold row_of. rewrite Hfc, Hi, Hi', Hsg, Hsg', Ha, Ha', Hd, Hd', Hn, Hn'.
  assert (rid' = rid) as -> by congruence.
  assert (sid' = sid) as -> by congruence.
  assert (act' = act) as -> by congruence.
  assert (s0' = s0) as -> by congruence.
  assert (s1' = s1) as -> by congruence.
  assert (t0' = t0) as -> by congruence.
  assert (t1' = t1) as -> by congruence.
  reflexivity.
Qed.

(** X18. A record whose only event is rejected by the filter has the
    summary row of the same record without any event (the audit note alone
    tells them apart). *)
Theorem single_invalid_event_as_no_event (r : record_element) (L : record_locals)
    (k : element) :
  process_record datetime64 r = Ok L →
  findall_ks r = [k] → valid_keystroke k = Ok false →
  ∃ L', process_record datetime64 (without_events r) = Ok L' ∧
        row_of L' = row_of L ∧
        audit_rows L = [[Str (record_id L); Str (segment_id L);
                         Int (duration_ms L); Str "1 system ks omitted"]] ∧
        audit_rows L' = [[Str (record_id L); Str (segment_id L);
                          Int (duration_ms L); Str "No ks"]].
Proof.
  intros H Eks Hv.
  pose proof H as HL.
  apply process_record_Ok in HL
    as (s0 & t0 & s1 & t1 & rid & sid & act & Hs0 & Ht0 & Hs1 & Ht1 & Hrid & Hsid
        & Hact & Hi & Hsg & Ha & Hd & Hb).
  destruct (process_record_total_readable datetime64 (without_events r) s0 t0 s1 t1)
    as [L' HL']; try done; try by eexists.
  exists L'. split; [done|].
  assert (Hrow : row_of L' = row_of L).
  { apply (same_summary r (without_events r) L L' H HL'); try done.
    - cbn [findall_ks without_events]. rewrite Eks.
      by rewrite (valid_times_none datetime64 [k] (count_invalid_singleton k Hv)).
    - cbn [findall_ks without_events]. rewrite Eks.
      by rewrite (count_invalid_singleton k Hv).
    - right. left. by exists k.
    - by left. }
  split; [done|].
  pose proof HL' as HL''.
  apply process_record_Ok in HL''
    as (s0' & t0' & s1' & t1' & rid' & sid' & act' & Hs0' & Ht0' & Hs1' & Ht1'
        & Hrid' & Hsid' & Hact' & Hi' & Hsg' & Ha' & Hd' & Hb').
  cbn [record_attrib findall_ks without_events] in *.
  assert (rid' = rid) as -> by congruence.
  assert (sid' = sid) as -> by congruence.
  assert (s0' = s0) as -> by congruence.
  assert (s1' = s1) as -> by congruence.
  assert (t0' = t0) as -> by congruence.
  assert (t1' = t1) as -> by congruence.
  rewrite Hi, Hsg, Hd. split.
  - destruct Hb as [E _ _ _ | k0 E Hv0 _ _ Haud | st Hst Hpos _ _ _
                   | st _ Hone _ _ _ _ _].
    + congruence.
    + exact Haud.
    + destruct (keystroke_loop_Ok datetime64 _ _ _ _ _ Hst has_keys_create)
        as (_ & Hn & _).
      rewrite Eks, (count_invalid_singleton k Hv) in Hn.
      cbn [valid_keystroke_count] in Hn. lia.
    + specialize (Hone k Eks). congruence.
  - destruct Hb' as [_ _ _ Haud | k0 E _ _ _ _ | st Hst Hpos _ _ _
                    | st Hne _ _ _ _ _ _].
    + exact Haud.
    + discriminate E.
    + cbn [for_each] in Hst. injection Hst as <-.
      cbn [valid_keystroke_count] in Hpos. lia.
    + done.
Qed.

End summary_row.


Lemma single_invalid_event_as_no_event_witness :
  ∃ L L', process_record iso_millis
            (record (example_attributes "2019-05-01T10:00:00.900")
                    [system_ks "2019-05-01T10:00:00.200"]) = Ok L ∧
    process_record iso_millis
      (without_events (record (example_attributes "2019-05-01T10:00:00.900")
                              [system_ks "2019-05-01T10:00:00.200"])) = Ok L' ∧
    row_of L' = row_of L.
Proof.
  destruct (process_record_total iso_millis
              (record (example_attributes "2019-05-01T10:00:00.900")
                      [system_ks "2019-05-01T10:00:00.200"])) as [L HL].
  { apply (example_attributes_well_formed _ 1556704800900); [reflexivity|].
    apply Forall_cons_2; [by apply (system_ks_well_formed _ 1556704800200) |].
    apply Forall_nil_2. }
  destruct (single_invalid_event_as_no_event iso_millis _ L
              (system_ks "2019-05-01T10:00:00.200") HL)
    as (L' & HL' & Hrow & _); [reflexivity | reflexivity |].
  exists L, L'. split; [exact HL|]. split; [exact HL' | exact Hrow].
Defined.



(** * numpy's arithmetic *)

(** ** 64-bit integers *)

Lemma wrap64_in_int64 z : in_int64 (wrap64 z).
Proof.
  unfold in_int64, wrap64.
  pose proof (Z.mod_pos_bound (z + 2 ^ 63) (2 ^ 64)). lia.
Qed.

Lemma wrap64_id z : in_int64 z → wrap64 z = z.
Proof.
  unfold in_int64, wrap64. intros H.
  rewrite Z.mod_small; lia.
Qed.

Lemma wrap64_add_l a b : wrap64 (wrap64 a + b) = wrap64 (a + b).
Proof.
  unfold wrap64.
  replace ((a + 2 ^ 63) mod 2 ^ 64 - 2 ^ 63 + b + 2 ^ 63)
    with ((a + 2 ^ 63) mod 2 ^ 64 + b) by lia.
  rewrite Zplus_mod_idemp_l. f_equal. f_equal. lia.
Qed.

(** ** The classifier on [numpy.int64] gaps *)

Lemma iadd_np_Some counts k v x :
  counts !! k = Some x → iadd_np counts k v = Ok (<[k := wrap64 (x + v)]> counts).
Proof. intros H. unfold iadd_np. by rewrite (getitem_Some _ _ _ H). Qed.

Ltac run_iadd_np :=
  cbn [mbind result_bind];
  repeat (first [ erewrite iadd_np_Some by (simplify_map_eq; reflexivity)
                | erewrite iadd_Some by (simplify_map_eq; reflexivity) ];
          cbn [mbind result_bind]).

Lemma updated_np_at g x :
  updated_np g "duration_300" x = (if 300 <=? g then wrap64 (x + g) else x) ∧
  updated_np g "count_300" x = x + (if 300 <=? g then 1 else 0) ∧
  updated_np g "duration_500" x = (if 500 <=? g then wrap64 (x + g) else x) ∧
  updated_np g "count_500" x = x + (if 500 <=? g then 1 else 0) ∧
  updated_np g "duration_1000" x = (if 1000 <=? g then wrap64 (x + g) else x) ∧
  updated_np g "count_1000" x = x + (if 1000 <=? g then 1 else 0) ∧
  updated_np g "total_duration" x = wrap64 (x + g).
Proof. repeat split. Qed.

Lemma updated_np_other g k x : k ∉ bucket_keys → updated_np g k x = x.
Proof.
  intros Hk. pose proof (increment_other g k Hk) as Hi. revert Hk.
  unfold bucket_keys. rewrite !not_elem_of_cons. intros (?&?&?&?&?&?&?&_).
  unfold updated_np. repeat (case_bool_decide; [done|]). lia.
Qed.

(** One call succeeds on an accumulator that has the seven keys, and
    leaves [updated_np pause_ms k x] under every key [k] that held [x]. *)
Lemma categorize_pause_np_lookup counts pause_ms :
  has_keys counts →
  ∃ counts', categorize_pause_np counts pause_ms = Ok counts' ∧
    ∀ k, counts' !! k = updated_np pause_ms k <$> counts !! k.
Proof.
  intros H. unfold has_keys, bucket_keys in H. rewrite !Forall_cons in H.
  destruct H as ([d3 H1] & [n3 H2] & [d5 H3] & [n5 H4] & [d10 H5] & [n10 H6]
                 & [t H7] & _).
  unfold categorize_pause_np.
  destruct (300 <=? pause_ms) eqn:E3, (500 <=? pause_ms) eqn:E5,
           (1000 <=? pause_ms) eqn:E10;
    (eexists; split; [run_iadd_np; reflexivity |]).
  all: intros k; unfold updated_np, increment; rewrite ?E3, ?E5, ?E10.
  all: repeat (case_bool_decide; [subst k; simplify_map_eq; f_equal; lia |]).
  all: simplify_map_eq; destruct (counts !! k); simpl; f_equal; lia.
Qed.

Lemma has_keys_updated (counts counts' : gmap string Z) (f : string → Z → Z) :
  (∀ k, counts' !! k = f k <$> counts !! k) → has_keys counts → has_keys counts'.
Proof. apply has_keys_fmap. Qed.

Lemma categorize_pause_np_has_keys counts g counts' :
  categorize_pause_np counts g = Ok counts' → has_keys counts → has_keys counts'.
Proof.
  intros H Hk. destruct (categorize_pause_np_lookup counts g Hk) as (c & Hc & Hl).
  rewrite Hc in H. injection H as <-.
  by apply (has_keys_updated counts c (updated_np g)).
Qed.


Lemma categorize_pauses_np_lookup gaps : ∀ counts,
  has_keys counts →
  ∃ counts', categorize_pauses_np counts gaps = Ok counts' ∧
    ∀ k, counts' !! k = updated_all_np gaps k <$> counts !! k.
Proof.
  unfold categorize_pauses_np, updated_all_np.
  induction gaps as [|g gaps IH]; intros counts Hk.
  - exists counts. split; [done|]. intros k. by destruct (counts !! k).
  - destruct (categorize_pause_np_lookup counts g Hk) as (c1 & Hc1 & Hl1).
    assert (Hk1 : has_keys c1) by (by apply (categorize_pause_np_has_keys _ _ _ Hc1)).
    destruct (IH c1 Hk1) as (c2 & Hc2 & Hl2).
    exists c2. split; [simpl; by rewrite Hc1|].
    intros k. rewrite Hl2, Hl1. by destruct (counts !! k).
Qed.

Lemma updated_all_duration threshold key gaps : ∀ x,
  (∀ g y, updated_np g key y = if threshold <=? g then wrap64 (y + g) else y) →
  in_int64 x →
  updated_all_np gaps key x = wrap64 (x + sum_Z (at_least threshold gaps)).
Proof.
  unfold updated_all_np, at_least.
  induction gaps as [|g gaps IH]; intros x H Hx.
  - cbn [foldl]. rewrite filter_nil. cbn [sum_Z foldr].
    rewrite Z.add_0_r. by rewrite wrap64_id.
  - cbn [foldl]. rewrite filter_cons, H.
    destruct (Z.leb_spec threshold g); case_decide; try lia.
    + rewrite IH by (done || apply wrap64_in_int64).
      rewrite wrap64_add_l. cbn [sum_Z foldr]. f_equal. unfold sum_Z. lia.
    + by rewrite IH.
Qed.

Lemma updated_all_total gaps : ∀ x,
  in_int64 x →
  updated_all_np gaps "total_duration" x = wrap64 (x + sum_Z gaps).
Proof.
  unfold updated_all_np.
  induction gaps as [|g gaps IH]; intros x Hx.
  - cbn [foldl sum_Z foldr]. rewrite Z.add_0_r. by rewrite wrap64_id.
  - cbn [foldl]. destruct (updated_np_at g x) as (_&_&_&_&_&_&->).
    rewrite IH by apply wrap64_in_int64.
    rewrite wrap64_add_l. cbn [sum_Z foldr]. f_equal. unfold sum_Z. lia.
Qed.

Lemma updated_all_count threshold key gaps : ∀ x,
  (∀ g y, updated_np g key y = y + if threshold <=? g then 1 else 0) →
  updated_all_np gaps key x = x + Z.of_nat (length (at_least threshold gaps)).
Proof.
  unfold updated_all_np, at_least.
  induction gaps as [|g gaps IH]; intros x H.
  - cbn [foldl]. rewrite filter_nil. simpl. lia.
  - cbn [foldl]. rewrite filter_cons, H, IH by done.
    destruct (Z.leb_spec threshold g); case_decide; try lia.
    cbn [length]. lia.
Qed.

Lemma updated_all_other gaps k x : k ∉ bucket_keys → updated_all_np gaps k x = x.
Proof.
  intros Hk. unfold updated_all_np.
  induction gaps as [|g gaps IH]; [done|].
  cbn [foldl]. by rewrite (updated_np_other g k x Hk).
Qed.

Lemma in_int64_0 : in_int64 0.
Proof. unfold in_int64. lia. Qed.

(** The accumulator that a sequence of calls reaches from the fresh one. *)
Lemma fresh_lookups_np (counts : gmap string Z) (gaps : list Z) :
  (∀ k, counts !! k = updated_all_np gaps k <$> create_pause_counts_dict !! k) →
  counts !! "duration_300" = Some (wrap64 (sum_Z (at_least 300 gaps))) ∧
  counts !! "count_300" = Some (Z.of_nat (length (at_least 300 gaps))) ∧
  counts !! "duration_500" = Some (wrap64 (sum_Z (at_least 500 gaps))) ∧
  counts !! "count_500" = Some (Z.of_nat (length (at_least 500 gaps))) ∧
  counts !! "duration_1000" = Some (wrap64 (sum_Z (at_least 1000 gaps))) ∧
  counts !! "count_1000" = Some (Z.of_nat (length (at_least 1000 gaps))) ∧
  counts !! "total_duration" = Some (wrap64 (sum_Z gaps)) ∧
  counts !! "total_pause_ms" = Some 0.
Proof.
  intros Hl. rewrite !Hl.
  change (create_pause_counts_dict !! "duration_300") with (Some 0).
  change (create_pause_counts_dict !! "count_300") with (Some 0).
  change (create_pause_counts_dict !! "duration_500") with (Some 0).
  change (create_pause_counts_dict !! "count_500") with (Some 0).
  change (create_pause_counts_dict !! "duration_1000") with (Some 0).
  change (create_pause_counts_dict !! "count_1000") with (Some 0).
  change (create_pause_counts_dict !! "total_duration") with (Some 0).
  change (create_pause_counts_dict !! "total_pause_ms") with (Some 0).
  cbn [fmap option_fmap option_map].
  rewrite (updated_all_duration 300 "duration_300"),
    (updated_all_duration 500 "duration_500"),
    (updated_all_duration 1000 "duration_1000"), updated_all_total,
    (updated_all_count 300 "count_300"), (updated_all_count 500 "count_500"),
    (updated_all_count 1000 "count_1000"),
    (updated_all_other gaps "total_pause_ms")
    by first [ apply in_int64_0 | apply total_pause_ms_not_bucket_key
             | intros g y; apply (updated_np_at g y) ].
  split_and!; reflexivity.
Qed.

Lemma categorize_pauses_np_fresh gaps :
  ∃ counts, categorize_pauses_np create_pause_counts_dict gaps = Ok counts ∧
    counts !! "duration_300" = Some (wrap64 (sum_Z (at_least 300 gaps))) ∧
    counts !! "count_300" = Some (Z.of_nat (length (at_least 300 gaps))) ∧
    counts !! "duration_500" = Some (wrap64 (sum_Z (at_least 500 gaps))) ∧
    counts !! "count_500" = Some (Z.of_nat (length (at_least 500 gaps))) ∧
    counts !! "duration_1000" = Some (wrap64 (sum_Z (at_least 1000 gaps))) ∧
    counts !! "count_1000" = Some (Z.of_nat (length (at_least 1000 gaps))) ∧
    counts !! "total_duration" = Some (wrap64 (sum_Z gaps)) ∧
    counts !! "total_pause_ms" = Some 0.
Proof.
  destruct (categorize_pauses_np_lookup gaps _ has_keys_create) as (c & Hc & Hl).
  exists c. split; [done|]. by apply fresh_lookups_np.
Qed.

(** C3 (amended). One call of the pause classifier, on an accumulator of
    64-bit values and a [numpy.int64] gap, is cumulative as long as the sums
    it computes stay within 64 bits: a
    gap of at least 1000 adds itself to the three duration sums and one to
    the three counters; a gap in [500, 1000) changes the 300 and 500
    buckets only; a gap in [300, 500) the 300 bucket only; a smaller gap
    (negative ones included) changes no bucket; [total_duration] grows by
    the gap in every case, and no other entry of the accumulator changes. *)
Theorem categorize_pause_np_cumulative
    (counts : gmap string Z) (g d3 n3 d5 n5 d10 n10 t : Z) :
  counts !! "duration_300" = Some d3 → counts !! "count_300" = Some n3 →
  counts !! "duration_500" = Some d5 → counts !! "count_500" = Some n5 →
  counts !! "duration_1000" = Some d10 → counts !! "count_1000" = Some n10 →
  counts !! "total_duration" = Some t →
  in_int64 g → in_int64 d3 → in_int64 d5 → in_int64 d10 → in_int64 t →
  (300 ≤ g → in_int64 (d3 + g)) → (500 ≤ g → in_int64 (d5 + g)) →
  (1000 ≤ g → in_int64 (d10 + g)) → in_int64 (t + g) →
  ∃ counts', categorize_pause_np counts g = Ok counts' ∧
    counts' !! "total_duration" = Some (t + g) ∧
    (1000 ≤ g →
       counts' !! "duration_300" = Some (d3 + g) ∧
       counts' !! "count_300" = Some (n3 + 1) ∧
       counts' !! "duration_500" = Some (d5 + g) ∧
       counts' !! "count_500" = Some (n5 + 1) ∧
       counts' !! "duration_1000" = Some (d10 + g) ∧
       counts' !! "count_1000" = Some (n10 + 1)) ∧
    (500 ≤ g < 1000 →
       counts' !! "duration_300" = Some (d3 + g) ∧
       counts' !! "count_300" = Some (n3 + 1) ∧
       counts' !! "duration_500" = Some (d5 + g) ∧
       counts' !! "count_500" = Some (n5 + 1) ∧
       counts' !! "duration_1000" = Some d10 ∧
       counts' !! "count_1000" = Some n10) ∧
    (300 ≤ g < 500 →
       counts' !! "duration_300" = Some (d3 + g) ∧
       counts' !! "count_300" = Some (n3 + 1) ∧
       counts' !! "duration_500" = Some d5 ∧
       counts' !! "count_500" = Some n5 ∧
       counts' !! "duration_1000" = Some d10 ∧
       counts' !! "count_1000" = Some n10) ∧
    (g < 300 →
       counts' !! "duration_300" = Some d3 ∧
       counts' !! "count_300" = Some n3 ∧
       counts' !! "duration_500" = Some d5 ∧
       counts' !! "count_500" = Some n5 ∧
       counts' !! "duration_1000" = Some d10 ∧
       counts' !! "count_1000" = Some n10) ∧
    (∀ k, k ∉ bucket_keys → counts' !! k = counts !! k).
Proof.
  intros H1 H2 H3 H4 H5 H6 H7 _ _ _ _ _ B3 B5 B10 Bt.
  assert (Hk : has_keys counts).
  { unfold has_keys, bucket_keys. repeat constructor; by eexists. }
  destruct (categorize_pause_np_lookup counts g Hk) as (c & Hc & Hl).
  exists c. split; [done|].
  rewrite !Hl, H1, H2, H3, H4, H5, H6, H7. cbn [fmap option_fmap option_map].
  destruct (updated_np_at g d3) as (-> & _).
  destruct (updated_np_at g n3) as (_ & -> & _).
  destruct (updated_np_at g d5) as (_ & _ & -> & _).
  destruct (updated_np_at g n5) as (_ & _ & _ & -> & _).
  destruct (updated_np_at g d10) as (_ & _ & _ & _ & -> & _).
  destruct (updated_np_at g n10) as (_ & _ & _ & _ & _ & -> & _).
  destruct (updated_np_at g t) as (_ & _ & _ & _ & _ & _ & ->).
  rewrite (wrap64_id (t + g) Bt).
  split; [done|].
  split_and!.
  - intros Hg. rewrite (wrap64_id _ (B3 ltac:(lia))), (wrap64_id _ (B5 ltac:(lia))),
      (wrap64_id _ (B10 ltac:(lia))).
    destruct (Z.leb_spec 300 g), (Z.leb_spec 500 g), (Z.leb_spec 1000 g);
      try lia. by split_and!.
  - intros Hg. rewrite (wrap64_id _ (B3 ltac:(lia))), (wrap64_id _ (B5 ltac:(lia))).
    destruct (Z.leb_spec 300 g), (Z.leb_spec 500 g), (Z.leb_spec 1000 g);
      try lia. split_and!; try done; f_equal; lia.
  - intros Hg. rewrite (wrap64_id _ (B3 ltac:(lia))).
    destruct (Z.leb_spec 300 g), (Z.leb_spec 500 g), (Z.leb_spec 1000 g);
      try lia. split_and!; try done; f_equal; lia.
  - intros Hg.
    destruct (Z.leb_spec 300 g), (Z.leb_spec 500 g), (Z.leb_spec 1000 g);
      try lia. split_and!; try done; f_equal; lia.
  - intros k Hnk. rewrite Hl. destruct (counts !! k); [|done]. simpl.
    by rewrite (updated_np_other g k _ Hnk).
Qed.

Lemma categorize_pause_np_cumulative_witness :
  ∃ counts', categorize_pause_np create_pause_counts_dict (-5) = Ok counts' ∧
             counts' !! "total_duration" = Some (0 + -5).
Proof.
  destruct (categorize_pause_np_cumulative create_pause_counts_dict (-5)
              0 0 0 0 0 0 0) as (c & Hc & Ht & _);
    try reflexivity; try (unfold in_int64; lia).
  exists c. split; [exact Hc | exact Ht].
Defined.

(** C3, counterexample. Two calls with the gap that numpy gives for a
    difference with NaT, -2^63, as the record loop makes for a valid event
    with an empty [created]: the second call takes [total_duration] from
    -2^63 to 0, not to -2^64. *)
Lemma categorize_pause_np_wraps :
  ∃ counts counts',
    categorize_pause_np create_pause_counts_dict (- 2 ^ 63) = Ok counts ∧
    counts !! "total_duration" = Some (- 2 ^ 63) ∧
    categorize_pause_np counts (- 2 ^ 63) = Ok counts' ∧
    counts' !! "total_duration" = Some 0 ∧
    0 ≠ - 2 ^ 63 + - 2 ^ 63.
Proof.
  destruct (categorize_pause_np_lookup create_pause_counts_dict (- 2 ^ 63)
              has_keys_create) as (c1 & H1 & L1).
  destruct (categorize_pause_np_lookup c1 (- 2 ^ 63)) as (c2 & H2 & L2).
  { by apply (categorize_pause_np_has_keys _ _ _ H1 has_keys_create). }
  exists c1, c2. rewrite L2, !L1.
  split; [exact H1|]. split; [reflexivity|]. split; [exact H2|].
  split; [reflexivity | lia].
Qed.

Lemma sum_Z_nonneg gaps : Forall (λ g, 0 ≤ g) gaps → 0 ≤ sum_Z gaps.
Proof.
  induction 1 as [|g gaps Hg0 Hg IH]; [done|].
  change (sum_Z (g :: gaps)) with (g + sum_Z gaps). lia.
Qed.

Lemma sum_at_least_le threshold gaps :
  Forall (λ g, 0 ≤ g) gaps → sum_Z (at_least threshold gaps) ≤ sum_Z gaps.
Proof.
  unfold at_least. induction 1 as [|g gaps Hg0 Hg IH]; [done|].
  rewrite filter_cons. change (sum_Z (g :: gaps)) with (g + sum_Z gaps).
  case_decide; [|lia].
  change (sum_Z (g :: ?l)) with (g + sum_Z l).
  change (g + sum_Z (filter (λ g, threshold ≤ g) gaps) ≤ g + sum_Z gaps). lia.
Qed.

(** C8 (amended). From a fresh accumulator, any sequence of classifier calls
    with non-negative [numpy.int64] gaps whose sum stays below 2^63 succeeds
    and ends in an accumulator with count_300 ≥ count_500 ≥ count_1000 ≥ 0,
    duration_300 ≥ duration_500 ≥ duration_1000 ≥ 0 and
    total_duration ≥ duration_300. *)
Theorem nonnegative_gaps_np_keep_buckets_ordered (gaps : list Z) :
  Forall (λ g, 0 ≤ g) gaps → sum_Z gaps < 2 ^ 63 →
  ∃ counts, categorize_pauses_np create_pause_counts_dict gaps = Ok counts ∧
            bucket_invariant counts.
Proof.
  intros Hg Hsum.
  destruct (categorize_pauses_np_fresh gaps)
    as (c & Hc & H1 & H2 & H3 & H4 & H5 & H6 & H7 & _).
  exists c. split; [done|].
  pose proof (at_least_bounds 1000 gaps).
  pose proof (at_least_nested 300 500 gaps).
  pose proof (at_least_nested 500 1000 gaps).
  pose proof (sum_at_least_le 300 gaps Hg) as Hle.
  assert (R : ∀ z, 0 ≤ z ≤ sum_Z gaps → wrap64 z = z).
  { intros z Hz. apply wrap64_id. unfold in_int64. lia. }
  rewrite R in H1, H3, H5, H7 by lia.
  unfold bucket_invariant. repeat eexists; eauto; lia.
Qed.

Lemma nonnegative_gaps_np_keep_buckets_ordered_witness :
  ∃ counts,
    categorize_pauses_np create_pause_counts_dict [400; 1200; 0; 650] = Ok counts ∧
    bucket_invariant counts.
Proof.
  apply (nonnegative_gaps_np_keep_buckets_ordered [400; 1200; 0; 650]).
  - repeat constructor; lia.
  - reflexivity.
Defined.

(** C8, counterexample. Two non-negative gaps of 2^62: the three duration
    sums end at -2^63, so duration_1000 ≥ 0 fails. *)
Lemma nonnegative_gaps_np_overflow :
  ∃ counts,
    categorize_pauses_np create_pause_counts_dict [2 ^ 62; 2 ^ 62] = Ok counts ∧
    counts !! "duration_1000" = Some (- 2 ^ 63) ∧
    counts !! "count_1000" = Some 2 ∧
    ¬ bucket_invariant counts.
Proof.
  destruct (categorize_pauses_np_fresh [2 ^ 62; 2 ^ 62])
    as (c & Hc & _ & _ & _ & _ & H5 & H6 & _).
  exists c. split; [exact Hc|].
  assert (H5' : c !! "duration_1000" = Some (- 2 ^ 63)) by (rewrite H5; reflexivity).
  split; [exact H5'|]. split; [rewrite H6; reflexivity|].
  intros (d3 & n3 & d5 & n5 & d10 & n10 & t & _ & _ & _ & _ & Hd & _ & _ & Hinv).
  rewrite H5' in Hd. injection Hd as <-. lia.
Qed.

(** X1. From a fresh accumulator every sequence of [numpy.int64] gaps is
    classified without error, and the result is given in closed form: each
    bucket holds the number of the gaps that reach its threshold and their
    sum reduced to 64 bits, [total_duration] the sum of all gaps reduced to
    64 bits, [total_pause_ms] 0. *)
Theorem categorize_pauses_np_closed_form (gaps : list Z) :
  Forall in_int64 gaps →
  ∃ counts, categorize_pauses_np create_pause_counts_dict gaps = Ok counts ∧
    counts !! "duration_300" = Some (wrap64 (sum_Z (at_least 300 gaps))) ∧
    counts !! "count_300" = Some (Z.of_nat (length (at_least 300 gaps))) ∧
    counts !! "duration_500" = Some (wrap64 (sum_Z (at_least 500 gaps))) ∧
    counts !! "count_500" = Some (Z.of_nat (length (at_least 500 gaps))) ∧
    counts !! "duration_1000" = Some (wrap64 (sum_Z (at_least 1000 gaps))) ∧
    counts !! "count_1000" = Some (Z.of_nat (length (at_least 1000 gaps))) ∧
    counts !! "total_duration" = Some (wrap64 (sum_Z gaps)) ∧
    counts !! "total_pause_ms" = Some 0.
Proof.
  intros _.
  destruct (categorize_pauses_np_lookup gaps _ has_keys_create) as (c & Hc & Hl).
  exists c. split; [exact Hc|].
  destruct (fresh_lookups_np c gaps Hl) as (H1 & H2 & H3 & H4 & H5 & H6 & H7 & H8).
  by split_and!.
Qed.

Lemma categorize_pauses_np_closed_form_witness :
  ∃ counts,
    categorize_pauses_np create_pause_counts_dict [2 ^ 62; 2 ^ 62; -7] = Ok counts ∧
    counts !! "duration_300" = Some (- 2 ^ 63) ∧
    counts !! "count_300" = Some 2 ∧
    counts !! "total_duration" = Some (2 ^ 63 - 7).
Proof.
  destruct (categorize_pauses_np_closed_form [2 ^ 62; 2 ^ 62; -7])
    as (c & Hc & H1 & H2 & _ & _ & _ & _ & H7 & _).
  - repeat constructor; unfold in_int64; lia.
  - exists c. split; [exact Hc|]. split; [exact H1|]. split; [exact H2 | exact H7].
Defined.

(** X3. Whatever the [numpy.int64] gaps, negative ones included, a fresh
    accumulator keeps count_300 ≥ count_500 ≥ count_1000 ≥ 0 after any
    sequence of calls; when the sum of the gaps of at least 300 stays below
    2^63, also duration_300 ≥ duration_500 ≥ duration_1000 ≥ 0, and each
    duration is at least its threshold times its count. *)
Theorem buckets_np_nested (gaps : list Z) :
  Forall in_int64 gaps →
  ∃ counts d3 n3 d5 n5 d10 n10,
    categorize_pauses_np create_pause_counts_dict gaps = Ok counts ∧
    counts !! "duration_300" = Some d3 ∧ counts !! "count_300" = Some n3 ∧
    counts !! "duration_500" = Some d5 ∧ counts !! "count_500" = Some n5 ∧
    counts !! "duration_1000" = Some d10 ∧ counts !! "count_1000" = Some n10 ∧
    n10 ≤ n5 ∧ n5 ≤ n3 ∧ 0 ≤ n10 ∧
    (sum_Z (at_least 300 gaps) < 2 ^ 63 →
     d10 ≤ d5 ∧ d5 ≤ d3 ∧ 0 ≤ d10 ∧
     300 * n3 ≤ d3 ∧ 500 * n5 ≤ d5 ∧ 1000 * n10 ≤ d10).
Proof.
  intros _.
  destruct (categorize_pauses_np_fresh gaps)
    as (c & Hc & H1 & H2 & H3 & H4 & H5 & H6 & _).
  exists c. eexists _, _, _, _, _, _. split; [exact Hc|].
  repeat (split; [eassumption|]).
  pose proof (at_least_bounds 300 gaps).
  pose proof (at_least_bounds 500 gaps).
  pose proof (at_least_bounds 1000 gaps).
  pose proof (at_least_nested 300 500 gaps).
  pose proof (at_least_nested 500 1000 gaps).
  split_and!; try lia.
  intros Hsum.
  assert (R : ∀ z, 0 ≤ z ≤ sum_Z (at_least 300 gaps) → wrap64 z = z).
  { intros z Hz. apply wrap64_id. unfold in_int64. lia. }
  rewrite !R by lia. lia.
Qed.

Lemma buckets_np_nested_witness :
  ∃ counts n3 n5 n10,
    categorize_pauses_np create_pause_counts_dict [-40; 700; 2 ^ 62; 2 ^ 62; 350]
      = Ok counts ∧
    counts !! "count_300" = Some n3 ∧ counts !! "count_500" = Some n5 ∧
    counts !! "count_1000" = Some n10 ∧ n10 ≤ n5 ∧ n5 ≤ n3 ∧ 0 ≤ n10.
Proof.
  destruct (buckets_np_nested [-40; 700; 2 ^ 62; 2 ^ 62; 350])
    as (c & d3 & n3 & d5 & n5 & d10 & n10 & Hc & _ & H2 & _ & H4 & _ & H6
        & A & B & C & _).
  - repeat constructor; unfold in_int64; lia.
  - exists c, n3, n5, n10.
    split; [exact Hc|]. split; [exact H2|]. split; [exact H4|].
    split; [exact H6|]. split; [exact A|]. split; [exact B | exact C].
Defined.

(** ** The record processor on [numpy.datetime64] *)

Lemma categorize_pauses_np_exact (gaps : list Z) :
  Forall (λ g, 0 ≤ g) gaps → sum_Z gaps < 2 ^ 63 →
  ∃ counts, categorize_pauses_np create_pause_counts_dict gaps = Ok counts ∧
    counts !! "duration_300" = Some (sum_Z (at_least 300 gaps)) ∧
    counts !! "count_300" = Some (Z.of_nat (length (at_least 300 gaps))) ∧
    counts !! "duration_500" = Some (sum_Z (at_least 500 gaps)) ∧
    counts !! "count_500" = Some (Z.of_nat (length (at_least 500 gaps))) ∧
    counts !! "duration_1000" = Some (sum_Z (at_least 1000 gaps)) ∧
    counts !! "count_1000" = Some (Z.of_nat (length (at_least 1000 gaps))) ∧
    counts !! "total_duration" = Some (sum_Z gaps).
Proof.
  intros Hg Hsum.
  destruct (categorize_pauses_np_fresh gaps)
    as (c & Hc & H1 & H2 & H3 & H4 & H5 & H6 & H7 & _).
  exists c. split; [done|].
  pose proof (at_least_bounds 1000 gaps).
  pose proof (at_least_nested 300 500 gaps).
  pose proof (at_least_nested 500 1000 gaps).
  pose proof (sum_at_least_le 300 gaps Hg) as Hle.
  assert (R : ∀ z, 0 ≤ z ≤ sum_Z gaps → wrap64 z = z).
  { intros z Hz. apply wrap64_id. unfold in_int64. lia. }
  pose proof (sum_Z_nonneg gaps Hg).
  rewrite R in H1, H3, H5, H7 by lia.
  by split_and!.
Qed.

Lemma ordered_sums (gaps : list Z) :
  Forall (λ g, 0 ≤ g) gaps →
  0 ≤ sum_Z (at_least 1000 gaps) ∧
  sum_Z (at_least 1000 gaps) ≤ sum_Z (at_least 500 gaps) ∧
  sum_Z (at_least 500 gaps) ≤ sum_Z (at_least 300 gaps) ∧
  sum_Z (at_least 300 gaps) ≤ sum_Z gaps ∧
  (length (at_least 1000 gaps) ≤ length (at_least 500 gaps))%nat ∧
  (length (at_least 500 gaps) ≤ length (at_least 300 gaps))%nat.
Proof.
  intros Hg.
  pose proof (at_least_bounds 1000 gaps).
  pose proof (at_least_nested 300 500 gaps).
  pose proof (at_least_nested 500 1000 gaps).
  pose proof (sum_at_least_le 300 gaps Hg). lia.
Qed.

Lemma categorize_pauses_np_snoc counts gaps g counts1 counts2 :
  categorize_pauses_np counts gaps = Ok counts1 →
  categorize_pause_np counts1 g = Ok counts2 →
  categorize_pauses_np counts (gaps ++ [g]) = Ok counts2.
Proof.
  unfold categorize_pauses_np. intros H1 H2.
  rewrite for_each_app, H1. simpl. by rewrite H2.
Qed.

Section record_processor_np_properties.

Context {datetime : Type}.
Variable datetime64 : string → option datetime.
Variable delta : datetime → datetime → Z.

Lemma parse_datetime64_Ok text t :
  parse_datetime64 datetime64 text = Ok t → datetime64 text = Some t.
Proof. unfold parse_datetime64. destruct (datetime64 text); congruence. Qed.

Lemma parse_datetime64_Some text t :
  datetime64 text = Some t → parse_datetime64 datetime64 text = Ok t.
Proof. unfold parse_datetime64. by intros ->. Qed.

Lemma last_stamp_cons (prev t : datetime) (times : list datetime) :
  default prev (last (t :: times)) = default t (last times).
Proof.
  destruct times as [|t' times]; [reflexivity|]. rewrite last_cons_cons.
  destruct (last (t' :: times)) eqn:E; [done | by apply last_None in E].
Qed.

Lemma deltas_snoc prev times t :
  deltas delta prev (times ++ [t])
  = deltas delta prev times ++ [delta t (default prev (last times))].
Proof.
  revert prev. induction times as [|t' times IH]; intros prev; [done|].
  rewrite last_stamp_cons. simpl. by rewrite IH.
Qed.

(** Exact differences are the differences of the ticks. *)
Lemma deltas_exact ticks prev times :
  exact_differences delta ticks (prev :: times) →
  deltas delta prev times = diffs (ticks prev) (ticks <$> times).
Proof.
  revert prev. induction times as [|t times IH]; intros prev H; [done|].
  cbn [deltas fmap list_fmap diffs]. f_equal.
  - apply H; [apply list_elem_of_further, list_elem_of_here | apply list_elem_of_here].
  - apply IH. intros a b Ha Hb.
    apply H; by apply list_elem_of_further.
Qed.

(** One iteration of the keystroke loop that does not raise. *)
Lemma keystroke_body_np_Ok rid sid st k st' :
  keystroke_body_np datetime64 delta rid sid st k = Ok st' →
  (valid_keystroke k = Ok true ∧
   ∃ created t counts,
     attrib k !! "created" = Some created ∧ datetime64 created = Some t ∧
     categorize_pause_np (np_pause_counts st) (delta t (np_last_milestone st))
       = Ok counts ∧
     st' = LoopStateNp (np_valid_keystroke_count st + 1) t counts
             (np_all_pauses_data st ++
                [[Str rid; Str sid; Int (delta t (np_last_milestone st));
                  Str EmptyString]]))
  ∨ (valid_keystroke k = Ok false ∧
     st' = LoopStateNp (np_valid_keystroke_count st) (np_last_milestone st)
             (np_pause_counts st)
             (np_all_pauses_data st ++ [[Str rid; Str sid; PyNone; Str "Omitted ks"]])).
Proof.
  unfold keystroke_body_np. intros H.
  apply bind_Ok in H as ([|] & Hv & H).
  - left. split; [done|].
    apply bind_Ok in H as (created & Hc & H).
    apply bind_Ok in H as (t & Ht & H).
    apply bind_Ok in H as (counts & Hcat & H).
    exists created, t, counts.
    apply getitem_Ok in Hc. apply parse_datetime64_Ok in Ht.
    repeat split; congruence.
  - right. split; congruence.
Qed.

(** The keystroke loop classifies the differences of the consecutive valid
    time stamps and writes them, in order, into the audit rows. *)
Lemma keystroke_loop_np_gaps rid sid kss : ∀ st st',
  for_each (keystroke_body_np datetime64 delta rid sid) st kss = Ok st' →
  categorize_pauses_np (np_pause_counts st)
    (deltas delta (np_last_milestone st) (valid_stamps datetime64 kss))
  = Ok (np_pause_counts st') ∧
  np_last_milestone st'
  = default (np_last_milestone st) (last (valid_stamps datetime64 kss)) ∧
  omap audit_pause (np_all_pauses_data st')
  = omap audit_pause (np_all_pauses_data st)
    ++ deltas delta (np_last_milestone st) (valid_stamps datetime64 kss) ∧
  length (valid_stamps datetime64 kss) = count is_valid kss ∧
  np_valid_keystroke_count st'
  = np_valid_keystroke_count st + Z.of_nat (count is_valid kss) ∧
  length (np_all_pauses_data st')
  = (length (np_all_pauses_data st) + length kss)%nat.
Proof.
  unfold valid_stamps.
  induction kss as [|k kss IH]; intros st st' H.
  - injection H as <-. simpl.
    split_and!; first [reflexivity | by rewrite app_nil_r | lia].
  - simpl in H. apply bind_Ok in H as (st1 & H1 & H).
    apply keystroke_body_np_Ok in H1
      as [(Hv & created & t & counts & Hc & Ht & Hcat & ->) | (Hv & ->)].
    + destruct (IH _ _ H) as (A & B & C & D & E & F).
      cbn [np_pause_counts np_last_milestone np_all_pauses_data
           np_valid_keystroke_count] in *.
      assert (Hiv : is_valid k = true) by (unfold is_valid; by rewrite Hv).
      assert (Hvt : valid_stamp datetime64 k = Some t).
      { unfold valid_stamp. rewrite Hiv, Hc. exact Ht. }
      cbn [omap list_omap count]. rewrite Hvt, Hiv. cbn [deltas length].
      split_and!.
      * unfold categorize_pauses_np in *. simpl. by rewrite Hcat.
      * by rewrite B, last_stamp_cons.
      * rewrite C, omap_app. cbn [omap list_omap audit_pause lookup list_lookup].
        by rewrite <- app_assoc.
      * by rewrite D.
      * rewrite E. lia.
      * rewrite F, length_app. simpl. lia.
    + destruct (IH _ _ H) as (A & B & C & D & E & F).
      cbn [np_pause_counts np_last_milestone np_all_pauses_data
           np_valid_keystroke_count] in *.
      assert (Hiv : is_valid k = false) by (unfold is_valid; by rewrite Hv).
      assert (Hvt : valid_stamp datetime64 k = None).
      { unfold valid_stamp. by rewrite Hiv. }
      cbn [omap list_omap count]. rewrite Hvt, Hiv.
      split_and!; try done.
      * rewrite C, omap_app. cbn [omap list_omap audit_pause lookup list_lookup].
        by rewrite app_nil_r.
      * rewrite F, length_app. simpl. lia.
Qed.

Lemma valid_stamps_none kss :
  count is_valid kss = 0%nat → valid_stamps datetime64 kss = [].
Proof.
  unfold valid_stamps. induction kss as [|k kss IH]; [done|].
  cbn [count omap list_omap]. unfold valid_stamp at 1.
  destruct (is_valid k); [lia|]. intros H. by apply IH.
Qed.

(** What a processed record classifies and audits: the differences along
    start, the valid time stamps and stop, unless the record has two or
    more events and none of them valid, where it is nothing. *)
Lemma process_record_np_classifies r L :
  process_record_np datetime64 delta r = Ok L →
  ∃ started t0 stopped t1 gaps,
    record_attrib r !! "started" = Some started ∧ datetime64 started = Some t0 ∧
    record_attrib r !! "stopped" = Some stopped ∧ datetime64 stopped = Some t1 ∧
    duration_ms L = delta t1 t0 ∧
    categorize_pauses_np create_pause_counts_dict gaps = Ok (final_counts L) ∧
    omap audit_pause (audit_rows L) = gaps ∧
    (findall_ks r = [] ∨ (∃ k, findall_ks r = [k])
       ∨ (0 < count is_valid (findall_ks r))%nat →
     gaps = deltas delta t0 (valid_stamps datetime64 (findall_ks r) ++ [t1]) ∧
     keystrokes_count L = Z.of_nat (count is_valid (findall_ks r))) ∧
    ((2 ≤ length (findall_ks r))%nat ∧ count is_valid (findall_ks r) = 0%nat →
     gaps = [] ∧ keystrokes_count L = Z.of_nat (length (findall_ks r))).
Proof.
  unfold process_record_np. intros H.
  apply bind_Ok in H as (s0 & Hs0 & H). apply bind_Ok in H as (t0 & Ht0 & H).
  apply bind_Ok in H as (s1 & Hs1 & H). apply bind_Ok in H as (t1 & Ht1 & H).
  apply bind_Ok in H as (rid & Hrid & H). apply bind_Ok in H as (sid & Hsid & H).
  apply bind_Ok in H as (act & Hact & H).
  apply getitem_Ok in Hs0, Hs1, Hrid, Hsid, Hact.
  apply parse_datetime64_Ok in Ht0, Ht1.
  exists s0, t0, s1, t1.
  cbv zeta in H.
  assert (Loop : ∀ st,
    for_each (keystroke_body_np datetime64 delta rid sid)
      (LoopStateNp 0 t0 create_pause_counts_dict []) (findall_ks r) = Ok st →
    (if 0 <? np_valid_keystroke_count st
     then counts ← categorize_pause_np (np_pause_counts st)
                      (delta t1 (np_last_milestone st));
          Ok (RecordLocals rid sid act (delta t1 t0) counts
                (np_valid_keystroke_count st)
                (np_all_pauses_data st ++
                   [[Str rid; Str sid; Int (delta t1 (np_last_milestone st));
                     Str EmptyString]]))
     else Ok (RecordLocals rid sid act (delta t1 t0) (np_pause_counts st)
                (Z.of_nat (length (findall_ks r))) (np_all_pauses_data st)))
    = Ok L →
    (∀ k, findall_ks r = [k] → valid_keystroke k = Ok true) →
    findall_ks r ≠ [] →
    ∃ gaps,
      duration_ms L = delta t1 t0 ∧
      categorize_pauses_np create_pause_counts_dict gaps = Ok (final_counts L) ∧
      omap audit_pause (audit_rows L) = gaps ∧
      (findall_ks r = [] ∨ (∃ k, findall_ks r = [k])
         ∨ (0 < count is_valid (findall_ks r))%nat →
       gaps = deltas delta t0 (valid_stamps datetime64 (findall_ks r) ++ [t1]) ∧
       keystrokes_count L = Z.of_nat (count is_valid (findall_ks r))) ∧
      ((2 ≤ length (findall_ks r))%nat ∧ count is_valid (findall_ks r) = 0%nat →
       gaps = [] ∧ keystrokes_count L = Z.of_nat (length (findall_ks r)))).
  { clear H. intros st Hst HL Hone Hne.
    destruct (keystroke_loop_np_gaps _ _ _ _ _ Hst) as (A & B & C & D & E & _).
    cbn [np_pause_counts np_last_milestone np_all_pauses_data
         np_valid_keystroke_count] in *.
    destruct (0 <? np_valid_keystroke_count st) eqn:Epos.
    - apply Z.ltb_lt in Epos.
      apply bind_Ok in HL as (c & Hc & HL). injection HL as <-.
      exists (deltas delta t0 (valid_stamps datetime64 (findall_ks r) ++ [t1])).
      rewrite deltas_snoc, <- B. cbn [duration_ms final_counts audit_rows keystrokes_count].
      split_and!; try done.
      + by apply (categorize_pauses_np_snoc _ _ _ (np_pause_counts st)).
      + rewrite omap_app, C. reflexivity.
      + intros [_ Hz]. lia.
    - apply Z.ltb_ge in Epos. injection HL as <-.
      assert (Hz : count is_valid (findall_ks r) = 0%nat) by lia.
      rewrite (valid_stamps_none _ Hz) in *. cbn [deltas] in *.
      exists []. cbn [duration_ms final_counts audit_rows keystrokes_count].
      split_and!; try done.
      intros [Enil | [[k Ek] | Hv']]; [done | | lia].
      rewrite Ek in Hz. rewrite (count_valid_singleton k (Hone k Ek)) in Hz. lia. }
  destruct (findall_ks r) as [|k [|k' kss]] eqn:Eks.
  - cbn in H. apply bind_Ok in H as (c & Hc & H). injection H as <-.
    exists [delta t1 t0]. cbn [duration_ms final_counts audit_rows keystrokes_count].
    split_and!; try done.
    + unfold categorize_pauses_np. simpl. by rewrite Hc.
    + intros [Hlen _]. simpl in Hlen. lia.
  - cbn in H. apply bind_Ok in H as (c & Hc & H).
    apply fmap_Ok in Hc as (b & Hb & ->). destruct b; cbn in H.
    + apply bind_Ok in H as (st & Hst & H).
      destruct (Loop st Hst H) as (gaps & G1 & G2 & G3 & G4 & G5); [by intros k0 [= <-] | done |].
      exists gaps. by split_and!.
    + apply bind_Ok in H as (c & Hc & H). injection H as <-.
      exists [delta t1 t0]. cbn [duration_ms final_counts audit_rows keystrokes_count].
      split_and!; try done.
      * unfold categorize_pauses_np. simpl. by rewrite Hc.
      * intros _. rewrite (count_invalid_singleton k Hb).
        rewrite (valid_stamps_none [k] (count_invalid_singleton k Hb)). done.
      * intros [Hlen _]. simpl in Hlen. lia.
  - assert (E0 : (Z.of_nat (length (k :: k' :: kss)) =? 0) = false)
      by (apply Z.eqb_neq; simpl; lia).
    assert (E1 : (Z.of_nat (length (k :: k' :: kss)) =? 1) = false)
      by (apply Z.eqb_neq; simpl; lia).
    rewrite E0, E1 in H. cbn [and_then mbind result_bind] in H.
    apply bind_Ok in H as (st & Hst & H).
    destruct (Loop st Hst H) as (gaps & G1 & G2 & G3 & G4 & G5); [by intros k0 [=] | done |].
    exists gaps. by split_and!.
Qed.

End record_processor_np_properties.

Lemma categorize_pauses_np_total gaps counts :
  categorize_pauses_np create_pause_counts_dict gaps = Ok counts →
  counts !! "total_duration" = Some (wrap64 (sum_Z gaps)).
Proof.
  intros H.
  destruct (categorize_pauses_np_fresh gaps)
    as (c & Hc & _ & _ & _ & _ & _ & _ & H7 & _).
  assert (c = counts) as -> by congruence. exact H7.
Qed.

Section record_processor_np_totality.

Context {datetime : Type}.
Variable datetime64 : string → option datetime.
Variable delta : datetime → datetime → Z.

Lemma keystroke_body_np_total rid sid st k :
  has_keys (np_pause_counts st) → well_formed_ks_np datetime64 k →
  ∃ st', keystroke_body_np datetime64 delta rid sid st k = Ok st' ∧
         has_keys (np_pause_counts st').
Proof.
  intros Hk (Hf & created & t & Hc & Ht).
  destruct (valid_keystroke_total k Hf) as [b Hv].
  unfold keystroke_body_np. rewrite Hv. cbn [mbind result_bind].
  destruct b.
  - rewrite (getitem_Some _ _ _ Hc). cbn [mbind result_bind].
    rewrite (parse_datetime64_Some _ _ _ Ht). cbn [mbind result_bind].
    destruct (categorize_pause_np_lookup (np_pause_counts st)
                (delta t (np_last_milestone st)) Hk) as (c & Hcat & _).
    rewrite Hcat. cbn [mbind result_bind].
    eexists. split; [reflexivity|]. cbn [np_pause_counts].
    by apply (categorize_pause_np_has_keys _ _ _ Hcat).
  - eexists. split; [reflexivity | done].
Qed.

Lemma keystroke_loop_np_total rid sid kss : ∀ st,
  has_keys (np_pause_counts st) → Forall (well_formed_ks_np datetime64) kss →
  ∃ st', for_each (keystroke_body_np datetime64 delta rid sid) st kss = Ok st' ∧
         has_keys (np_pause_counts st').
Proof.
  induction kss as [|k kss IH]; intros st Hk Hwf.
  - by exists st.
  - apply Forall_cons in Hwf as [Hwk Hwf].
    destruct (keystroke_body_np_total rid sid st k Hk Hwk) as (st1 & H1 & Hk1).
    destruct (IH st1 Hk1 Hwf) as (st' & H' & Hk').
    exists st'. split; [|done]. simpl. by rewrite H1.
Qed.

(** The record loop body does not raise on a well-formed record. *)
Lemma process_record_np_total r :
  well_formed_record_np datetime64 r →
  ∃ L, process_record_np datetime64 delta r = Ok L.
Proof.
  intros ((started & t0 & Hs0 & Ht0) & (stopped & t1 & Hs1 & Ht1) & [rid Hrid]
          & [sid Hsid] & [act Hact] & Hwf).
  unfold process_record_np.
  rewrite (getitem_Some _ _ _ Hs0). cbn [mbind result_bind].
  rewrite (parse_datetime64_Some _ _ _ Ht0). cbn [mbind result_bind].
  rewrite (getitem_Some _ _ _ Hs1). cbn [mbind result_bind].
  rewrite (parse_datetime64_Some _ _ _ Ht1). cbn [mbind result_bind].
  rewrite (getitem_Some _ _ _ Hrid), (getitem_Some _ _ _ Hsid),
    (getitem_Some _ _ _ Hact).
  cbn [mbind result_bind].
  destruct (categorize_pause_np_lookup create_pause_counts_dict (delta t1 t0)
              has_keys_create) as (c & Hc & _).
  destruct (keystroke_loop_np_total rid sid (findall_ks r)
              (LoopStateNp 0 t0 create_pause_counts_dict []) has_keys_create Hwf)
    as (st & Hst & Hk).
  destruct (categorize_pause_np_lookup (np_pause_counts st)
              (delta t1 (np_last_milestone st)) Hk) as (c' & Hc' & _).
  rewrite Hc, Hst. cbn [mbind result_bind]. rewrite Hc'. cbn [mbind result_bind].
  destruct (findall_ks r) as [|k [|k' kss]].
  - by eexists.
  - apply Forall_cons in Hwf as [[Hf _] _].
    destruct (valid_keystroke_total k Hf) as [b Hv].
    change (Z.of_nat (length [k]) =? 0) with false.
    change (Z.of_nat (length [k]) =? 1) with true.
    change (getindex [k] 0) with (Ok k).
    cbn [and_then mbind result_bind].
    rewrite Hv. cbn [fmap result_fmap mbind result_bind].
    destruct b; cbn [negb]; [| by eexists].
    destruct (0 <? np_valid_keystroke_count st); by eexists.
  - assert (E0 : (Z.of_nat (length (k :: k' :: kss)) =? 0) = false)
      by (apply Z.eqb_neq; simpl; lia).
    assert (E1 : (Z.of_nat (length (k :: k' :: kss)) =? 1) = false)
      by (apply Z.eqb_neq; simpl; lia).
    rewrite E0, E1. cbn [and_then mbind result_bind].
    destruct (0 <? np_valid_keystroke_count st); by eexists.
Qed.

End record_processor_np_totality.

Section record_np_gaps.

Context {datetime : Type}.
Variable datetime64 : string → option datetime.
Variable delta : datetime → datetime → Z.

(** X5. A processed record that has no event, one event, or at least one
    valid event classifies exactly the [numpy] differences of the
    consecutive time stamps start, valid events in document order, stop,
    each as [numpy] computes it (NaT and mixed precisions included); the
    audit rows carry the same durations in the same order, the Keystrokes
    count is the number of valid events, and the record duration is the
    difference of stop and start. The differences are [numpy.int64]
    values. *)
Theorem record_np_classifies_consecutive_gaps (r : record_element)
    (L : record_locals) :
  (∀ a b, in_int64 (delta a b)) →
  process_record_np datetime64 delta r = Ok L →
  findall_ks r = [] ∨ (∃ k, findall_ks r = [k])
    ∨ (0 < count is_valid (findall_ks r))%nat →
  ∃ started start stopped stop,
    record_attrib r !! "started" = Some started ∧ datetime64 started = Some start ∧
    record_attrib r !! "stopped" = Some stopped ∧ datetime64 stopped = Some stop ∧
    duration_ms L = delta stop start ∧
    categorize_pauses_np create_pause_counts_dict
      (deltas delta start (valid_stamps datetime64 (findall_ks r) ++ [stop]))
    = Ok (final_counts L) ∧
    omap audit_pause (audit_rows L)
    = deltas delta start (valid_stamps datetime64 (findall_ks r) ++ [stop]) ∧
    keystrokes_count L = Z.of_nat (count is_valid (findall_ks r)).
Proof.
  intros _ H Hcase.
  destruct (process_record_np_classifies datetime64 delta r L H)
    as (s0 & t0 & s1 & t1 & gaps & Hs0 & Ht0 & Hs1 & Ht1 & Hd & Hc & Ha & Hg & _).
  destruct (Hg Hcase) as [-> Hn].
  exists s0, t0, s1, t1. by split_and!.
Qed.

(** X6. For every processed record the pause durations of its audit rows
    (differences of time stamps, [numpy.int64] values) add up, in 64-bit
    arithmetic, to the [total_duration] of its accumulator, the last column
    of its summary row. *)
Theorem audit_durations_np_add_up (r : record_element) (L : record_locals) :
  (∀ a b, in_int64 (delta a b)) →
  process_record_np datetime64 delta r = Ok L →
  final_counts L !! "total_duration"
  = Some (wrap64 (sum_Z (omap audit_pause (audit_rows L)))).
Proof.
  intros _ H.
  destruct (process_record_np_classifies datetime64 delta r L H)
    as (s0 & t0 & s1 & t1 & gaps & _ & _ & _ & _ & _ & Hc & Ha & _).
  rewrite Ha. by apply categorize_pauses_np_total.
Qed.

(** Along exact differences the gaps of a record telescope. *)
Lemma exact_gaps ticks start stop stamps :
  exact_differences delta ticks (start :: stamps ++ [stop]) →
  deltas delta start (stamps ++ [stop])
  = diffs (ticks start) (ticks <$> (stamps ++ [stop])) ∧
  sum_Z (deltas delta start (stamps ++ [stop])) = ticks stop - ticks start ∧
  delta stop start = ticks stop - ticks start.
Proof.
  intros Hex. rewrite (deltas_exact delta ticks _ _ Hex).
  split; [done|]. split.
  - rewrite sum_Z_diffs, fmap_app. cbn [fmap list_fmap].
    rewrite last_snoc. reflexivity.
  - apply Hex.
    + apply list_elem_of_further, elem_of_app. right. apply list_elem_of_here.
    + apply list_elem_of_here.
Qed.

(** C1 (amended). When a record has been processed, it has no event,
    exactly one event, or at least one valid event, and the differences
    among its time stamps (start, the valid events in document order,
    stop) are exact on one scale and the record duration fits 64 bits, the
    accumulator's total_duration is stop - start on that scale, the record
    duration, whatever the number of events and of valid and invalid ones
    among them. *)
Theorem total_duration_np_is_record_duration (r : record_element)
    (L : record_locals) (started stopped : string) (start stop : datetime)
    (ticks : datetime → Z) :
  process_record_np datetime64 delta r = Ok L →
  findall_ks r = [] ∨ (∃ k, findall_ks r = [k])
    ∨ (0 < count is_valid (findall_ks r))%nat →
  record_attrib r !! "started" = Some started → datetime64 started = Some start →
  record_attrib r !! "stopped" = Some stopped → datetime64 stopped = Some stop →
  exact_differences delta ticks
    (start :: valid_stamps datetime64 (findall_ks r) ++ [stop]) →
  in_int64 (ticks stop - ticks start) →
  final_counts L !! "total_duration" = Some (ticks stop - ticks start) ∧
  duration_ms L = ticks stop - ticks start.
Proof.
  intros H Hcase Hs0 Ht0 Hs1 Ht1 Hex Hrange.
  destruct (process_record_np_classifies datetime64 delta r L H)
    as (s0 & t0 & s1 & t1 & gaps & Hs0' & Ht0' & Hs1' & Ht1' & Hd & Hc & _ & Hg & _).
  destruct (Hg Hcase) as [-> _].
  assert (s0 = started) as -> by congruence.
  assert (s1 = stopped) as -> by congruence.
  assert (t0 = start) as -> by congruence.
  assert (t1 = stop) as -> by congruence.
  destruct (exact_gaps ticks start stop _ Hex) as (_ & Hsum & Hdelta).
  split; [|by rewrite Hd].
  rewrite (categorize_pauses_np_total _ _ Hc), Hsum.
  by rewrite (wrap64_id _ Hrange).
Qed.

(** X7. When the differences among the time stamps start, valid events in
    document order, stop are exact on one scale, the stamps do not
    decrease and the record duration is below 2^63, the summary of a
    processed record (with no event, one event, or at least one valid
    event) has nested buckets, and no bucket duration exceeds the record
    duration. *)
Theorem monotone_record_np_buckets (r : record_element) (L : record_locals)
    (started stopped : string) (start stop : datetime) (ticks : datetime → Z) :
  process_record_np datetime64 delta r = Ok L →
  findall_ks r = [] ∨ (∃ k, findall_ks r = [k])
    ∨ (0 < count is_valid (findall_ks r))%nat →
  record_attrib r !! "started" = Some started → datetime64 started = Some start →
  record_attrib r !! "stopped" = Some stopped → datetime64 stopped = Some stop →
  exact_differences delta ticks
    (start :: valid_stamps datetime64 (findall_ks r) ++ [stop]) →
  Sorted Z.le
    (ticks <$> (start :: valid_stamps datetime64 (findall_ks r) ++ [stop])) →
  ticks stop - ticks start < 2 ^ 63 →
  ∃ d3 d5 d10,
    final_counts L !! "duration_300" = Some d3 ∧
    final_counts L !! "duration_500" = Some d5 ∧
    final_counts L !! "duration_1000" = Some d10 ∧
    bucket_invariant (final_counts L) ∧
    0 ≤ d10 ∧ d10 ≤ d5 ∧ d5 ≤ d3 ∧ d3 ≤ duration_ms L.
Proof.
  intros H Hcase Hs0 Ht0 Hs1 Ht1 Hex Hsorted Hrange.
  destruct (process_record_np_classifies datetime64 delta r L H)
    as (s0 & t0 & s1 & t1 & gaps & Hs0' & Ht0' & Hs1' & Ht1' & Hd & Hc & _ & Hg & _).
  destruct (Hg Hcase) as [-> _].
  assert (s0 = started) as -> by congruence.
  assert (s1 = stopped) as -> by congruence.
  assert (t0 = start) as -> by congruence.
  assert (t1 = stop) as -> by congruence.
  destruct (exact_gaps ticks start stop _ Hex) as (Hgaps & Hsum & Hdelta).
  assert (Hnn : Forall (λ g, 0 ≤ g)
                  (deltas delta start
                     (valid_stamps datetime64 (findall_ks r) ++ [stop]))).
  { rewrite Hgaps. apply diffs_sorted. exact Hsorted. }
  destruct (categorize_pauses_np_exact _ Hnn)
    as (c & Hc' & H1 & H2 & H3 & H4 & H5 & H6 & H7); [lia|].
  assert (c = final_counts L) as -> by congruence.
  destruct (ordered_sums _ Hnn) as (O1 & O2 & O3 & O4 & O5 & O6).
  eexists _, _, _. split; [exact H1|]. split; [exact H3|]. split; [exact H5|].
  split.
  - unfold bucket_invariant. eexists _, _, _, _, _, _, _.
    split_and!; try eassumption; lia.
  - rewrite Hd, Hdelta, <- Hsum. lia.
Qed.

End record_np_gaps.

(** ** The examples on [numpy.datetime64] *)

Lemma numpy_delta_in_int64 a b : in_int64 (numpy_delta a b).
Proof.
  destruct a as [|ua ta], b as [|ub tb]; cbn [numpy_delta];
    first [apply wrap64_in_int64 | unfold in_int64; lia].
Qed.

(** Millisecond stamps far from the ends of the 64-bit range have exact
    differences. *)
Lemma exact_differences_millis stamps :
  Forall (λ a, ∃ t, a = Stamp 1000 t ∧ - 2 ^ 62 ≤ t < 2 ^ 62) stamps →
  exact_differences numpy_delta numpy_millis stamps.
Proof.
  intros H a b Ha Hb.
  rewrite Forall_forall in H.
  destruct (H a Ha) as (ta & -> & Hta). destruct (H b Hb) as (tb & -> & Htb).
  unfold numpy_delta, numpy_millis.
  change (Z.max 1000 1000) with 1000. change (1000 / 1000) with 1.
  rewrite !Z.mul_1_r. apply wrap64_id. unfold in_int64. lia.
Qed.

Lemma typed_ks_well_formed_np created t :
  numpy_datetime64 created = Some t →
  well_formed_ks_np numpy_datetime64 (typed_ks created).
Proof.
  intros H. split.
  - unfold has_filter_attributes, filter_attributes. repeat constructor; by eexists.
  - by exists created, t.
Qed.

Lemma system_ks_well_formed_np created t :
  numpy_datetime64 created = Some t →
  well_formed_ks_np numpy_datetime64 (system_ks created).
Proof.
  intros H. split.
  - unfold has_filter_attributes, filter_attributes. repeat constructor; by eexists.
  - by exists created, t.
Qed.

Lemma example_attributes_well_formed_np stopped t1 kss :
  numpy_datetime64 stopped = Some t1 →
  Forall (well_formed_ks_np numpy_datetime64) kss →
  well_formed_record_np numpy_datetime64 (record (example_attributes stopped) kss).
Proof.
  intros H Hks. unfold well_formed_record_np. split_and!; try by eexists.
  - exists "2019-05-01T10:00:00.000", (Stamp 1000 1556704800000).
    split; reflexivity.
  - by exists stopped, t1.
  - exact Hks.
Qed.

Lemma mixed_record_well_formed_np :
  well_formed_record_np numpy_datetime64 mixed_record.
Proof.
  apply (example_attributes_well_formed_np _ (Stamp 1000 1556704802000));
    [reflexivity|].
  apply Forall_cons_2;
    [by apply (system_ks_well_formed_np _ (Stamp 1000 1556704800200)) |].
  apply Forall_cons_2;
    [by apply (typed_ks_well_formed_np _ (Stamp 1000 1556704801300)) |].
  apply Forall_cons_2;
    [by apply (system_ks_well_formed_np _ (Stamp 1000 1556704801600)) |].
  apply Forall_nil_2.
Qed.

Lemma empty_created_record_well_formed_np :
  well_formed_record_np numpy_datetime64 empty_created_record.
Proof.
  apply (example_attributes_well_formed_np _ (Stamp 1000 1556704800900));
    [reflexivity|].
  apply Forall_cons_2; [by apply (typed_ks_well_formed_np _ NaT) |].
  apply Forall_nil_2.
Qed.

Lemma seconds_record_well_formed_np :
  well_formed_record_np numpy_datetime64 seconds_record.
Proof.
  unfold well_formed_record_np. split_and!; try by eexists.
  - exists "2019-05-01T10:00:00", (Stamp 1 1556704800). split; reflexivity.
  - exists "2019-05-01T10:00:01", (Stamp 1 1556704801). split; reflexivity.
  - apply Forall_cons_2;
      [by apply (typed_ks_well_formed_np _ (Stamp 1000 1556704800400)) |].
    apply Forall_nil_2.
Qed.

Lemma mixed_record_stamps :
  record_attrib mixed_record !! "started" = Some "2019-05-01T10:00:00.000" ∧
  numpy_datetime64 "2019-05-01T10:00:00.000" = Some (Stamp 1000 1556704800000) ∧
  record_attrib mixed_record !! "stopped" = Some "2019-05-01T10:00:02.000" ∧
  numpy_datetime64 "2019-05-01T10:00:02.000" = Some (Stamp 1000 1556704802000) ∧
  valid_stamps numpy_datetime64 (findall_ks mixed_record)
  = [Stamp 1000 1556704801300].
Proof. split_and!; reflexivity. Qed.

Lemma mixed_record_exact :
  exact_differences numpy_delta numpy_millis
    (Stamp 1000 1556704800000
     :: valid_stamps numpy_datetime64 (findall_ks mixed_record)
     ++ [Stamp 1000 1556704802000]).
Proof.
  destruct mixed_record_stamps as (_ & _ & _ & _ & ->).
  apply exact_differences_millis.
  repeat constructor; eexists; (split; [reflexivity | lia]).
Qed.

(** Start and stop written to the second, one typed character written to
    the millisecond: the record duration is 1 (second), the two gaps are 400
    and 600 (milliseconds) and the total is 1000. *)
Lemma seconds_record_processed :
  ∃ L, process_record_np numpy_datetime64 numpy_delta seconds_record = Ok L ∧
       duration_ms L = 1 ∧
       omap audit_pause (audit_rows L) = [400; 600] ∧
       final_counts L !! "total_duration" = Some 1000 ∧
       keystrokes_count L = 1.
Proof.
  destruct (process_record_np_total numpy_datetime64 numpy_delta seconds_record
              seconds_record_well_formed_np) as [L HL].
  exists L. split; [exact HL|].
  destruct (process_record_np_classifies _ _ _ _ HL)
    as (s0 & t0 & s1 & t1 & gaps & Hs0 & Ht0 & Hs1 & Ht1 & Hd & Hc & Ha & Hg & _).
  assert (s0 = "2019-05-01T10:00:00") as -> by (vm_compute in Hs0; congruence).
  assert (s1 = "2019-05-01T10:00:01") as -> by (vm_compute in Hs1; congruence).
  assert (t0 = Stamp 1 1556704800) as -> by (vm_compute in Ht0; congruence).
  assert (t1 = Stamp 1 1556704801) as -> by (vm_compute in Ht1; congruence).
  destruct Hg as [Hgaps Hn]; [right; left; by eexists|].
  assert (Eg : gaps = [400; 600]) by (rewrite Hgaps; reflexivity).
  rewrite Eg in Ha, Hc.
  split; [rewrite Hd; reflexivity|]. split; [exact Ha|].
  split; [rewrite (categorize_pauses_np_total _ _ Hc); reflexivity|].
  rewrite Hn. reflexivity.
Qed.

(** One typed character whose [created] is empty in a record of 900 ms:
    the time stamp is NaT, both gaps are -2^63, their 64-bit sum is 0, and
    the record duration is 900. *)
Lemma empty_created_record_processed :
  ∃ L, process_record_np numpy_datetime64 numpy_delta empty_created_record = Ok L ∧
       duration_ms L = 900 ∧
       omap audit_pause (audit_rows L) = [- 2 ^ 63; - 2 ^ 63] ∧
       final_counts L !! "total_duration" = Some 0 ∧
       keystrokes_count L = 1.
Proof.
  destruct (process_record_np_total numpy_datetime64 numpy_delta
              empty_created_record empty_created_record_well_formed_np) as [L HL].
  exists L. split; [exact HL|].
  destruct (process_record_np_classifies _ _ _ _ HL)
    as (s0 & t0 & s1 & t1 & gaps & Hs0 & Ht0 & Hs1 & Ht1 & Hd & Hc & Ha & Hg & _).
  assert (s0 = "2019-05-01T10:00:00.000") as -> by (vm_compute in Hs0; congruence).
  assert (s1 = "2019-05-01T10:00:00.900") as -> by (vm_compute in Hs1; congruence).
  assert (t0 = Stamp 1000 1556704800000) as -> by (vm_compute in Ht0; congruence).
  assert (t1 = Stamp 1000 1556704800900) as -> by (vm_compute in Ht1; congruence).
  destruct Hg as [Hgaps Hn]; [right; left; by eexists|].
  assert (Eg : gaps = [- 2 ^ 63; - 2 ^ 63]) by (rewrite Hgaps; reflexivity).
  rewrite Eg in Ha, Hc.
  split; [rewrite Hd; reflexivity|]. split; [exact Ha|].
  split; [rewrite (categorize_pauses_np_total _ _ Hc); reflexivity|].
  rewrite Hn. reflexivity.
Qed.

Lemma record_np_classifies_consecutive_gaps_witness :
  ∃ L, process_record_np numpy_datetime64 numpy_delta empty_created_record = Ok L ∧
    ∃ started start stopped stop,
      record_attrib empty_created_record !! "started" = Some started ∧
      numpy_datetime64 started = Some start ∧
      record_attrib empty_created_record !! "stopped" = Some stopped ∧
      numpy_datetime64 stopped = Some stop ∧
      duration_ms L = numpy_delta stop start ∧
      categorize_pauses_np create_pause_counts_dict
        (deltas numpy_delta start
           (valid_stamps numpy_datetime64 (findall_ks empty_created_record)
            ++ [stop]))
      = Ok (final_counts L) ∧
      omap audit_pause (audit_rows L)
      = deltas numpy_delta start
          (valid_stamps numpy_datetime64 (findall_ks empty_created_record)
           ++ [stop]) ∧
      keystrokes_count L
      = Z.of_nat (count is_valid (findall_ks empty_created_record)).
Proof.
  destruct (process_record_np_total numpy_datetime64 numpy_delta
              empty_created_record empty_created_record_well_formed_np) as [L HL].
  exists L. split; [exact HL|].
  apply (record_np_classifies_consecutive_gaps numpy_datetime64 numpy_delta
           empty_created_record L numpy_delta_in_int64 HL).
  right. left. by eexists.
Defined.

Lemma audit_durations_np_add_up_witness :
  ∃ L, process_record_np numpy_datetime64 numpy_delta seconds_record = Ok L ∧
       final_counts L !! "total_duration"
       = Some (wrap64 (sum_Z (omap audit_pause (audit_rows L)))).
Proof.
  destruct (process_record_np_total numpy_datetime64 numpy_delta seconds_record
              seconds_record_well_formed_np) as [L HL].
  exists L. split; [exact HL|].
  apply (audit_durations_np_add_up numpy_datetime64 numpy_delta seconds_record L
           numpy_delta_in_int64 HL).
Defined.

Lemma total_duration_np_is_record_duration_witness :
  ∃ L, process_record_np numpy_datetime64 numpy_delta mixed_record = Ok L ∧
       final_counts L !! "total_duration" = Some 2000 ∧ duration_ms L = 2000.
Proof.
  destruct (process_record_np_total numpy_datetime64 numpy_delta mixed_record
              mixed_record_well_formed_np) as [L HL].
  exists L. split; [exact HL|].
  destruct mixed_record_stamps as (Hs0 & Ht0 & Hs1 & Ht1 & _).
  apply (total_duration_np_is_record_duration numpy_datetime64 numpy_delta
           mixed_record L "2019-05-01T10:00:00.000" "2019-05-01T10:00:02.000"
           (Stamp 1000 1556704800000) (Stamp 1000 1556704802000)
           numpy_millis HL).
  - right. right. destruct mixed_record_counts as [-> _]. lia.
  - exact Hs0.
  - exact Ht0.
  - exact Hs1.
  - exact Ht1.
  - exact mixed_record_exact.
  - unfold in_int64. vm_compute. split; [discriminate | reflexivity].
Defined.

Lemma monotone_record_np_buckets_witness :
  ∃ L d3 d5 d10,
    process_record_np numpy_datetime64 numpy_delta mixed_record = Ok L ∧
    final_counts L !! "duration_300" = Some d3 ∧
    final_counts L !! "duration_500" = Some d5 ∧
    final_counts L !! "duration_1000" = Some d10 ∧
    bucket_invariant (final_counts L) ∧
    0 ≤ d10 ∧ d10 ≤ d5 ∧ d5 ≤ d3 ∧ d3 ≤ duration_ms L.
Proof.
  destruct (process_record_np_total numpy_datetime64 numpy_delta mixed_record
              mixed_record_well_formed_np) as [L HL].
  destruct mixed_record_stamps as (Hs0 & Ht0 & Hs1 & Ht1 & Hst).
  destruct (monotone_record_np_buckets numpy_datetime64 numpy_delta
              mixed_record L "2019-05-01T10:00:00.000" "2019-05-01T10:00:02.000"
              (Stamp 1000 1556704800000) (Stamp 1000 1556704802000)
              numpy_millis HL)
    as (d3 & d5 & d10 & H).
  - right. right. destruct mixed_record_counts as [-> _]. lia.
  - exact Hs0.
  - exact Ht0.
  - exact Hs1.
  - exact Ht1.
  - exact mixed_record_exact.
  - rewrite Hst. repeat constructor; vm_compute; discriminate.
  - vm_compute. reflexivity.
  - exists L, d3, d5, d10. split; [exact HL | exact H].
Defined.
